(** * istio-mcp-server: tool catalog, request handlers and backend reload

    A shallow embedding of the Go packages [pkg/istio] and [pkg/mcp].
    The cluster API, the [istioctl] subprocess, [client-go] and [fsnotify]
    are external collaborators: they appear as records of functions whose
    answers the theorems quantify over. *)

From Stdlib Require Import ZArith String Ascii Permutation.
From stdpp Require Import base strings gmap list sorting pretty.

(** ** The Go runtime as far as the program observes it *)
Module Go.

(** The [error] interface, observed only through [Error()]. *)
Record error : Type := errorString { Error : string }.

(** Two-valued returns [(T, error)] in which exactly one side is meaningful. *)
Inductive result (A : Type) : Type :=
| Ok (a : A)
| Err (e : error).
Global Arguments Ok {A} a.
Global Arguments Err {A} e.

(** A value of type [interface{}] as it arrives in a decoded argument map. *)
Inductive any : Type :=
| AnyNil
| AnyString (s : string)
| AnyNumber (n : Z)
| AnyBool (b : bool).

(** [m[k]] on a [map[string]interface{}]: the zero value [nil] for a missing key. *)
Definition index (m : gmap string any) (k : string) : any :=
  default AnyNil (m !! k).

(** [v != nil] *)
Definition notNil (v : any) : bool :=
  match v with AnyNil => false | _ => true end.

(** What one call leaves behind: requests sent to the cluster, subprocesses
    started, and log lines. *)
Inductive Event : Type :=
| ApiList (resource ns : string) (labelSelector fieldSelector : string)
| ApiGet (resource ns name : string)
| Exec (name : string) (cmdArgs : list string)
| Klog (line : string).

(** A call either returns or panics. *)
Inductive outcome (A : Type) : Type :=
| Returned (a : A)
| Panicked (reason : string).
Global Arguments Returned {A} a.
Global Arguments Panicked {A} reason.

(** Computations that may panic and that record their events in order. *)
Definition M (A : Type) : Type := (outcome A * list Event)%type.

Definition ret {A} (a : A) : M A := (Returned a, []).

Definition bind {A B} (m : M A) (f : A → M B) : M B :=
  match m with
  | (Returned a, t) => let '(r, t') := f a in (r, t ++ t')
  | (Panicked why, t) => (Panicked why, t)
  end.

Definition emit (e : Event) : M unit := (Returned tt, [e]).

Definition panic {A} (why : string) : M A := (Panicked why, []).

(** The single-valued type assertion [v.(string)]. *)
Definition assertString (v : any) : M string :=
  match v with
  | AnyString s => ret s
  | AnyNil => panic "interface conversion: interface {} is nil, not string"
  | AnyNumber _ => panic "interface conversion: interface {} is float64, not string"
  | AnyBool _ => panic "interface conversion: interface {} is bool, not string"
  end.

(** [s != ""] *)
Definition nonEmpty (s : string) : bool :=
  match s with EmptyString => false | String _ _ => true end.

(** [strings.Join] *)
Fixpoint Join (elems : list string) (sep : string) : string :=
  match elems with
  | [] => EmptyString
  | [x] => x
  | x :: rest => x +:+ sep +:+ Join rest sep
  end.

(** [strings.Repeat] of a single space *)
Fixpoint spaces (n : nat) : string :=
  match n with
  | O => EmptyString
  | S n' => String " "%char (spaces n')
  end.

(** [utf8.RuneCountInString] on well-formed UTF-8: every byte that is not a
    continuation byte [10xxxxxx] starts a rune. *)
Fixpoint RuneCountInString (s : string) : nat :=
  match s with
  | EmptyString => 0
  | String c rest =>
      let b := nat_of_ascii c in
      (if (128 <=? b)%nat && (b <? 192)%nat then 0 else 1) + RuneCountInString rest
  end.

(** The verb [%-Ns]: pad on the right up to width [N]. *)
Definition padRight (width : nat) (s : string) : string :=
  s +:+ spaces (width - RuneCountInString s).

(** The verb [%Nd] on a length or counter: pad on the left up to width [N]. *)
Definition padLeft (width : nat) (s : string) : string :=
  spaces (width - RuneCountInString s) +:+ s.

(** The verb [%d] on an [int] that holds a length or a counter. *)
Definition fmt_d (n : nat) : string := pretty n.

(** The verb [%v] on a [[]string]. *)
Definition fmt_v_slice (l : list string) : string :=
  "[" +:+ Join l " " +:+ "]".

(** Byte-wise order on strings, as Go's [<=]. *)
Definition keyLe (a b : string * string) : Prop := Is_true (String.leb a.1 b.1).

(** The verb [%v] on a [map[string]string]: [fmt] prints the entries sorted by key. *)
Definition fmt_v_map (m : gmap string string) : string :=
  "map[" +:+
  Join ((λ kv : string * string, kv.1 +:+ ":" +:+ kv.2) <$> merge_sort keyLe (map_to_list m)) " "
  +:+ "]".

(** The order in which a [for k, v := range m] visits a map is chosen by the
    runtime; the language leaves it unspecified. *)
Record Runtime : Type := { mapRange : ∀ V : Type, gmap string V → list (string * V) }.
Global Arguments mapRange _ {V} _.

(** A runtime is sound when each visit enumerates exactly the entries of the map. *)
Definition Runtime_ok (rt : Runtime) : Prop :=
  ∀ (V : Type) (m : gmap string V), mapRange rt m ≡ₚ map_to_list m.

End Go.

Global Instance M_ret : MRet Go.M := @Go.ret.
Global Instance M_bind : MBind Go.M := λ A B f m, Go.bind m f.


(** ** Package [istio]: cluster objects, clients and queries *)
Module istio.
Import Go.

Definition nl : string := String "010"%char EmptyString.

(** *** Objects returned by the cluster, with the fields the program reads *)

(** A nil-able [map[string]string] of labels. *)
Abbreviation LabelMap := (option (gmap string string)).

Record HTTPRoute : Type := { http_Name : string }.
Record TCPRoute : Type := { tcp_Port : Z }.
Record TLSRoute : Type := { tls_Port : Z }.

Record VirtualService : Type := {
  vs_Name : string;
  vs_Hosts : option (list string);
  vs_Gateways : option (list string);
  vs_Http : list HTTPRoute;
  vs_Tcp : list TCPRoute;
  vs_Tls : list TLSRoute
}.

Record DestinationRule : Type := { dr_Name : string; dr_Host : string }.

Record Gateway : Type := { gw_Name : string; gw_Selector : LabelMap }.

(** Generated protobuf enums print their name, or the number when it has no name. *)
Inductive ServiceEntry_Location : Type :=
| MESH_EXTERNAL | MESH_INTERNAL | Location_other (n : Z).

Definition Location_String (l : ServiceEntry_Location) : string :=
  match l with
  | MESH_EXTERNAL => "MESH_EXTERNAL"
  | MESH_INTERNAL => "MESH_INTERNAL"
  | Location_other n => pretty n
  end.

Record ServiceEntry : Type := {
  se_Name : string;
  se_Hosts : option (list string);
  se_Location : ServiceEntry_Location
}.

Inductive AuthorizationPolicy_Action : Type :=
| ALLOW | DENY | AUDIT | CUSTOM | Action_other (n : Z).

Definition Action_String (a : AuthorizationPolicy_Action) : string :=
  match a with
  | ALLOW => "ALLOW"
  | DENY => "DENY"
  | AUDIT => "AUDIT"
  | CUSTOM => "CUSTOM"
  | Action_other n => pretty n
  end.

(** [*WorkloadSelector] with its [MatchLabels] *)
Record WorkloadSelector : Type := { MatchLabels : LabelMap }.

(** the selector of an [EnvoyFilter], with its [Labels] *)
Record EnvoyFilterSelector : Type := { Labels : LabelMap }.

Record AuthorizationPolicy : Type := {
  ap_Name : string;
  ap_Selector : option WorkloadSelector;
  ap_Action : AuthorizationPolicy_Action
}.

Inductive MutualTLS_Mode : Type :=
| UNSET | DISABLE | PERMISSIVE | STRICT | Mode_other (n : Z).

Definition Mode_String (m : MutualTLS_Mode) : string :=
  match m with
  | UNSET => "UNSET"
  | DISABLE => "DISABLE"
  | PERMISSIVE => "PERMISSIVE"
  | STRICT => "STRICT"
  | Mode_other n => pretty n
  end.

Record MutualTLS : Type := { Mode : MutualTLS_Mode }.

Record PeerAuthentication : Type := {
  pa_Name : string;
  pa_Selector : option WorkloadSelector;
  pa_Mtls : option MutualTLS
}.

Record EnvoyFilter : Type := {
  ef_Name : string;
  ef_WorkloadSelector : option EnvoyFilterSelector
}.

Record Telemetry : Type := {
  tel_Name : string;
  tel_Selector : option WorkloadSelector
}.

Record LoadBalancerIngress : Type := { IP : string; Hostname : string }.

Record Service : Type := {
  svc_Name : string;
  svc_Type : string;
  svc_ClusterIP : string;
  svc_Selector : LabelMap;
  svc_Ingress : list LoadBalancerIngress
}.

Record ObjectReference : Type := { ref_Kind : string; ref_Name : string }.
Record EndpointAddress : Type := { addr_IP : string; addr_TargetRef : option ObjectReference }.
Record EndpointSubset : Type := { Addresses : list EndpointAddress }.
Record Endpoints : Type := { Subsets : list EndpointSubset }.

Record Container : Type := { c_Name : string }.
Record PodCondition : Type := { cond_Type : string; cond_Status : string }.

Record Pod : Type := {
  pod_Name : string;
  pod_Namespace : string;
  pod_Containers : list Container;
  pod_NodeName : string;
  pod_Phase : string;
  pod_PodIP : string;
  pod_Conditions : list PodCondition
}.

(** *** The two API clients: what the cluster answers to each request *)

Record IstioClient : Type := {
  VirtualServices_List : string → result (list VirtualService);
  DestinationRules_List : string → result (list DestinationRule);
  Gateways_List : string → result (list Gateway);
  ServiceEntries_List : string → result (list ServiceEntry);
  EnvoyFilters_List : string → result (list EnvoyFilter);
  AuthorizationPolicies_List : string → result (list AuthorizationPolicy);
  PeerAuthentications_List : string → result (list PeerAuthentication);
  Telemetries_List : string → result (list Telemetry)
}.

Record KubeClient : Type := {
  Services_List : string → result (list Service);
  Services_Get : string → string → result Service;
  Endpoints_Get : string → string → result Endpoints;
  (** namespace, label selector, field selector *)
  Pods_List : string → string → string → result (list Pod)
}.

(** [rest.Config], of which nothing but its identity matters here. *)
Record RestConfig : Type := { rc_Host : string }.

(** [clientcmd.ConfigAccess] and [clientcmd.ClientConfig], by the methods called. *)
Record ConfigAccess : Type := { GetLoadingPrecedence : list string }.
Record ClientConfig : Type := {
  cc_ClientConfig : result RestConfig;
  cc_ConfigAccess : option ConfigAccess
}.

(** The machine the server runs on: [istioctl] started with a deadline (in
    seconds) and an argument vector answers with its combined output and an
    error for a non-zero exit or an expired deadline. *)
Record Host : Type := {
  CombinedOutput : Z → list string → string * option error
}.

(** *** [ProxyConfigClient]: Envoy introspection through [istioctl] *)

Record ProxyConfigClient : Type := { kubeconfig : string; timeout : Z }.

Definition NewProxyConfigClient (kubeconfig : string) : ProxyConfigClient :=
  {| kubeconfig := kubeconfig; timeout := 30 |}.

Section proxy_config.
Context (host : Host) (p : ProxyConfigClient).

Definition execIstioctl (args : list string) : M (string * option error) :=
  let cmdArgs :=
    (if nonEmpty (kubeconfig p) then ["--kubeconfig"; kubeconfig p] else []) ++ args in
  emit (Exec "istioctl" cmdArgs);;
  let '(output, err) := CombinedOutput host (timeout p) cmdArgs in
  match err with
  | Some err =>
      mret (EmptyString,
            Some (errorString ("istioctl command failed: " +:+ Error err
                               +:+ ", output: " +:+ output)))
  | None => mret (output, None)
  end.

(** [fmt.Sprintf("%s.%s", podName, namespace)] *)
Definition podIdentity (namespace podName : string) : string :=
  podName +:+ "." +:+ namespace.

Definition GetClusters (namespace podName : string) : M (string * option error) :=
  execIstioctl ["proxy-config"; "cluster"; podIdentity namespace podName; "-o"; "json"].

Definition GetListeners (namespace podName : string) : M (string * option error) :=
  execIstioctl ["proxy-config"; "listener"; podIdentity namespace podName; "-o"; "json"].

Definition GetRoutes (namespace podName : string) : M (string * option error) :=
  execIstioctl ["proxy-config"; "route"; podIdentity namespace podName; "-o"; "json"].

Definition GetEndpoints (namespace podName : string) : M (string * option error) :=
  execIstioctl ["proxy-config"; "endpoint"; podIdentity namespace podName; "-o"; "json"].

Definition GetBootstrap (namespace podName : string) : M (string * option error) :=
  execIstioctl ["proxy-config"; "bootstrap"; podIdentity namespace podName; "-o"; "json"].

Definition GetSecret (namespace podName : string) : M (string * option error) :=
  execIstioctl ["proxy-config"; "secret"; podIdentity namespace podName; "-o"; "json"].

Definition GetConfigDump (namespace podName : string) : M (string * option error) :=
  execIstioctl ["proxy-config"; "all"; podIdentity namespace podName; "-o"; "json"].

Definition GetProxyStatus : M (string * option error) :=
  execIstioctl ["proxy-status"].

Definition GetProxyStatusForPod (namespace podName : string) : M (string * option error) :=
  execIstioctl ["proxy-status"; podIdentity namespace podName].

Definition GetAnalyze (namespace : string) : M (string * option error) :=
  if nonEmpty namespace
  then execIstioctl ["analyze"; "-n"; namespace]
  else execIstioctl ["analyze"].

End proxy_config.

(** *** The [Istio] handle *)

Record Istio : Type := {
  kubeClient : KubeClient;
  istioClient : IstioClient;
  config : RestConfig;
  clientCmdConfig : option ClientConfig;
  (** the watcher whose [Close] this field is bound to, if any *)
  CloseWatchKubeConfig : option nat;
  ProxyConfig : ProxyConfigClient
}.

(** One request to the cluster: the event is recorded, the client answers. *)
Definition request {A} (e : Event) (answer : result A) : M (result A) :=
  emit e;; mret answer.

Definition wrap (prefix : string) (err : error) : error :=
  errorString (prefix +:+ Error err).

(** [fmt.Sprintf("Found %d <what> in namespace '%s':\n", n, namespace)] *)
Definition found (n : nat) (what namespace : string) : string :=
  "Found " +:+ fmt_d n +:+ " " +:+ what +:+ " in namespace '" +:+ namespace +:+ "':" +:+ nl.

Definition item (name : string) : string := "- " +:+ name +:+ nl.

(** [if cond { result += line }] *)
Definition when (cond : bool) (line : string) : string :=
  if cond then line else EmptyString.

(** a label map printed with [%v] under a title, when the map is not nil *)
Definition labelsLine (title : string) (labels : LabelMap) : string :=
  from_option (λ m, "  " +:+ title +:+ ": " +:+ fmt_v_map m +:+ nl) EmptyString labels.

(** [if sel != nil && sel.MatchLabels != nil { ... }] *)
Definition selectorLine (title : string) (sel : option WorkloadSelector) : string :=
  from_option (λ s, labelsLine title (MatchLabels s)) EmptyString sel.

(** [for _, x := range items { result += body x }] *)
Definition appendEach {A} (body : A → string) (items : list A) (result : string) : string :=
  fold_left (λ result x, result +:+ body x) items result.

(** The pictograms of the pod report, byte for byte as the string literals of
    the source file carry them. *)
Definition icon_cross : string := "âŒ".
Definition icon_check : string := "âœ…".
Definition icon_link : string := "ðŸ”—".
Definition icon_web : string := "ðŸ•¸ï¸".
Definition icon_warn : string := "âš ï¸".
Definition icon_hourglass : string := "â³".
Definition icon_bulb : string := "ðŸ’¡".

Section queries.
Context (rt : Runtime) (i : Istio).

Definition GetVirtualServices (namespace : string) : M (string * option error) :=
  r ← request (ApiList "virtualservices" namespace EmptyString EmptyString)
              (VirtualServices_List (istioClient i) namespace);
  match r with
  | Err err => mret (EmptyString, Some (wrap "failed to list virtual services: " err))
  | Ok items =>
      let result := found (length items) "Virtual Services" namespace in
      mret (appendEach (λ vs,
              item (vs_Name vs)
              +:+ from_option (λ hosts, "  Hosts: " +:+ fmt_v_slice hosts +:+ nl)
                              EmptyString (vs_Hosts vs)
              +:+ from_option (λ gws, "  Gateways: " +:+ fmt_v_slice gws +:+ nl)
                              EmptyString (vs_Gateways vs)
              +:+ when (bool_decide (0 < length (vs_Http vs)))
                       ("  HTTP Routes: " +:+ fmt_d (length (vs_Http vs)) +:+ nl)
              +:+ when (bool_decide (0 < length (vs_Tcp vs)))
                       ("  TCP Routes: " +:+ fmt_d (length (vs_Tcp vs)) +:+ nl)
              +:+ when (bool_decide (0 < length (vs_Tls vs)))
                       ("  TLS Routes: " +:+ fmt_d (length (vs_Tls vs)) +:+ nl)
              +:+ nl) items result, None)
  end.

Definition GetDestinationRules (namespace : string) : M (string * option error) :=
  r ← request (ApiList "destinationrules" namespace EmptyString EmptyString)
              (DestinationRules_List (istioClient i) namespace);
  match r with
  | Err err => mret (EmptyString, Some (wrap "failed to list destination rules: " err))
  | Ok items =>
      let result := found (length items) "Destination Rules" namespace in
      mret (appendEach (λ dr,
              item (dr_Name dr)
              +:+ when (nonEmpty (dr_Host dr)) ("  Host: " +:+ dr_Host dr +:+ nl))
            items result, None)
  end.

Definition GetGateways (namespace : string) : M (string * option error) :=
  r ← request (ApiList "gateways" namespace EmptyString EmptyString)
              (Gateways_List (istioClient i) namespace);
  match r with
  | Err err => mret (EmptyString, Some (wrap "failed to list gateways: " err))
  | Ok items =>
      let result := found (length items) "Gateways" namespace in
      mret (appendEach (λ gw,
              item (gw_Name gw)
              +:+ labelsLine "Selector" (gw_Selector gw))
            items result, None)
  end.

Definition GetServiceEntries (namespace : string) : M (string * option error) :=
  r ← request (ApiList "serviceentries" namespace EmptyString EmptyString)
              (ServiceEntries_List (istioClient i) namespace);
  match r with
  | Err err => mret (EmptyString, Some (wrap "failed to list service entries: " err))
  | Ok items =>
      let result := found (length items) "Service Entries" namespace in
      mret (appendEach (λ se,
              item (se_Name se)
              +:+ from_option (λ hosts, "  Hosts: " +:+ fmt_v_slice hosts +:+ nl)
                              EmptyString (se_Hosts se)
              +:+ when (nonEmpty (Location_String (se_Location se)))
                       ("  Location: " +:+ Location_String (se_Location se) +:+ nl))
            items result, None)
  end.

Definition GetAuthorizationPolicies (namespace : string) : M (string * option error) :=
  r ← request (ApiList "authorizationpolicies" namespace EmptyString EmptyString)
              (AuthorizationPolicies_List (istioClient i) namespace);
  match r with
  | Err err => mret (EmptyString, Some (wrap "failed to list authorization policies: " err))
  | Ok items =>
      let result := found (length items) "Authorization Policies" namespace in
      mret (appendEach (λ ap,
              item (ap_Name ap)
              +:+ selectorLine "Selector" (ap_Selector ap)
              +:+ when (nonEmpty (Action_String (ap_Action ap)))
                       ("  Action: " +:+ Action_String (ap_Action ap) +:+ nl))
            items result, None)
  end.

Definition GetPeerAuthentications (namespace : string) : M (string * option error) :=
  r ← request (ApiList "peerauthentications" namespace EmptyString EmptyString)
              (PeerAuthentications_List (istioClient i) namespace);
  match r with
  | Err err => mret (EmptyString, Some (wrap "failed to list peer authentications: " err))
  | Ok items =>
      let result := found (length items) "Peer Authentications" namespace in
      mret (appendEach (λ pa,
              item (pa_Name pa)
              +:+ selectorLine "Selector" (pa_Selector pa)
              +:+ from_option (λ mtls, "  mTLS Mode: " +:+ Mode_String (Mode mtls) +:+ nl)
                              EmptyString (pa_Mtls pa))
            items result, None)
  end.

Definition GetEnvoyFilters (namespace : string) : M (string * option error) :=
  r ← request (ApiList "envoyfilters" namespace EmptyString EmptyString)
              (EnvoyFilters_List (istioClient i) namespace);
  match r with
  | Err err => mret (EmptyString, Some (wrap "failed to list envoy filters: " err))
  | Ok items =>
      let result := found (length items) "Envoy Filters" namespace in
      mret (appendEach (λ ef,
              item (ef_Name ef)
              +:+ from_option (λ ws, labelsLine "Workload Selector" (Labels ws))
                              EmptyString (ef_WorkloadSelector ef))
            items result, None)
  end.

Definition GetTelemetries (namespace : string) : M (string * option error) :=
  r ← request (ApiList "telemetries" namespace EmptyString EmptyString)
              (Telemetries_List (istioClient i) namespace);
  match r with
  | Err err => mret (EmptyString, Some (wrap "failed to list telemetries: " err))
  | Ok items =>
      let result := found (length items) "Telemetry configurations" namespace in
      mret (appendEach (λ tel,
              item (tel_Name tel)
              +:+ selectorLine "Selector" (tel_Selector tel))
            items result, None)
  end.

(** One listing of the summary: its count on success; on failure a warning is
    logged and the line is left out. *)
Definition summaryLine {A} (r : Go.result (list A)) (what title : string) (result : string)
  : M string :=
  match r with
  | Err err => emit (Klog ("Failed to list " +:+ what +:+ ": " +:+ Error err));; mret result
  | Ok items => mret (result +:+ title +:+ ": " +:+ fmt_d (length items) +:+ nl)
  end.

Definition GetIstioConfigSummary (namespace : string) : M (string * option error) :=
  let result := "Istio Configuration Summary for namespace '" +:+ namespace +:+ "':" +:+ nl +:+ nl in
  r ← request (ApiList "virtualservices" namespace EmptyString EmptyString)
              (VirtualServices_List (istioClient i) namespace);
  result ← summaryLine r "virtual services" "Virtual Services" result;
  r ← request (ApiList "destinationrules" namespace EmptyString EmptyString)
              (DestinationRules_List (istioClient i) namespace);
  result ← summaryLine r "destination rules" "Destination Rules" result;
  r ← request (ApiList "gateways" namespace EmptyString EmptyString)
              (Gateways_List (istioClient i) namespace);
  result ← summaryLine r "gateways" "Gateways" result;
  r ← request (ApiList "serviceentries" namespace EmptyString EmptyString)
              (ServiceEntries_List (istioClient i) namespace);
  result ← summaryLine r "service entries" "Service Entries" result;
  r ← request (ApiList "authorizationpolicies" namespace EmptyString EmptyString)
              (AuthorizationPolicies_List (istioClient i) namespace);
  result ← summaryLine r "authorization policies" "Authorization Policies" result;
  r ← request (ApiList "peerauthentications" namespace EmptyString EmptyString)
              (PeerAuthentications_List (istioClient i) namespace);
  result ← summaryLine r "peer authentications" "Peer Authentications" result;
  r ← request (ApiList "envoyfilters" namespace EmptyString EmptyString)
              (EnvoyFilters_List (istioClient i) namespace);
  result ← summaryLine r "envoy filters" "Envoy Filters" result;
  r ← request (ApiList "telemetries" namespace EmptyString EmptyString)
              (Telemetries_List (istioClient i) namespace);
  result ← summaryLine r "telemetries" "Telemetry Configurations" result;
  mret (result, None).

(** The first service entry one of whose hosts is [externalHost]: the nested
    loops leave at the first match. *)
Definition findServiceEntry (externalHost : string) (items : list ServiceEntry)
  : option ServiceEntry :=
  find (λ se, existsb (String.eqb externalHost) (default [] (se_Hosts se))) items.

Definition CheckExternalDependencyAvailability (serviceName externalHost namespace : string)
  : M (string * option error) :=
  let result := "External Dependency Check for service '" +:+ serviceName +:+ "' -> '"
                +:+ externalHost +:+ "' in namespace '" +:+ namespace +:+ "':" +:+ nl +:+ nl in
  (** Check 1: Service Entry existence *)
  r ← request (ApiList "serviceentries" namespace EmptyString EmptyString)
              (ServiceEntries_List (istioClient i) namespace);
  match r with
  | Err err => mret (EmptyString, Some (wrap "failed to list service entries: " err))
  | Ok seList =>
  serviceEntry ←
    match findServiceEntry externalHost seList with
    | Some se =>
        mret (Some ("[OK] Service Entry: '" +:+ se_Name se +:+ "' found in namespace '"
                    +:+ namespace +:+ "'"))
    | None =>
        (** the same lookup in istio-system; an error of this listing is passed over *)
        r ← request (ApiList "serviceentries" "istio-system" EmptyString EmptyString)
                    (ServiceEntries_List (istioClient i) "istio-system");
        match r with
        | Ok istioSystemSE =>
            mret ((λ se, "[OK] Service Entry: '" +:+ se_Name se
                         +:+ "' found in namespace 'istio-system' (global)")
                  <$> findServiceEntry externalHost istioSystemSE)
        | Err _ => mret None
        end
    end;
  let serviceEntryFound := bool_decide (is_Some serviceEntry) in
  let serviceEntryDetails :=
    default "[MISSING] Service Entry: Not found for external host" serviceEntry in
  (** Check 2: Virtual Service routing *)
  r ← request (ApiList "virtualservices" namespace EmptyString EmptyString)
              (VirtualServices_List (istioClient i) namespace);
  match r with
  | Err err => mret (EmptyString, Some (wrap "failed to list virtual services: " err))
  | Ok vsList =>
  let virtualService :=
    find (λ vs, existsb (String.eqb externalHost) (default [] (vs_Hosts vs))) vsList in
  let virtualServiceFound := bool_decide (is_Some virtualService) in
  let virtualServiceDetails :=
    from_option (λ vs, "[OK] Virtual Service: '" +:+ vs_Name vs +:+ "' found with routing rules")
      "[WARNING] Virtual Service: No specific routing rules found (may use default routing)"
      virtualService in
  (** Check 3: Destination Rules *)
  r ← request (ApiList "destinationrules" namespace EmptyString EmptyString)
              (DestinationRules_List (istioClient i) namespace);
  match r with
  | Err err => mret (EmptyString, Some (wrap "failed to list destination rules: " err))
  | Ok drList =>
  let destinationRule := find (λ dr, String.eqb (dr_Host dr) externalHost) drList in
  let destinationRuleFound := bool_decide (is_Some destinationRule) in
  let destinationRuleDetails :=
    from_option (λ dr, "[OK] Destination Rule: '" +:+ dr_Name dr +:+ "' found with traffic policies")
      "[WARNING] Destination Rule: No specific traffic policies found (may use default policies)"
      destinationRule in
  (** Check 4: Authorization Policies *)
  r ← request (ApiList "authorizationpolicies" namespace EmptyString EmptyString)
              (AuthorizationPolicies_List (istioClient i) namespace);
  match r with
  | Err err => mret (EmptyString, Some (wrap "failed to list authorization policies: " err))
  | Ok apList =>
  let authorizationPolicyDetails :=
    from_option (λ ap, "[OK] Authorization Policy: '" +:+ ap_Name ap +:+ "' found (ALLOW action)")
      "[WARNING] Authorization Policy: No explicit ALLOW policies found (may use default allow)"
      (find (λ ap, String.eqb (Action_String (ap_Action ap)) "ALLOW") apList) in
  (** Build the result *)
  let result := result +:+ serviceEntryDetails +:+ nl in
  let result := result +:+ virtualServiceDetails +:+ nl in
  let result := result +:+ destinationRuleDetails +:+ nl in
  let result := result +:+ authorizationPolicyDetails +:+ nl +:+ nl in
  (** Overall assessment *)
  let result :=
    if serviceEntryFound then
      result +:+ "[RESULT] External dependency '" +:+ externalHost
        +:+ "' is available for service '" +:+ serviceName +:+ "'" +:+ nl
      +:+ "   The Service Entry exists, which means the external service is registered in the mesh."
        +:+ nl
      +:+ when (virtualServiceFound || destinationRuleFound)
            ("   Additional routing and traffic policies are configured." +:+ nl)
    else
      result +:+ "[RESULT] External dependency '" +:+ externalHost
        +:+ "' is NOT available for service '" +:+ serviceName +:+ "'" +:+ nl
      +:+ "   You need to create a Service Entry for '" +:+ externalHost
        +:+ "' before the service can access it." +:+ nl
      +:+ "   Consider creating it in namespace '" +:+ namespace
        +:+ "' or globally in 'istio-system'." +:+ nl in
  mret (result, None)
  end end end end.

(** The four groups into which [GetServices] sorts its lines. *)
Record ServiceGroups : Type := {
  clusterIPServices : list string;
  nodePortServices : list string;
  loadBalancerServices : list string;
  headlessServices : list string
}.

Definition groupService (g : ServiceGroups) (service : Service) : ServiceGroups :=
  let serviceLine := padRight 30 (svc_Name service) in
  if String.eqb (svc_Type service) "NodePort" then
    {| clusterIPServices := clusterIPServices g;
       nodePortServices := nodePortServices g
         ++ [serviceLine +:+ " (NodePort: " +:+ svc_ClusterIP service +:+ ")"];
       loadBalancerServices := loadBalancerServices g;
       headlessServices := headlessServices g |}
  else if String.eqb (svc_Type service) "LoadBalancer" then
    let externalIP :=
      match svc_Ingress service with
      | ingress :: _ =>
          if nonEmpty (IP ingress) then IP ingress
          else if nonEmpty (Hostname ingress) then Hostname ingress
          else "<pending>"
      | [] => "<pending>"
      end in
    {| clusterIPServices := clusterIPServices g;
       nodePortServices := nodePortServices g;
       loadBalancerServices := loadBalancerServices g
         ++ [serviceLine +:+ " (LoadBalancer: " +:+ externalIP +:+ ")"];
       headlessServices := headlessServices g |}
  else if String.eqb (svc_ClusterIP service) "None" then
    {| clusterIPServices := clusterIPServices g;
       nodePortServices := nodePortServices g;
       loadBalancerServices := loadBalancerServices g;
       headlessServices := headlessServices g ++ [serviceLine +:+ " (Headless)"] |}
  else
    {| clusterIPServices := clusterIPServices g
         ++ [serviceLine +:+ " (ClusterIP: " +:+ svc_ClusterIP service +:+ ")"];
       nodePortServices := nodePortServices g;
       loadBalancerServices := loadBalancerServices g;
       headlessServices := headlessServices g |}.

(** [if len(lines) > 0 { title; one line each; blank line }] *)
Definition serviceSection (title : string) (lines : list string) (result : string) : string :=
  match lines with
  | [] => result
  | _ => appendEach (λ svc, "   " +:+ svc +:+ nl) lines (result +:+ title +:+ nl) +:+ nl
  end.

Definition GetServices (namespace : string) : M (string * option error) :=
  r ← request (ApiList "services" namespace EmptyString EmptyString)
              (Services_List (kubeClient i) namespace);
  match r with
  | Err err => mret (EmptyString, Some (wrap "failed to list services: " err))
  | Ok items =>
      let result := "Services in namespace '" +:+ namespace +:+ "':" +:+ nl +:+ nl in
      let result := result +:+ "Found " +:+ fmt_d (length items) +:+ " services:" +:+ nl +:+ nl in
      match items with
      | [] => mret (result +:+ "No services found in this namespace." +:+ nl, None)
      | _ =>
          let g := fold_left groupService items
                     {| clusterIPServices := []; nodePortServices := [];
                        loadBalancerServices := []; headlessServices := [] |} in
          let result := serviceSection " ClusterIP Services:" (clusterIPServices g) result in
          let result := serviceSection " NodePort Services:" (nodePortServices g) result in
          let result := serviceSection " LoadBalancer Services:" (loadBalancerServices g) result in
          let result := serviceSection " Headless Services:" (headlessServices g) result in
          let result := result +:+
            "Next step: Use 'get-pods-by-service' to find pods backing any of these services" +:+ nl in
          let result := result +:+ "   Example: get-pods-by-service --namespace " +:+ namespace
                        +:+ " --service <service-name>" +:+ nl in
          mret (result, None)
      end
  end.

(** The first condition of type Ready decides. *)
Definition isPodReady (pod : Pod) : bool :=
  match find (λ condition, String.eqb (cond_Type condition) "Ready") (pod_Conditions pod) with
  | Some condition => String.eqb (cond_Status condition) "True"
  | None => false
  end.

Definition hasIstioProxy (pod : Pod) : bool :=
  existsb (λ container, String.eqb (c_Name container) "istio-proxy") (pod_Containers pod).

Definition runningPodLines (pod : Pod) : string :=
  let hasIstio := hasIstioProxy pod in
  let readyIcon := if isPodReady pod then icon_check else icon_cross in
  let istioIcon := if hasIstio then icon_web else icon_link in
  let appContainers :=
    c_Name <$> filter (λ container, c_Name container ≠ "istio-proxy") (pod_Containers pod) in
  "   " +:+ readyIcon +:+ " " +:+ istioIcon +:+ " " +:+ pod_Name pod +:+ nl
  +:+ "      IP: " +:+ padRight 15 (pod_PodIP pod) +:+ " Node: " +:+ pod_NodeName pod +:+ nl
  +:+ "      Containers: " +:+ Join appContainers ", " +:+ nl
  +:+ (if hasIstio
       then "      " +:+ icon_web +:+ "  Istio mesh: ENABLED" +:+ nl
       else "      " +:+ icon_warn +:+ "  Istio mesh: NOT ENABLED" +:+ nl)
  +:+ nl.

Definition endpointLine (addr : EndpointAddress) : string :=
  match addr_TargetRef addr with
  | Some ref =>
      if String.eqb (ref_Kind ref) "Pod"
      then "   - Pod: " +:+ ref_Name ref +:+ " (IP: " +:+ addr_IP addr +:+ ")" +:+ nl
      else "   - IP: " +:+ addr_IP addr +:+ nl
  | None => "   - IP: " +:+ addr_IP addr +:+ nl
  end.

Definition GetPodsByService (namespace serviceName : string) : M (string * option error) :=
  r ← request (ApiGet "services" namespace serviceName)
              (Services_Get (kubeClient i) namespace serviceName);
  match r with
  | Err err =>
      mret (EmptyString,
            Some (errorString ("failed to get service " +:+ serviceName +:+ ": " +:+ Error err)))
  | Ok service =>
  let result := "Pods backing service '" +:+ serviceName +:+ "' in namespace '"
                +:+ namespace +:+ "':" +:+ nl +:+ nl in
  match svc_Selector service with
  | None =>
      (** headless services or services without selectors *)
      let result := result +:+ "  Service '" +:+ serviceName
                    +:+ "' has no selector - this is likely:" +:+ nl in
      let result := result +:+ "   - A headless service with manual endpoints" +:+ nl in
      let result := result +:+ "   - An external service (ExternalName type)" +:+ nl in
      let result := result +:+ "   - A service with manually configured endpoints" +:+ nl +:+ nl in
      r ← request (ApiGet "endpoints" namespace serviceName)
                  (Endpoints_Get (kubeClient i) namespace serviceName);
      match r with
      | Ok {| Subsets := (_ :: _) as subsets |} =>
          mret (appendEach (λ subset, appendEach endpointLine (Addresses subset) EmptyString)
                  subsets (result +:+ " Configured endpoints:" +:+ nl), None)
      | _ => mret (result, None)
      end
  | Some selector =>
      (** the selector as a label selector string, in the order of the map visit *)
      let selectorParts := (λ kv : string * string, kv.1 +:+ "=" +:+ kv.2) <$> mapRange rt selector in
      let labelSelector := Join selectorParts "," in
      r ← request (ApiList "pods" namespace labelSelector EmptyString)
                  (Pods_List (kubeClient i) namespace labelSelector EmptyString);
      match r with
      | Err err =>
          mret (EmptyString,
                Some (errorString ("failed to list pods for service " +:+ serviceName
                                   +:+ ": " +:+ Error err)))
      | Ok pods =>
      let runningPods := filter (λ pod, pod_Phase pod = "Running") pods in
      let nonRunningPods := filter (λ pod, pod_Phase pod ≠ "Running") pods in
      let result := result +:+ " Service selector: " +:+ labelSelector +:+ nl in
      let result := result +:+ " Total pods found: " +:+ fmt_d (length pods) +:+ " ("
                    +:+ fmt_d (length runningPods) +:+ " running, "
                    +:+ fmt_d (length nonRunningPods) +:+ " not running)" +:+ nl +:+ nl in
      let result :=
        match runningPods with
        | [] => result
        | _ => appendEach runningPodLines runningPods
                 (result +:+ " Running pods (" +:+ fmt_d (length runningPods)
                  +:+ ") - Ready for proxy commands:" +:+ nl)
        end in
      let result :=
        match nonRunningPods with
        | [] => result
        | _ => appendEach (λ pod, "   " +:+ icon_cross +:+ " " +:+ pod_Name pod
                                  +:+ " (Status: " +:+ pod_Phase pod +:+ ")" +:+ nl)
                 nonRunningPods
                 (result +:+ icon_hourglass +:+ " Non-running pods ("
                  +:+ fmt_d (length nonRunningPods) +:+ "):" +:+ nl)
               +:+ nl
        end in
      match runningPods with
      | [] =>
          mret (result +:+ icon_warn +:+ "  No running pods found backing this service!" +:+ nl
                +:+ icon_bulb +:+ " This could mean:" +:+ nl
                +:+ "   - The deployment is scaled to 0 replicas" +:+ nl
                +:+ "   - Pods are failing to start" +:+ nl
                +:+ "   - Label selector mismatch between service and pods" +:+ nl +:+ nl,
                None)
      | first :: _ =>
          let examplePod := pod_Name first in
          let suggest (tool : string) : string :=
            "   " +:+ tool +:+ " --namespace " +:+ namespace +:+ " --pod " +:+ examplePod +:+ nl in
          mret (result +:+ icon_bulb
                +:+ " Next steps - Use these pod names with proxy commands:" +:+ nl
                +:+ suggest "get-proxy-status"
                +:+ suggest "get-proxy-clusters"
                +:+ suggest "get-proxy-listeners"
                +:+ suggest "get-proxy-routes",
                None)
      end
      end
  end
  end.

(** [namespaceCount], the element type of the ranking *)
Record namespaceCount : Type := { nc_namespace : string; nc_count : nat }.

(** The comparison handed to [sort.Slice]: by count descending, then by name ascending. *)
Definition less (a b : namespaceCount) : bool :=
  if bool_decide (nc_count a ≠ nc_count b)
  then bool_decide (nc_count b < nc_count a)
  else String.ltb (nc_namespace a) (nc_namespace b).

(** [sort.Slice]: some ordering of the slice that respects [less]; the elements
    here carry pairwise distinct names, so [less] orders them totally and the
    result does not depend on the algorithm. *)
Definition rankedBefore (a b : namespaceCount) : Prop := Is_true (negb (less b a)).

Global Instance rankedBefore_dec : RelDecision rankedBefore.
Proof. intros a b. unfold rankedBefore. apply _. Defined.

Definition sortSlice (l : list namespaceCount) : list namespaceCount :=
  merge_sort rankedBefore l.

Definition recommendation (rank : nat) : string :=
  if bool_decide (rank = 0) then "BEST - Most Istio-injected workloads"
  else if bool_decide (rank < 3) then "Good - High Istio adoption"
  else if bool_decide (rank < 5) then "Moderate - Some Istio usage"
  else "Low - Minimal Istio usage".

(** [namespacesWithSidecars[pod.Namespace]++] for every running pod with a sidecar *)
Definition countSidecars (pods : list Pod) : gmap string nat :=
  fold_left (λ (m : gmap string nat) pod,
      if negb (String.eqb (pod_Phase pod) "Running") || bool_decide (length (pod_Containers pod) = 0)
      then m
      else if hasIstioProxy pod
           then <[pod_Namespace pod := S (default 0 (m !! pod_Namespace pod))]> m
           else m)
    pods ∅.

Definition DiscoverNamespacesWithSidecars : M (string * option error) :=
  r ← request (ApiList "pods" EmptyString EmptyString "status.phase=Running")
              (Pods_List (kubeClient i) EmptyString EmptyString "status.phase=Running");
  match r with
  | Err err =>
      mret (EmptyString,
            Some (wrap "failed to list running pods for Istio sidecar discovery: " err))
  | Ok pods =>
      let namespacesWithSidecars := countSidecars pods in
      if bool_decide (size namespacesWithSidecars = 0)
      then mret ("No namespaces with Istio sidecars found", None)
      else
        let namespaceCounts :=
          sortSlice ((λ kv : string * nat, {| nc_namespace := kv.1; nc_count := kv.2 |})
                     <$> mapRange rt namespacesWithSidecars) in
        let result := "Found " +:+ fmt_d (length namespaceCounts)
                      +:+ " namespaces with Istio sidecars:" +:+ nl +:+ nl in
        let result := result +:+ "Rank | Namespace | Sidecar Count | Recommendation" +:+ nl in
        let result := result +:+ "-----|-----------|---------------|----------------" +:+ nl in
        let result :=
          appendEach id
            (imap (λ rank nc,
                 padLeft 4 (fmt_d (rank + 1)) +:+ " | " +:+ padRight 9 (nc_namespace nc)
                 +:+ " | " +:+ padLeft 13 (fmt_d (nc_count nc)) +:+ " | "
                 +:+ recommendation rank +:+ nl) namespaceCounts)
            result in
        mret (result +:+ nl +:+ icon_bulb
              +:+ " **Recommendation**: Start with the top-ranked namespace for Istio operations as it likely contains the most Istio configuration and traffic.",
              None)
  end.

End queries.

(** *** Construction, the kubeconfig watch and shutdown *)

(** What [client-go] and [fsnotify] answer at one moment; the answers change
    when the files on disk change. *)
Record Env : Type := {
  (** [clientcmd.BuildConfigFromFlags("", kubeconfig)] *)
  BuildConfigFromFlags : string → result RestConfig;
  (** [clientcmd.NewClientConfigFromBytes(nil)] *)
  NewClientConfigFromBytes : result ClientConfig;
  (** [clientcmd.NewNonInteractiveDeferredLoadingClientConfig] for an explicit
      path, or for the default loading rules when there is none *)
  NewNonInteractiveDeferredLoadingClientConfig : option string → ClientConfig;
  (** [kubernetes.NewForConfig] and [versioned.NewForConfig] *)
  kubernetes_NewForConfig : RestConfig → result KubeClient;
  versioned_NewForConfig : RestConfig → result IstioClient;
  (** [fsnotify.NewWatcher], [watcher.Add(file)] and [watcher.Close] *)
  fsnotify_NewWatcher : option error;
  watcher_Add : string → option error;
  watcher_Close : option error
}.

Definition buildConfig (env : Env) (kubeconfig : string)
  : result (RestConfig * ClientConfig) :=
  if nonEmpty kubeconfig then
    match BuildConfigFromFlags env kubeconfig with
    | Err err => Err err
    | Ok config =>
        let clientCmdConfig :=
          match NewClientConfigFromBytes env with
          | Ok cc => cc
          | Err _ =>
              (** fallback to loading from the file path *)
              NewNonInteractiveDeferredLoadingClientConfig env (Some kubeconfig)
          end in
        Ok (config, clientCmdConfig)
    end
  else
    let clientCmdConfig := NewNonInteractiveDeferredLoadingClientConfig env None in
    match cc_ClientConfig clientCmdConfig with
    | Err err => Err err
    | Ok config => Ok (config, clientCmdConfig)
    end.

Definition NewIstio (env : Env) (kubeconfig : string) : result Istio :=
  match buildConfig env kubeconfig with
  | Err err => Err (wrap "failed to build config: " err)
  | Ok (config, clientCmdConfig) =>
      match kubernetes_NewForConfig env config with
      | Err err => Err (wrap "failed to create kubernetes client: " err)
      | Ok kubeClient =>
          match versioned_NewForConfig env config with
          | Err err => Err (wrap "failed to create istio client: " err)
          | Ok istioClient =>
              Ok {| kubeClient := kubeClient;
                    istioClient := istioClient;
                    config := config;
                    clientCmdConfig := Some clientCmdConfig;
                    CloseWatchKubeConfig := None;
                    ProxyConfig := NewProxyConfigClient kubeconfig |}
          end
      end
  end.

(** The function handed to [WatchKubeConfig]. The server passes its method
    value [s.reloadIstioClient], the only callback of the program. *)
Inductive Callback : Type := s_reloadIstioClient.

(** One [fsnotify] watcher together with the goroutine that serves it. *)
Record Watcher : Type := {
  w_files : list string;
  w_onKubeConfigChange : Callback;
  (** how many times [Close] was called on it through a handle's [CloseWatchKubeConfig] *)
  w_closeCalls : nat
}.

(** A watcher delivers events, and its goroutine runs, until the first [Close]. *)
Definition live (wt : Watcher) : bool := bool_decide (w_closeCalls wt = 0).

(** The mutable objects of the process: the [*Istio] handles ever allocated
    (a pointer is an index), the watchers ever created, and the log. *)
Record World : Type := {
  istios : list Istio;
  watchers : list Watcher;
  klog : list string
}.

Definition emptyWorld : World := {| istios := []; watchers := []; klog := [] |}.

Definition logLine (line : string) (w : World) : World :=
  {| istios := istios w; watchers := watchers w; klog := klog w ++ [line] |}.

Definition logLines (lines : list string) (w : World) : World :=
  {| istios := istios w; watchers := watchers w; klog := klog w ++ lines |}.

(** [new(Istio)]: the handle is stored at a fresh address. *)
Definition alloc (i : Istio) (w : World) : nat * World :=
  (length (istios w),
   {| istios := istios w ++ [i]; watchers := watchers w; klog := klog w |}).

(** The call [i.CloseWatchKubeConfig()] for a field bound to watcher [id]. *)
Definition closeWatcher (env : Env) (id : nat) (failure : string) (w : World) : World :=
  let w' :=
    {| istios := istios w;
       watchers := alter (λ wt, {| w_files := w_files wt;
                                   w_onKubeConfigChange := w_onKubeConfigChange wt;
                                   w_closeCalls := S (w_closeCalls wt) |}) id (watchers w);
       klog := klog w |} in
  match watcher_Close env with
  | Some err => logLine (failure +:+ Error err) w'
  | None => w'
  end.

(** [i.CloseWatchKubeConfig = watcher.Close] on the handle at address [ptr] *)
Definition bindClose (ptr id : nat) (w : World) : World :=
  {| istios := alter (λ i, {| kubeClient := kubeClient i;
                              istioClient := istioClient i;
                              config := config i;
                              clientCmdConfig := clientCmdConfig i;
                              CloseWatchKubeConfig := Some id;
                              ProxyConfig := ProxyConfig i |}) ptr (istios w);
     watchers := watchers w;
     klog := klog w |}.

(** [(i *Istio) WatchKubeConfig(onKubeConfigChange)]; [None] is the panic of a
    nil receiver. *)
Definition WatchKubeConfig (env : Env) (ptr : nat) (onKubeConfigChange : Callback) (w : World)
  : option World :=
  i ← istios w !! ptr;
  match clientCmdConfig i with
  | None => Some (logLine "No client config available for kubeconfig watching" w)
  | Some cc =>
  match cc_ConfigAccess cc with
  | None => Some (logLine "No config access available for kubeconfig watching" w)
  | Some configAccess =>
  let kubeConfigFiles := GetLoadingPrecedence configAccess in
  match kubeConfigFiles with
  | [] => Some (logLine "No kubeconfig files found for watching" w)
  | _ =>
  match fsnotify_NewWatcher env with
  | Some err => Some (logLine ("Failed to create kubeconfig watcher: " +:+ Error err) w)
  | None =>
      let id := length (watchers w) in
      let watched := filter (λ file, watcher_Add env file = None) kubeConfigFiles in
      let lines :=
        (λ file, match watcher_Add env file with
                 | Some err => "Failed to watch kubeconfig file " +:+ file +:+ ": " +:+ Error err
                 | None => "Watching kubeconfig file: " +:+ file
                 end) <$> kubeConfigFiles in
      (** the watcher exists and its goroutine is started *)
      let w := {| istios := istios w;
                  watchers := watchers w ++ [{| w_files := watched;
                                                w_onKubeConfigChange := onKubeConfigChange;
                                                w_closeCalls := 0 |}];
                  klog := klog w ++ lines |} in
      (** then a previous watch of this handle is closed *)
      let w := match CloseWatchKubeConfig i with
               | Some previous =>
                   closeWatcher env previous "Failed to close previous kubeconfig watcher: " w
               | None => w
               end in
      Some (bindClose ptr id w)
  end end end end.

(** [(i *Istio) Close()] *)
Definition Close (env : Env) (ptr : nat) (w : World) : option World :=
  i ← istios w !! ptr;
  let w := match CloseWatchKubeConfig i with
           | Some id => closeWatcher env id "Failed to close kubeconfig watcher: " w
           | None => w
           end in
  Some (logLine "Closing Istio client connections" w).

End istio.

(** ** Package [mcp]: the server, its tool catalog and the handlers *)
Module mcp.
Import Go istio.

(** *** Result envelope *)

Inductive Content : Type := TextContent (Type_ : string) (Text : string).

Record CallToolResult : Type := { IsError : bool; Content_ : list Content }.

(** [NewTextResult] creates a new text result for tool responses. *)
Definition NewTextResult (content : string) (err : option error) : CallToolResult :=
  match err with
  | Some err => {| IsError := true; Content_ := [TextContent "text" (Error err)] |}
  | None => {| IsError := false; Content_ := [TextContent "text" content] |}
  end.

(** *** Tool descriptors, as the [mcp-go] constructors build them *)

Record ToolAnnotation : Type := {
  Title : string;
  ReadOnlyHint : option bool;
  DestructiveHint : option bool;
  IdempotentHint : option bool;
  OpenWorldHint : option bool
}.

Record PropertySchema : Type := { prop_Type : string; prop_Description : string }.

Record ToolInputSchema : Type := {
  schema_Type : string;
  Properties : gmap string PropertySchema;
  Required_ : list string
}.

Record Tool : Type := {
  Name : string;
  Description_ : string;
  InputSchema : ToolInputSchema;
  Annotations : ToolAnnotation
}.

(** What a property option contributes: a description, or the required mark. *)
Inductive PropertyOption : Type :=
| Description (text : string)
| Required.

Inductive ToolOption : Type :=
| WithDescription (text : string)
| WithString (name : string) (opts : list PropertyOption)
| WithTitleAnnotation (title : string)
| WithReadOnlyHintAnnotation (value : bool)
| WithDestructiveHintAnnotation (value : bool).

Definition isRequired (o : PropertyOption) : bool :=
  match o with Required => true | Description _ => false end.

(** the last [Description] among the options, if any *)
Definition propertyDescription (opts : list PropertyOption) : string :=
  fold_left (λ d o, match o with Description text => text | Required => d end)
            opts EmptyString.

Definition applyOption (t : Tool) (o : ToolOption) : Tool :=
  match o with
  | WithDescription text =>
      {| Name := Name t; Description_ := text;
         InputSchema := InputSchema t; Annotations := Annotations t |}
  | WithString name opts =>
      {| Name := Name t; Description_ := Description_ t;
         InputSchema :=
           {| schema_Type := schema_Type (InputSchema t);
              Properties := <[name := {| prop_Type := "string";
                                         prop_Description := propertyDescription opts |}]>
                              (Properties (InputSchema t));
              Required_ := Required_ (InputSchema t)
                           ++ (if existsb isRequired opts then [name] else []) |};
         Annotations := Annotations t |}
  | WithTitleAnnotation title =>
      {| Name := Name t; Description_ := Description_ t; InputSchema := InputSchema t;
         Annotations :=
           {| Title := title;
              ReadOnlyHint := ReadOnlyHint (Annotations t);
              DestructiveHint := DestructiveHint (Annotations t);
              IdempotentHint := IdempotentHint (Annotations t);
              OpenWorldHint := OpenWorldHint (Annotations t) |} |}
  | WithReadOnlyHintAnnotation value =>
      {| Name := Name t; Description_ := Description_ t; InputSchema := InputSchema t;
         Annotations :=
           {| Title := Title (Annotations t);
              ReadOnlyHint := Some value;
              DestructiveHint := DestructiveHint (Annotations t);
              IdempotentHint := IdempotentHint (Annotations t);
              OpenWorldHint := OpenWorldHint (Annotations t) |} |}
  | WithDestructiveHintAnnotation value =>
      {| Name := Name t; Description_ := Description_ t; InputSchema := InputSchema t;
         Annotations :=
           {| Title := Title (Annotations t);
              ReadOnlyHint := ReadOnlyHint (Annotations t);
              DestructiveHint := Some value;
              IdempotentHint := IdempotentHint (Annotations t);
              OpenWorldHint := OpenWorldHint (Annotations t) |} |}
  end.

(** [mcp.NewTool]: the library's defaults (not read-only, destructive, not
    idempotent, open world), then the options in the order given. *)
Definition NewTool (name : string) (opts : list ToolOption) : Tool :=
  fold_left applyOption opts
    {| Name := name;
       Description_ := EmptyString;
       InputSchema := {| schema_Type := "object"; Properties := ∅; Required_ := [] |};
       Annotations := {| Title := EmptyString;
                         ReadOnlyHint := Some false;
                         DestructiveHint := Some true;
                         IdempotentHint := Some false;
                         OpenWorldHint := Some true |} |}.

(** The handlers are methods of the server; a descriptor holds the method
    value [s.<method>], bound to the server and not to a handle, so a call
    reads whatever handle the server holds at that time. *)
Inductive HandlerFunc : Type :=
| s_getVirtualServices | s_getDestinationRules | s_getGateways | s_getServiceEntries
| s_getAuthorizationPolicies | s_getPeerAuthentications
| s_discoverIstioNamespaces | s_getEnvoyFilters | s_getTelemetries
| s_getIstioConfigSummary | s_checkExternalDependencyAvailability
| s_getServices | s_getPodsByService
| s_getProxyClusters | s_getProxyListeners | s_getProxyRoutes | s_getProxyEndpoints
| s_getProxyBootstrap | s_getProxyConfigDump | s_getProxyStatus | s_getIstioAnalyze.

Record ServerTool : Type := { Tool_ : Tool; Handler : HandlerFunc }.

(** *** The catalog of the full profile *)

Definition initNetworkingTools : list ServerTool :=
  [ {| Tool_ := NewTool "get-virtual-services"
        [ WithDescription "Get Istio Virtual Services configuration from any namespace. Virtual Services define routing rules for services in the Istio service mesh, including traffic splitting, fault injection, and retry policies. Use this to inspect traffic routing configuration across namespaces.";
          WithString "namespace" [Description "Namespace to query (defaults to 'default'). Istio services can span multiple namespaces."];
          WithTitleAnnotation "Istio: Virtual Services";
          WithReadOnlyHintAnnotation true;
          WithDestructiveHintAnnotation false ];
       Handler := s_getVirtualServices |};
    {| Tool_ := NewTool "get-destination-rules"
        [ WithDescription "Get Istio Destination Rules from any namespace. Destination Rules define policies for traffic to services, including load balancing, connection pooling, and outlier detection. Essential for understanding service mesh traffic policies.";
          WithString "namespace" [Description "Namespace to query (defaults to 'default'). Check multiple namespaces for complete Istio configuration."];
          WithTitleAnnotation "Istio: Destination Rules";
          WithReadOnlyHintAnnotation true;
          WithDestructiveHintAnnotation false ];
       Handler := s_getDestinationRules |};
    {| Tool_ := NewTool "get-gateways"
        [ WithDescription "Get Istio Gateways from any namespace. Gateways configure load balancers for incoming traffic to the service mesh. Use this to inspect ingress/egress configuration and external access patterns.";
          WithString "namespace" [Description "Namespace to query (defaults to 'default'). Gateway configurations may exist in ingress or dedicated namespaces."];
          WithTitleAnnotation "Istio: Gateways";
          WithReadOnlyHintAnnotation true;
          WithDestructiveHintAnnotation false ];
       Handler := s_getGateways |};
    {| Tool_ := NewTool "get-service-entries"
        [ WithDescription "Get Istio Service Entries from any namespace. Service Entries allow adding external services to the service mesh registry. Use this to inspect external service configurations and mesh expansion settings.";
          WithString "namespace" [Description "Namespace to query (defaults to 'default'). External service configurations may be centralized in specific namespaces."];
          WithTitleAnnotation "Istio: Service Entries";
          WithReadOnlyHintAnnotation true;
          WithDestructiveHintAnnotation false ];
       Handler := s_getServiceEntries |} ].

Definition initSecurityTools : list ServerTool :=
  [ {| Tool_ := NewTool "get-authorization-policies"
        [ WithDescription "Get Istio Authorization Policies from any namespace. Authorization Policies control access to services in the Istio service mesh, defining who can access what resources. Use this to inspect security policies and access control configurations across namespaces.";
          WithString "namespace" [Description "Namespace to query (defaults to 'default'). Security policies may be defined in multiple namespaces for different service boundaries."];
          WithTitleAnnotation "Istio: Authorization Policies";
          WithReadOnlyHintAnnotation true;
          WithDestructiveHintAnnotation false ];
       Handler := s_getAuthorizationPolicies |};
    {| Tool_ := NewTool "get-peer-authentications"
        [ WithDescription "Get Istio Peer Authentications from any namespace. Peer Authentication policies define mutual TLS settings and authentication requirements for service-to-service communication. Use this to inspect mTLS configuration and security posture.";
          WithString "namespace" [Description "Namespace to query (defaults to 'default'). Authentication policies may be namespace-specific or inherited from mesh-wide settings."];
          WithTitleAnnotation "Istio: Peer Authentications";
          WithReadOnlyHintAnnotation true;
          WithDestructiveHintAnnotation false ];
       Handler := s_getPeerAuthentications |} ].

Definition initConfigurationTools : list ServerTool :=
  [ {| Tool_ := NewTool "discover-istio-namespaces"
        [ WithDescription "Discover namespaces that have pods with Istio sidecars and rank them by injection density. This tool helps identify the most probable best namespace for Istio operations by analyzing which namespaces have the most Istio-injected workloads. Use this to prioritize which namespaces to investigate first for Istio configuration and traffic analysis.";
          WithTitleAnnotation "Istio: Namespace Discovery";
          WithReadOnlyHintAnnotation true;
          WithDestructiveHintAnnotation false ];
       Handler := s_discoverIstioNamespaces |};
    {| Tool_ := NewTool "get-envoy-filters"
        [ WithDescription "Get Istio Envoy Filters from any namespace. Envoy Filters allow custom configuration of Envoy proxy behavior, including custom filters, listeners, and clusters. Use this to inspect advanced Istio service mesh configurations.";
          WithString "namespace" [Description "Namespace to query (defaults to 'default'). Custom Envoy configurations may be applied to specific namespaces or workloads."];
          WithTitleAnnotation "Istio: Envoy Filters";
          WithReadOnlyHintAnnotation true;
          WithDestructiveHintAnnotation false ];
       Handler := s_getEnvoyFilters |};
    {| Tool_ := NewTool "get-telemetry"
        [ WithDescription "Get Istio Telemetry configurations from any namespace. Telemetry policies define observability settings including metrics, tracing, and logging for the service mesh. Use this to inspect monitoring and observability configurations.";
          WithString "namespace" [Description "Namespace to query (defaults to 'default'). Telemetry policies may be namespace-specific or inherited from mesh-wide settings."];
          WithTitleAnnotation "Istio: Telemetry";
          WithReadOnlyHintAnnotation true;
          WithDestructiveHintAnnotation false ];
       Handler := s_getTelemetries |};
    {| Tool_ := NewTool "get-istio-config"
        [ WithDescription "Get comprehensive Istio configuration summary for any namespace. This provides an overview of all Istio resources including Virtual Services, Destination Rules, Gateways, Security Policies, and more. Use this for complete Istio service mesh configuration analysis.";
          WithString "namespace" [Description "Namespace to query (defaults to 'default'). Provides complete Istio configuration overview for the specified namespace."];
          WithTitleAnnotation "Istio: Configuration Summary";
          WithReadOnlyHintAnnotation true;
          WithDestructiveHintAnnotation false ];
       Handler := s_getIstioConfigSummary |};
    {| Tool_ := NewTool "check-external-dependency-availability"
        [ WithDescription "Check if an external dependency (like RDS, S3, etc.) is properly configured and accessible for a specific service. This tool validates that all required Istio resources (Service Entries, Virtual Services, Destination Rules, Authorization Policies) exist and are properly configured to allow the service to access the external dependency.";
          WithString "service-name" [Description "Name of the service that needs to access the external dependency"; Required];
          WithString "external-host" [Description "External hostname to check (e.g., 'rds.amazonaws.com', 's3.amazonaws.com')"; Required];
          WithString "namespace" [Description "Namespace of the service (defaults to 'default'). The tool will check for Istio resources in this namespace and globally."];
          WithTitleAnnotation "Istio: External Dependency Check";
          WithReadOnlyHintAnnotation true;
          WithDestructiveHintAnnotation false ];
       Handler := s_checkExternalDependencyAvailability |};
    {| Tool_ := NewTool "get-services"
        [ WithDescription "List all Kubernetes services in a namespace. This is the first step in the workflow to find pods for proxy commands: 1) Use this tool to discover available services, 2) Then use 'get-pods-by-service' to find the specific pods backing a service, 3) Finally use proxy commands (get-proxy-clusters, get-proxy-status, etc.) with the discovered pod names. Perfect for understanding the service landscape before diving into Istio proxy configuration.";
          WithString "namespace" [Description "Namespace to list services from (defaults to 'default'). Services are the entry points to your applications."];
          WithTitleAnnotation "Kubernetes: Service Discovery";
          WithReadOnlyHintAnnotation true;
          WithDestructiveHintAnnotation false ];
       Handler := s_getServices |};
    {| Tool_ := NewTool "get-pods-by-service"
        [ WithDescription "Find all pods backing a specific Kubernetes service - essential for the proxy command workflow. After discovering services with 'get-services', use this tool to find the exact pod names you need for Istio proxy commands. Shows running vs non-running pods, Istio sidecar status, and provides ready-to-use pod names for proxy debugging commands like get-proxy-clusters, get-proxy-status, get-proxy-listeners, etc. This is step 2 in the service→pod→proxy command workflow.";
          WithString "namespace" [Description "Namespace containing the service (defaults to 'default')"];
          WithString "service" [Description "Service name to find backing pods for (use 'get-services' first to discover available services)"; Required];
          WithTitleAnnotation "Kubernetes: Service Pod Discovery";
          WithReadOnlyHintAnnotation true;
          WithDestructiveHintAnnotation false ];
       Handler := s_getPodsByService |} ].

Definition initProxyConfigTools : list ServerTool :=
  [ {| Tool_ := NewTool "get-proxy-clusters"
        [ WithDescription "Get Envoy cluster configuration from any Istio proxy pod. Clusters represent upstream services and their load balancing settings. Use this for debugging service connectivity and load balancing issues in the Istio service mesh.";
          WithString "namespace" [Description "Namespace of the pod (defaults to 'default'). Istio proxies can be in any namespace where services are deployed."];
          WithString "pod" [Description "Pod name containing the Istio proxy (sidecar)"; Required];
          WithTitleAnnotation "Istio: Proxy Clusters";
          WithReadOnlyHintAnnotation true;
          WithDestructiveHintAnnotation false ];
       Handler := s_getProxyClusters |};
    {| Tool_ := NewTool "get-proxy-listeners"
        [ WithDescription "Get Envoy listener configuration from any Istio proxy pod. Listeners define how the proxy accepts incoming connections. Use this for debugging network connectivity and port binding issues in the service mesh.";
          WithString "namespace" [Description "Namespace of the pod (defaults to 'default'). Check the namespace where your service pods are deployed."];
          WithString "pod" [Description "Pod name containing the Istio proxy (sidecar)"; Required];
          WithTitleAnnotation "Istio: Proxy Listeners";
          WithReadOnlyHintAnnotation true;
          WithDestructiveHintAnnotation false ];
       Handler := s_getProxyListeners |};
    {| Tool_ := NewTool "get-proxy-routes"
        [ WithDescription "Get Envoy route configuration from any Istio proxy pod. Routes define how requests are matched and routed to clusters. Use this for debugging traffic routing and Virtual Service configuration issues.";
          WithString "namespace" [Description "Namespace of the pod (defaults to 'default'). Route configurations reflect Virtual Service rules applied to the pod."];
          WithString "pod" [Description "Pod name containing the Istio proxy (sidecar)"; Required];
          WithTitleAnnotation "Istio: Proxy Routes";
          WithReadOnlyHintAnnotation true;
          WithDestructiveHintAnnotation false ];
       Handler := s_getProxyRoutes |};
    {| Tool_ := NewTool "get-proxy-endpoints"
        [ WithDescription "Get Envoy endpoint configuration from any Istio proxy pod. Endpoints represent the actual instances of upstream services. Use this for debugging service discovery and endpoint health issues.";
          WithString "namespace" [Description "Namespace of the pod (defaults to 'default'). Endpoint configurations show service discovery results."];
          WithString "pod" [Description "Pod name containing the Istio proxy (sidecar)"; Required];
          WithTitleAnnotation "Istio: Proxy Endpoints";
          WithReadOnlyHintAnnotation true;
          WithDestructiveHintAnnotation false ];
       Handler := s_getProxyEndpoints |};
    {| Tool_ := NewTool "get-proxy-bootstrap"
        [ WithDescription "Get Envoy bootstrap configuration from any Istio proxy pod. Bootstrap config contains the initial proxy configuration including admin interface settings. Use this for debugging proxy startup and configuration issues.";
          WithString "namespace" [Description "Namespace of the pod (defaults to 'default'). Bootstrap config is generated during proxy initialization."];
          WithString "pod" [Description "Pod name containing the Istio proxy (sidecar)"; Required];
          WithTitleAnnotation "Istio: Proxy Bootstrap";
          WithReadOnlyHintAnnotation true;
          WithDestructiveHintAnnotation false ];
       Handler := s_getProxyBootstrap |};
    {| Tool_ := NewTool "get-proxy-config-dump"
        [ WithDescription "Get full Envoy configuration dump from any Istio proxy pod. This provides complete proxy configuration including all listeners, clusters, routes, and endpoints. Use this for comprehensive Istio proxy debugging and troubleshooting.";
          WithString "namespace" [Description "Namespace of the pod (defaults to 'default'). Full config dump shows complete proxy state."];
          WithString "pod" [Description "Pod name containing the Istio proxy (sidecar)"; Required];
          WithTitleAnnotation "Istio: Proxy Config Dump";
          WithReadOnlyHintAnnotation true;
          WithDestructiveHintAnnotation false ];
       Handler := s_getProxyConfigDump |};
    {| Tool_ := NewTool "get-proxy-status"
        [ WithDescription "Get proxy status information for all Istio proxies or a specific pod. Shows proxy sync status, configuration version, and connectivity health. Use this to monitor Istio service mesh health and configuration distribution.";
          WithString "namespace" [Description "Namespace of the pod (optional). If specified, shows status for proxies in that namespace only."];
          WithString "pod" [Description "Pod name (optional, if not provided shows all proxies). Use this to check specific proxy sync status."];
          WithTitleAnnotation "Istio: Proxy Status";
          WithReadOnlyHintAnnotation true;
          WithDestructiveHintAnnotation false ];
       Handler := s_getProxyStatus |};
    {| Tool_ := NewTool "get-istio-analyze"
        [ WithDescription "Analyze Istio configuration and report potential issues, misconfigurations, and best practice violations. This tool runs 'istioctl analyze' to provide comprehensive analysis of your Istio service mesh configuration.";
          WithString "namespace" [Description "Namespace to analyze (optional). If specified, analyzes only the specified namespace. If not provided, analyzes the entire cluster."];
          WithTitleAnnotation "Istio: Configuration Analysis";
          WithReadOnlyHintAnnotation true;
          WithDestructiveHintAnnotation false ];
       Handler := s_getIstioAnalyze |} ].

(** The only profile, [FullProfile]. *)
Inductive Profile : Type := FullProfile.

Definition GetName (p : Profile) : string :=
  match p with FullProfile => "full" end.

Definition GetDescription (p : Profile) : string :=
  match p with
  | FullProfile => "Complete profile with all Istio service mesh tools for networking, security, configuration, and proxy debugging across multiple namespaces"
  end.

(** [GetTools] returns all available tools for the full profile. *)
Definition GetTools (p : Profile) : list ServerTool :=
  match p with
  | FullProfile =>
      initNetworkingTools ++ initSecurityTools ++ initConfigurationTools ++ initProxyConfigTools
  end.

Definition Profiles : list Profile := [FullProfile].

Definition ProfileFromString (name : string) : option Profile :=
  find (λ profile, String.eqb (GetName profile) name) Profiles.

Definition ProfileNames : list string := GetName <$> Profiles.

(** *** The server *)

Record Configuration : Type := { Profile_ : Profile; Kubeconfig : string }.

(** [server.MCPServer], of which the program touches the registered tools. *)
Record MCPServer : Type := { tools : list ServerTool }.

(** [SetTools] replaces the registered tools as a whole. *)
Definition SetTools (m : MCPServer) (ts : list ServerTool) : MCPServer :=
  {| tools := ts |}.

(** [Server]: [i] is a pointer into the handles of the world, or nil. *)
Record Server : Type := {
  configuration : Configuration;
  server : MCPServer;
  i : option nat
}.

Record CallToolRequest : Type := {
  Params_Name : string;
  Params_Arguments : gmap string any
}.

Definition GetArguments (ctr : CallToolRequest) : gmap string any := Params_Arguments ctr.

(** *** Handlers *)

Section handlers.
Context (rt : Runtime) (host : Host) (w : World) (s : Server).

(** The idiom every handler uses for a string argument:
    [x := initial; if v := ctr.GetArguments()[key]; v != nil { x = v.(string) }] *)
Definition stringArgument (ctr : CallToolRequest) (key initial : string) : M string :=
  let v := index (GetArguments ctr) key in
  if notNil v then assertString v else mret initial.

(** [s.i], dereferenced when a method of the handle touches its fields. *)
Definition handle : M Istio :=
  match i s ≫= (istios w !!.) with
  | Some h => mret h
  | None => panic "runtime error: invalid memory address or nil pointer dereference"
  end.

(** [content, err := ...; return NewTextResult(content, err), nil] *)
Definition textResult (r : M (string * option error)) : M (CallToolResult * option error) :=
  '(content, err) ← r;
  mret (NewTextResult content err, None).

(** [return NewTextResult("", fmt.Errorf(msg)), nil] *)
Definition errorResult (msg : string) : M (CallToolResult * option error) :=
  mret (NewTextResult EmptyString (Some (errorString msg)), None).

Definition getVirtualServices (ctr : CallToolRequest) : M (CallToolResult * option error) :=
  namespace ← stringArgument ctr "namespace" "default";
  textResult (h ← handle; GetVirtualServices h namespace).

Definition getDestinationRules (ctr : CallToolRequest) : M (CallToolResult * option error) :=
  namespace ← stringArgument ctr "namespace" "default";
  textResult (h ← handle; GetDestinationRules h namespace).

Definition getGateways (ctr : CallToolRequest) : M (CallToolResult * option error) :=
  namespace ← stringArgument ctr "namespace" "default";
  textResult (h ← handle; GetGateways h namespace).

Definition getServiceEntries (ctr : CallToolRequest) : M (CallToolResult * option error) :=
  namespace ← stringArgument ctr "namespace" "default";
  textResult (h ← handle; GetServiceEntries h namespace).

Definition getAuthorizationPolicies (ctr : CallToolRequest) : M (CallToolResult * option error) :=
  namespace ← stringArgument ctr "namespace" "default";
  textResult (h ← handle; GetAuthorizationPolicies h namespace).

Definition getPeerAuthentications (ctr : CallToolRequest) : M (CallToolResult * option error) :=
  namespace ← stringArgument ctr "namespace" "default";
  textResult (h ← handle; GetPeerAuthentications h namespace).

Definition getEnvoyFilters (ctr : CallToolRequest) : M (CallToolResult * option error) :=
  namespace ← stringArgument ctr "namespace" "default";
  textResult (h ← handle; GetEnvoyFilters h namespace).

Definition getTelemetries (ctr : CallToolRequest) : M (CallToolResult * option error) :=
  namespace ← stringArgument ctr "namespace" "default";
  textResult (h ← handle; GetTelemetries h namespace).

Definition getIstioConfigSummary (ctr : CallToolRequest) : M (CallToolResult * option error) :=
  namespace ← stringArgument ctr "namespace" "default";
  textResult (h ← handle; GetIstioConfigSummary h namespace).

Definition checkExternalDependencyAvailability (ctr : CallToolRequest)
  : M (CallToolResult * option error) :=
  serviceName ← stringArgument ctr "service-name" EmptyString;
  if negb (nonEmpty serviceName) then errorResult "service-name is required" else
  externalHost ← stringArgument ctr "external-host" EmptyString;
  if negb (nonEmpty externalHost) then errorResult "external-host is required" else
  namespace ← stringArgument ctr "namespace" "default";
  textResult (h ← handle;
              CheckExternalDependencyAvailability h serviceName externalHost namespace).

Definition discoverIstioNamespaces (ctr : CallToolRequest) : M (CallToolResult * option error) :=
  textResult (h ← handle; DiscoverNamespacesWithSidecars rt h).

(** the six per-pod introspection handlers differ in the client method only *)
Definition proxyHandler
    (method : Host → ProxyConfigClient → string → string → M (string * option error))
    (ctr : CallToolRequest) : M (CallToolResult * option error) :=
  namespace ← stringArgument ctr "namespace" "default";
  podName ← stringArgument ctr "pod" EmptyString;
  if negb (nonEmpty podName) then errorResult "pod name is required" else
  textResult (h ← handle; method host (ProxyConfig h) namespace podName).

Definition getProxyClusters : CallToolRequest → M (CallToolResult * option error) :=
  proxyHandler GetClusters.

Definition getProxyListeners : CallToolRequest → M (CallToolResult * option error) :=
  proxyHandler GetListeners.

Definition getProxyRoutes : CallToolRequest → M (CallToolResult * option error) :=
  proxyHandler GetRoutes.

Definition getProxyEndpoints : CallToolRequest → M (CallToolResult * option error) :=
  proxyHandler GetEndpoints.

Definition getProxyBootstrap : CallToolRequest → M (CallToolResult * option error) :=
  proxyHandler GetBootstrap.

Definition getProxyConfigDump : CallToolRequest → M (CallToolResult * option error) :=
  proxyHandler GetConfigDump.

Definition getProxyStatus (ctr : CallToolRequest) : M (CallToolResult * option error) :=
  namespace ← stringArgument ctr "namespace" EmptyString;
  podName ← stringArgument ctr "pod" EmptyString;
  if nonEmpty podName && nonEmpty namespace
  then (** status for the specific pod *)
       textResult (h ← handle; GetProxyStatusForPod host (ProxyConfig h) namespace podName)
  else (** status for all proxies *)
       textResult (h ← handle; GetProxyStatus host (ProxyConfig h)).

Definition getIstioAnalyze (ctr : CallToolRequest) : M (CallToolResult * option error) :=
  namespace ← stringArgument ctr "namespace" EmptyString;
  textResult (h ← handle; GetAnalyze host (ProxyConfig h) namespace).

Definition getServices (ctr : CallToolRequest) : M (CallToolResult * option error) :=
  namespace ← stringArgument ctr "namespace" "default";
  textResult (h ← handle; GetServices h namespace).

Definition getPodsByService (ctr : CallToolRequest) : M (CallToolResult * option error) :=
  namespace ← stringArgument ctr "namespace" "default";
  serviceName ← stringArgument ctr "service" EmptyString;
  if negb (nonEmpty serviceName)
  then errorResult "service name is required - use 'get-services' first to discover available services"
  else textResult (h ← handle; GetPodsByService rt h namespace serviceName).

(** Calling the method value stored in a descriptor. *)
Definition call (f : HandlerFunc) : CallToolRequest → M (CallToolResult * option error) :=
  match f with
  | s_getVirtualServices => getVirtualServices
  | s_getDestinationRules => getDestinationRules
  | s_getGateways => getGateways
  | s_getServiceEntries => getServiceEntries
  | s_getAuthorizationPolicies => getAuthorizationPolicies
  | s_getPeerAuthentications => getPeerAuthentications
  | s_discoverIstioNamespaces => discoverIstioNamespaces
  | s_getEnvoyFilters => getEnvoyFilters
  | s_getTelemetries => getTelemetries
  | s_getIstioConfigSummary => getIstioConfigSummary
  | s_checkExternalDependencyAvailability => checkExternalDependencyAvailability
  | s_getServices => getServices
  | s_getPodsByService => getPodsByService
  | s_getProxyClusters => getProxyClusters
  | s_getProxyListeners => getProxyListeners
  | s_getProxyRoutes => getProxyRoutes
  | s_getProxyEndpoints => getProxyEndpoints
  | s_getProxyBootstrap => getProxyBootstrap
  | s_getProxyConfigDump => getProxyConfigDump
  | s_getProxyStatus => getProxyStatus
  | s_getIstioAnalyze => getIstioAnalyze
  end.

(** Invoking an operation by name, as the test helper [callTool] does: the
    catalog of the profile is searched for the exact name and the handler of
    the first match is called. *)
Definition callTool (toolName : string) (args : gmap string any)
  : option (M (CallToolResult * option error)) :=
  (λ tool, call (Handler tool) {| Params_Name := toolName; Params_Arguments := args |})
  <$> find (λ tool, String.eqb (Name (Tool_ tool)) toolName)
           (GetTools (Profile_ (configuration s))).

End handlers.

(** *** Start, reload and shutdown *)

(** [reloadIstioClient] reloads the Istio client and updates the server tools. *)
Definition reloadIstioClient (env : Env) (s : Server) (w : World)
  : Server * World * option error :=
  match NewIstio env (Kubeconfig (configuration s)) with
  | Err err => (s, w, Some err)
  | Ok h =>
      let '(ptr, w) := alloc h w in
      let tools := GetTools (Profile_ (configuration s)) in
      ({| configuration := configuration s;
          server := SetTools (server s) tools;
          i := Some ptr |}, w, None)
  end.

(** [NewServer] creates a new server instance: the first load, then the watch
    on the handle just loaded. The outer [None] is a panic. *)
Definition NewServer (env : Env) (configuration : Configuration)
  : option (result Server * World) :=
  let s := {| configuration := configuration; server := {| tools := [] |}; i := None |} in
  let '(s, w, err) := reloadIstioClient env s emptyWorld in
  match err with
  | Some err => Some (Err err, w)
  | None =>
      ptr ← i s;
      w ← WatchKubeConfig env ptr s_reloadIstioClient w;
      Some (Ok s, w)
  end.

(** [(s *Server) Close()] *)
Definition Close (env : Env) (s : Server) (w : World) : option World :=
  match i s with
  | Some ptr => istio.Close env ptr w
  | None => Some w
  end.

(** What can happen to a running server. *)
Inductive Action : Type :=
| FileChanged (id : nat) (env : Env)
| WatcherError (id : nat) (err : error)
| Shutdown (env : Env).

(** The goroutine of watcher [id] handles one event; a closed watcher delivers none. *)
Definition step (a : Action) (st : Server * World) : option (Server * World) :=
  let '(s, w) := st in
  match a with
  | FileChanged id env =>
      match watchers w !! id with
      | Some wt =>
          if live wt then
            match w_onKubeConfigChange wt with
            | s_reloadIstioClient =>
                let '(s, w, err) := reloadIstioClient env s w in
                match err with
                | Some err =>
                    Some (s, logLine ("Failed to handle kubeconfig change: " +:+ Error err) w)
                | None => Some (s, w)
                end
            end
          else Some (s, w)
      | None => Some (s, w)
      end
  | WatcherError id err =>
      match watchers w !! id with
      | Some wt =>
          if live wt
          then Some (s, logLine ("Kubeconfig watcher error: " +:+ Error err) w)
          else Some (s, w)
      | None => Some (s, w)
      end
  | Shutdown env => w ← Close env s w; Some (s, w)
  end.

(** A run of the server: the actions in order, stopping at a panic. *)
Fixpoint run (actions : list Action) (st : Server * World) : option (Server * World) :=
  match actions with
  | [] => Some st
  | a :: rest => st ← step a st; run rest st
  end.

End mcp.

(** ** Concrete clusters, hosts and runtimes used as test inputs *)
Module Fixtures.
Import Go istio mcp.

Definition okRest : RestConfig := {| rc_Host := "https://localhost:6443" |}.

(** A cluster without any Istio resource. *)
Definition emptyIstioClient : IstioClient :=
  {| VirtualServices_List := λ _, Ok [];
     DestinationRules_List := λ _, Ok [];
     Gateways_List := λ _, Ok [];
     ServiceEntries_List := λ _, Ok [];
     EnvoyFilters_List := λ _, Ok [];
     AuthorizationPolicies_List := λ _, Ok [];
     PeerAuthentications_List := λ _, Ok [];
     Telemetries_List := λ _, Ok [] |}.

(** The same cluster, except that service entries cannot be listed in
    [istio-system] (for instance for lack of permission there). *)
Definition guardedIstioClient : IstioClient :=
  {| VirtualServices_List := λ _, Ok [];
     DestinationRules_List := λ _, Ok [];
     Gateways_List := λ _, Ok [];
     ServiceEntries_List := λ ns,
       if String.eqb ns "istio-system"
       then Err (errorString "serviceentries is forbidden in namespace istio-system")
       else Ok [];
     EnvoyFilters_List := λ _, Ok [];
     AuthorizationPolicies_List := λ _, Ok [];
     PeerAuthentications_List := λ _, Ok [];
     Telemetries_List := λ _, Ok [] |}.

(** A cluster in which virtual services cannot be listed at all. *)
Definition brokenIstioClient : IstioClient :=
  {| VirtualServices_List := λ _, Err (errorString "connection refused");
     DestinationRules_List := λ _, Ok [];
     Gateways_List := λ _, Ok [];
     ServiceEntries_List := λ _, Ok [];
     EnvoyFilters_List := λ _, Ok [];
     AuthorizationPolicies_List := λ _, Ok [];
     PeerAuthentications_List := λ _, Ok [];
     Telemetries_List := λ _, Ok [] |}.

Definition webSelector : gmap string string := <["app" := "web"]> (<["tier" := "front"]> ∅).

Definition webService : Service :=
  {| svc_Name := "web"; svc_Type := "ClusterIP"; svc_ClusterIP := "10.1.1.1";
     svc_Selector := Some webSelector; svc_Ingress := [] |}.

Definition webPod : Pod :=
  {| pod_Name := "web-1"; pod_Namespace := "shop";
     pod_Containers := [{| c_Name := "app" |}; {| c_Name := "istio-proxy" |}];
     pod_NodeName := "node-a"; pod_Phase := "Running"; pod_PodIP := "10.0.0.7";
     pod_Conditions := [{| cond_Type := "Ready"; cond_Status := "True" |}] |}.

(** One service [web] selected by two labels, backed by one pod, whatever the
    order in which the selector is written. *)
Definition webKubeClient : KubeClient :=
  {| Services_List := λ _, Ok [webService];
     Services_Get := λ _ _, Ok webService;
     Endpoints_Get := λ _ _, Err (errorString "not found");
     Pods_List := λ _ _ _, Ok [webPod] |}.

Definition defaultKubeconfig : ClientConfig :=
  {| cc_ClientConfig := Ok okRest;
     cc_ConfigAccess := Some {| GetLoadingPrecedence := ["/root/.kube/config"] |} |}.

(** A machine with a readable kubeconfig at the default location. *)
Definition goodEnv (ic : IstioClient) : Env :=
  {| BuildConfigFromFlags := λ _, Ok okRest;
     NewClientConfigFromBytes := Ok {| cc_ClientConfig := Ok okRest; cc_ConfigAccess := None |};
     NewNonInteractiveDeferredLoadingClientConfig := λ _, defaultKubeconfig;
     kubernetes_NewForConfig := λ _, Ok webKubeClient;
     versioned_NewForConfig := λ _, Ok ic;
     fsnotify_NewWatcher := None;
     watcher_Add := λ _, None;
     watcher_Close := None |}.

(** The same machine after the kubeconfig was overwritten with garbage. *)
Definition badEnv : Env :=
  {| BuildConfigFromFlags := λ _, Err (errorString "invalid configuration");
     NewClientConfigFromBytes := Ok {| cc_ClientConfig := Ok okRest; cc_ConfigAccess := None |};
     NewNonInteractiveDeferredLoadingClientConfig := λ _,
       {| cc_ClientConfig := Err (errorString "invalid configuration");
          cc_ConfigAccess := Some {| GetLoadingPrecedence := ["/root/.kube/config"] |} |};
     kubernetes_NewForConfig := λ _, Ok webKubeClient;
     versioned_NewForConfig := λ _, Ok emptyIstioClient;
     fsnotify_NewWatcher := None;
     watcher_Add := λ _, None;
     watcher_Close := None |}.

Definition quietHost : Host := {| CombinedOutput := λ _ _, ("{}", None) |}.

(** Two sound runtimes: one visits a map in the order of its listing, the
    other in the opposite order. *)
Definition forwardRuntime : Runtime := {| mapRange := λ V m, map_to_list m |}.
Definition backwardRuntime : Runtime := {| mapRange := λ V m, reverse (map_to_list m) |}.

Definition fullConfiguration : Configuration :=
  {| Profile_ := FullProfile; Kubeconfig := EmptyString |}.

(** A handle built by hand on a given cluster, and a server holding it. *)
Definition handleOn (ic : IstioClient) : Istio :=
  {| kubeClient := webKubeClient; istioClient := ic; config := okRest;
     clientCmdConfig := Some defaultKubeconfig; CloseWatchKubeConfig := None;
     ProxyConfig := NewProxyConfigClient EmptyString |}.

Definition worldOn (ic : IstioClient) : World :=
  {| istios := [handleOn ic]; watchers := []; klog := [] |}.

Definition readyServer : Server :=
  {| configuration := fullConfiguration;
     server := {| tools := GetTools FullProfile |};
     i := Some 0 |}.

Definition withArguments (args : gmap string any) : CallToolRequest :=
  {| Params_Name := "call"; Params_Arguments := args |}.

End Fixtures.

(** ** Vocabulary of the statements *)
Module Statements.
Import Go istio mcp.

(** A descriptor annotated read-only and not destructive. *)
Definition readOnlyTool (tool : ServerTool) : Prop :=
  ReadOnlyHint (Annotations (Tool_ tool)) = Some true
  ∧ DestructiveHint (Annotations (Tool_ tool)) = Some false.

(** The watch bound to the handle that the server holds. *)
Definition watchOf (st : Server * World) : option nat :=
  ptr ← i st.1; h ← istios st.2 !! ptr; CloseWatchKubeConfig h.

(** How often the cleanup of watcher [id] has run. *)
Definition closeCallsOf (id : nat) (w : World) : option nat :=
  w_closeCalls <$> watchers w !! id.

(** A reload that hands the watch over: the watch of the previous handle was
    closed exactly once and another, open watch is bound to the new handle. *)
Definition watchHandedOver (before after : Server * World) : Prop :=
  ∃ previous next,
    watchOf before = Some previous ∧ closeCallsOf previous after.2 = Some 1
    ∧ watchOf after = Some next ∧ next ≠ previous
    ∧ closeCallsOf next after.2 = Some 0.

(** What holds of a server from its start on: it holds a valid handle; there
    is at most one watcher; only the first handle can be bound to it. *)
Definition serverInv (st : Server * World) : Prop :=
  (∃ ptr, i st.1 = Some ptr ∧ ptr < length (istios st.2))
  ∧ length (watchers st.2) ≤ 1
  ∧ (∀ ptr h id, istios st.2 !! ptr = Some h → CloseWatchKubeConfig h = Some id →
       ptr = 0 ∧ id = 0 ∧ id < length (watchers st.2))
  ∧ (∀ id, id < length (watchers st.2) →
       (istios st.2 !! 0 ≫= CloseWatchKubeConfig) = Some id).

(** A request carrying the given argument map. *)
Definition requestWith (args : gmap string any) : CallToolRequest :=
  {| Params_Name := EmptyString; Params_Arguments := args |}.

(** An argument map whose values are strings or null. *)
Definition stringly (args : gmap string any) : Prop :=
  ∀ k v, args !! k = Some v → v = AnyNil ∨ ∃ text, v = AnyString text.

(** The string a handler works with for an argument: the value supplied, or
    the initial value when the map yields nothing for the key. *)
Definition stringOf (args : gmap string any) (key initial : string) : string :=
  match index args key with
  | AnyString text => text
  | _ => initial
  end.

(** A required parameter is missing when it is absent, null or empty. *)
Definition missing (args : gmap string any) (param : string) : bool :=
  negb (nonEmpty (stringOf args param EmptyString)).

(** The first of the declared-required parameters that is missing. *)
Definition firstMissing (required : list string) (args : gmap string any) : option string :=
  find (missing args) required.

(** The message the claim expects for a missing parameter. *)
Definition claimedMessage (param : string) : string := param +:+ " is required".

(** The message the handlers have for it. *)
Definition requiredMessage (param : string) : string :=
  if String.eqb param "pod" then "pod name is required"
  else if String.eqb param "service"
  then "service name is required - use 'get-services' first to discover available services"
  else param +:+ " is required".

Definition errorEnvelope (message : string) : CallToolResult :=
  {| IsError := true; Content_ := [TextContent "text" message] |}.

Definition successEnvelope (content : string) : CallToolResult :=
  {| IsError := false; Content_ := [TextContent "text" content] |}.

(** The events a computation records, and the value it returns. *)
Definition events {A} (m : M A) : list Event := m.2.

Definition returned {A} (m : M A) : option A :=
  match m.1 with Returned a => Some a | Panicked _ => None end.

(** The handle the server holds, if its pointer is valid. *)
Definition handleOf (s : Server) (w : World) : option Istio :=
  i s ≫= (istios w !!.).

(** [--kubeconfig <path>], present when the client was given a path. *)
Definition kubeconfigFlag (p : ProxyConfigClient) : list string :=
  if nonEmpty (kubeconfig p) then ["--kubeconfig"; kubeconfig p] else [].

(** The two shapes of a proxy-status invocation. *)
Definition perPodInvocation (p : ProxyConfigClient) (namespace pod : string) : Event :=
  Exec "istioctl" (kubeconfigFlag p ++ ["proxy-status"; pod +:+ "." +:+ namespace]).

Definition clusterWideInvocation (p : ProxyConfigClient) : Event :=
  Exec "istioctl" (kubeconfigFlag p ++ ["proxy-status"]).

Definition failed {A} (r : result A) : Prop :=
  match r with Err _ => True | Ok _ => False end.

(** One of the four listings that the dependency check makes in the
    namespace asked for fails. *)
Definition mandatoryListingFails (h : Istio) (namespace : string) : Prop :=
  failed (ServiceEntries_List (istioClient h) namespace)
  ∨ failed (VirtualServices_List (istioClient h) namespace)
  ∨ failed (DestinationRules_List (istioClient h) namespace)
  ∨ failed (AuthorizationPolicies_List (istioClient h) namespace).

(** The resource-listing operations, with the kind named in their header and
    the resource they list. *)
Definition listingOperations : list (HandlerFunc * string * string) :=
  [ (s_getVirtualServices, "Virtual Services", "virtualservices");
    (s_getDestinationRules, "Destination Rules", "destinationrules");
    (s_getGateways, "Gateways", "gateways");
    (s_getServiceEntries, "Service Entries", "serviceentries");
    (s_getAuthorizationPolicies, "Authorization Policies", "authorizationpolicies");
    (s_getPeerAuthentications, "Peer Authentications", "peerauthentications");
    (s_getEnvoyFilters, "Envoy Filters", "envoyfilters");
    (s_getTelemetries, "Telemetry configurations", "telemetries") ].

(** The number of items a listing answers with, if it succeeds. *)
Definition count {A} (r : result (list A)) : option nat :=
  match r with Ok items => Some (length items) | Err _ => None end.

(** The number of items the cluster lists in a namespace for the kind of a
    listing operation. *)
Definition listed (f : HandlerFunc) (h : Istio) (namespace : string) : option nat :=
  match f with
  | s_getVirtualServices => count (VirtualServices_List (istioClient h) namespace)
  | s_getDestinationRules => count (DestinationRules_List (istioClient h) namespace)
  | s_getGateways => count (Gateways_List (istioClient h) namespace)
  | s_getServiceEntries => count (ServiceEntries_List (istioClient h) namespace)
  | s_getAuthorizationPolicies => count (AuthorizationPolicies_List (istioClient h) namespace)
  | s_getPeerAuthentications => count (PeerAuthentications_List (istioClient h) namespace)
  | s_getEnvoyFilters => count (EnvoyFilters_List (istioClient h) namespace)
  | s_getTelemetries => count (Telemetries_List (istioClient h) namespace)
  | _ => None
  end.

(** The argument map yields nothing for the key and the handler works with
    the initial value, or it yields a string and the handler works with it. *)
Definition resolvesTo (args : gmap string any) (key initial value : string) : Prop :=
  (index args key = AnyNil ∧ value = initial) ∨ index args key = AnyString value.

(** The operations whose namespace starts out as "default". *)
Definition defaultsNamespace (f : HandlerFunc) : bool :=
  match f with
  | s_discoverIstioNamespaces | s_getProxyStatus | s_getIstioAnalyze => false
  | _ => true
  end.

(** A per-pod proxy-config invocation. *)
Definition proxyInvocation (p : ProxyConfigClient) (section namespace pod : string) : Event :=
  Exec "istioctl"
    (kubeconfigFlag p ++ ["proxy-config"; section; pod +:+ "." +:+ namespace; "-o"; "json"]).

(** The first request an operation sends for a namespace, once its required
    parameters are given. *)
Definition firstRequest (p : ProxyConfigClient) (f : HandlerFunc) (namespace : string)
    (args : gmap string any) : option Event :=
  match f with
  | s_getVirtualServices => Some (ApiList "virtualservices" namespace EmptyString EmptyString)
  | s_getDestinationRules => Some (ApiList "destinationrules" namespace EmptyString EmptyString)
  | s_getGateways => Some (ApiList "gateways" namespace EmptyString EmptyString)
  | s_getServiceEntries => Some (ApiList "serviceentries" namespace EmptyString EmptyString)
  | s_getAuthorizationPolicies =>
      Some (ApiList "authorizationpolicies" namespace EmptyString EmptyString)
  | s_getPeerAuthentications =>
      Some (ApiList "peerauthentications" namespace EmptyString EmptyString)
  | s_getEnvoyFilters => Some (ApiList "envoyfilters" namespace EmptyString EmptyString)
  | s_getTelemetries => Some (ApiList "telemetries" namespace EmptyString EmptyString)
  | s_getIstioConfigSummary =>
      Some (ApiList "virtualservices" namespace EmptyString EmptyString)
  | s_checkExternalDependencyAvailability =>
      Some (ApiList "serviceentries" namespace EmptyString EmptyString)
  | s_getServices => Some (ApiList "services" namespace EmptyString EmptyString)
  | s_getPodsByService =>
      Some (ApiGet "services" namespace (stringOf args "service" EmptyString))
  | s_getProxyClusters =>
      Some (proxyInvocation p "cluster" namespace (stringOf args "pod" EmptyString))
  | s_getProxyListeners =>
      Some (proxyInvocation p "listener" namespace (stringOf args "pod" EmptyString))
  | s_getProxyRoutes =>
      Some (proxyInvocation p "route" namespace (stringOf args "pod" EmptyString))
  | s_getProxyEndpoints =>
      Some (proxyInvocation p "endpoint" namespace (stringOf args "pod" EmptyString))
  | s_getProxyBootstrap =>
      Some (proxyInvocation p "bootstrap" namespace (stringOf args "pod" EmptyString))
  | s_getProxyConfigDump =>
      Some (proxyInvocation p "all" namespace (stringOf args "pod" EmptyString))
  | s_discoverIstioNamespaces | s_getProxyStatus | s_getIstioAnalyze => None
  end.

(** A computation that returns, as opposed to one that panics. *)
Definition returns {A} (m : M A) : Prop := is_Some (returned m).

(** The words with which a listing operation names its resource in an error. *)
Definition listingWords (f : HandlerFunc) : string :=
  match f with
  | s_getVirtualServices => "virtual services"
  | s_getDestinationRules => "destination rules"
  | s_getGateways => "gateways"
  | s_getServiceEntries => "service entries"
  | s_getAuthorizationPolicies => "authorization policies"
  | s_getPeerAuthentications => "peer authentications"
  | s_getEnvoyFilters => "envoy filters"
  | s_getTelemetries => "telemetries"
  | _ => EmptyString
  end.

(** The error with which the cluster refuses the listing of an operation. *)
Definition listingError (f : HandlerFunc) (h : Istio) (namespace : string) : option error :=
  let failure {A} (r : result A) : option error :=
    match r with Err e => Some e | Ok _ => None end in
  match f with
  | s_getVirtualServices => failure (VirtualServices_List (istioClient h) namespace)
  | s_getDestinationRules => failure (DestinationRules_List (istioClient h) namespace)
  | s_getGateways => failure (Gateways_List (istioClient h) namespace)
  | s_getServiceEntries => failure (ServiceEntries_List (istioClient h) namespace)
  | s_getAuthorizationPolicies => failure (AuthorizationPolicies_List (istioClient h) namespace)
  | s_getPeerAuthentications => failure (PeerAuthentications_List (istioClient h) namespace)
  | s_getEnvoyFilters => failure (EnvoyFilters_List (istioClient h) namespace)
  | s_getTelemetries => failure (Telemetries_List (istioClient h) namespace)
  | _ => None
  end.

(** A value of an argument map that is neither null nor a string. *)
Definition notAString (v : any) : Prop :=
  match v with AnyNumber _ | AnyBool _ => True | AnyNil | AnyString _ => False end.

(** The operations that read the namespace argument before anything else. *)
Definition readsNamespaceFirst (f : HandlerFunc) : bool :=
  match f with
  | s_discoverIstioNamespaces | s_checkExternalDependencyAvailability => false
  | _ => true
  end.

(** One listing of the configuration summary: the resource listed, the words
    of its warning, the title of its line, and the number of items or the
    error the cluster answers with. *)
Record SummaryEntry : Type := {
  entry_resource : string;
  entry_words : string;
  entry_title : string;
  entry_answer : result nat
}.

Definition answerSize {A} (r : result (list A)) : result nat :=
  match r with Ok items => Ok (length items) | Err e => Err e end.

(** The eight listings of the configuration summary, in the order of the source. *)
Definition summaryEntries (h : Istio) (namespace : string) : list SummaryEntry :=
  [ {| entry_resource := "virtualservices"; entry_words := "virtual services";
       entry_title := "Virtual Services";
       entry_answer := answerSize (VirtualServices_List (istioClient h) namespace) |};
    {| entry_resource := "destinationrules"; entry_words := "destination rules";
       entry_title := "Destination Rules";
       entry_answer := answerSize (DestinationRules_List (istioClient h) namespace) |};
    {| entry_resource := "gateways"; entry_words := "gateways";
       entry_title := "Gateways";
       entry_answer := answerSize (Gateways_List (istioClient h) namespace) |};
    {| entry_resource := "serviceentries"; entry_words := "service entries";
       entry_title := "Service Entries";
       entry_answer := answerSize (ServiceEntries_List (istioClient h) namespace) |};
    {| entry_resource := "authorizationpolicies"; entry_words := "authorization policies";
       entry_title := "Authorization Policies";
       entry_answer := answerSize (AuthorizationPolicies_List (istioClient h) namespace) |};
    {| entry_resource := "peerauthentications"; entry_words := "peer authentications";
       entry_title := "Peer Authentications";
       entry_answer := answerSize (PeerAuthentications_List (istioClient h) namespace) |};
    {| entry_resource := "envoyfilters"; entry_words := "envoy filters";
       entry_title := "Envoy Filters";
       entry_answer := answerSize (EnvoyFilters_List (istioClient h) namespace) |};
    {| entry_resource := "telemetries"; entry_words := "telemetries";
       entry_title := "Telemetry Configurations";
       entry_answer := answerSize (Telemetries_List (istioClient h) namespace) |} ].

(** The line of an entry in the summary: none when its listing failed. *)
Definition summaryText (entry : SummaryEntry) : string :=
  match entry_answer entry with
  | Ok n => entry_title entry +:+ ": " +:+ fmt_d n +:+ nl
  | Err _ => EmptyString
  end.

(** The events of an entry: its request, and a warning when the listing failed. *)
Definition summaryEvents (namespace : string) (entry : SummaryEntry) : list Event :=
  ApiList (entry_resource entry) namespace EmptyString EmptyString
  :: match entry_answer entry with
     | Ok _ => []
     | Err e => [Klog ("Failed to list " +:+ entry_words entry +:+ ": " +:+ Error e)]
     end.

(** The concatenation of a list of strings. *)
Definition unlines (parts : list string) : string :=
  fold_right String.append EmptyString parts.

(** The per-pod introspection operations and the proxy-config section each asks for. *)
Definition proxySection (f : HandlerFunc) : option string :=
  match f with
  | s_getProxyClusters => Some "cluster"
  | s_getProxyListeners => Some "listener"
  | s_getProxyRoutes => Some "route"
  | s_getProxyEndpoints => Some "endpoint"
  | s_getProxyBootstrap => Some "bootstrap"
  | s_getProxyConfigDump => Some "all"
  | _ => None
  end.

(** The envelope for what a subprocess left: its output when it succeeded,
    the failure with the output as a diagnostic when it did not. *)
Definition subprocessEnvelope (output : string) (err : option error) : CallToolResult :=
  match err with
  | Some err =>
      errorEnvelope ("istioctl command failed: " +:+ Error err +:+ ", output: " +:+ output)
  | None => successEnvelope output
  end.

(** The files [WatchKubeConfig] goes on to watch for a handle: none when the
    handle has no client configuration, the configuration gives no access to
    its files, there is no file, or no watcher can be created. *)
Definition watchable (env : Env) (h : Istio) : option (list string) :=
  cc ← clientCmdConfig h;
  configAccess ← cc_ConfigAccess cc;
  match GetLoadingPrecedence configAccess with
  | [] => None
  | files =>
      match fsnotify_NewWatcher env with
      | Some _ => None
      | None => Some (filter (λ file, watcher_Add env file = None) files)
      end
  end.

(** The world right after a start on a machine with a kubeconfig: one handle,
    bound to the one watcher of the kubeconfig file. *)
Definition watchedHandle (ic : IstioClient) : Istio :=
  {| kubeClient := Fixtures.webKubeClient; istioClient := ic; config := Fixtures.okRest;
     clientCmdConfig := Some Fixtures.defaultKubeconfig; CloseWatchKubeConfig := Some 0;
     ProxyConfig := NewProxyConfigClient EmptyString |}.

Definition startupWatcher : Watcher :=
  {| w_files := ["/root/.kube/config"]; w_onKubeConfigChange := s_reloadIstioClient;
     w_closeCalls := 0 |}.

Definition watchedWorld (ic : IstioClient) : World :=
  {| istios := [watchedHandle ic]; watchers := [startupWatcher];
     klog := ["Watching kubeconfig file: /root/.kube/config"] |}.

(** The names under which a profile offers its tools. *)
Definition toolNames (p : Profile) : list string := (λ tool, Name (Tool_ tool)) <$> GetTools p.

(** A pod that counts for its namespace in the discovery: it runs and has a
    container named istio-proxy. *)
Definition meshed (pod : Pod) : bool :=
  String.eqb (pod_Phase pod) "Running" && hasIstioProxy pod.

(** The number of such pods of a namespace in a listing. *)
Definition meshedPods (namespace : string) (pods : list Pod) : nat :=
  length (filter (λ pod, meshed pod = true ∧ pod_Namespace pod = namespace) pods).

(** A running pod without a sidecar, and a cluster that has only this pod. *)
Definition plainPod : Pod :=
  {| pod_Name := "batch-1"; pod_Namespace := "jobs";
     pod_Containers := [{| c_Name := "worker" |}];
     pod_NodeName := "node-b"; pod_Phase := "Running"; pod_PodIP := "10.0.0.9";
     pod_Conditions := [{| cond_Type := "Ready"; cond_Status := "True" |}] |}.

Definition plainHandle : Istio :=
  {| kubeClient := {| Services_List := λ _, Ok [];
                      Services_Get := λ _ _, Err (errorString "services not found");
                      Endpoints_Get := λ _ _, Err (errorString "endpoints not found");
                      Pods_List := λ _ _ _, Ok [plainPod] |};
     istioClient := Fixtures.emptyIstioClient; config := Fixtures.okRest;
     clientCmdConfig := Some Fixtures.defaultKubeconfig; CloseWatchKubeConfig := None;
     ProxyConfig := NewProxyConfigClient EmptyString |}.

(** A cluster whose service [web] selects its pods by one label. *)
Definition singleLabelHandle : Istio :=
  {| kubeClient := {| Services_List := λ _, Ok [];
                      Services_Get := λ _ _,
                        Ok {| svc_Name := "web"; svc_Type := "ClusterIP";
                              svc_ClusterIP := "10.1.1.1";
                              svc_Selector := Some (<["app" := "web"]> ∅);
                              svc_Ingress := [] |};
                      Endpoints_Get := λ _ _, Err (errorString "endpoints not found");
                      Pods_List := λ _ _ _, Ok [Fixtures.webPod] |};
     istioClient := Fixtures.emptyIstioClient; config := Fixtures.okRest;
     clientCmdConfig := Some Fixtures.defaultKubeconfig; CloseWatchKubeConfig := None;
     ProxyConfig := NewProxyConfigClient EmptyString |}.

(** The number of lines filed under the four headings of the service listing. *)
Definition groupedLines (g : ServiceGroups) : nat :=
  length (clusterIPServices g) + length (nodePortServices g)
  + length (loadBalancerServices g) + length (headlessServices g).

(** The heading a service is filed under: its type decides first, and only
    then a cluster IP of "None". *)
Inductive Heading : Type := ClusterIPHeading | NodePortHeading | LoadBalancerHeading | HeadlessHeading.

Global Instance Heading_eq_dec : EqDecision Heading.
Proof. solve_decision. Defined.




End Statements.

(** ** Properties *)

Import Go istio mcp Statements.

(** *** Result envelope *)

(** C4. [NewTextResult] wraps a handler result [(content, err)]: with an error
    the envelope is flagged and its only content item is a text item holding
    the error's message, the content string being dropped; without an error
    the envelope is not flagged and its only item holds the content. In
    both cases there is exactly one content item. *)
Theorem NewTextResult_wraps (content : string) (err : option error) :
  IsError (NewTextResult content err) = bool_decide (is_Some err)
  ∧ Content_ (NewTextResult content err)
    = [TextContent "text" (from_option Error content err)]
  ∧ length (Content_ (NewTextResult content err)) = 1.
Proof.
  destruct err as [e|]; cbn; repeat split.
Qed.

Lemma textResult_envelope (m : M (string * option error)) r e t :
  textResult m = (Returned (r, e), t) →
  ∃ content err, r = NewTextResult content err ∧ e = None.
Proof.
  unfold textResult. destruct m as [[[content err]|why] t0]; cbn; [|done].
  intros [= <- <- _]. eauto.
Qed.

(** *** Catalog *)

(** C9. Every descriptor of every catalog build is annotated read-only and
    not destructive. *)
Theorem GetTools_all_readOnly (p : Profile) :
  Forall readOnlyTool (GetTools p).
Proof.
  destruct p. unfold GetTools.
  repeat apply Forall_app_2; repeat (apply Forall_cons_2 || apply Forall_nil_2);
    split; reflexivity.
Qed.

(** *** Reload *)

(** X1. The three ways in which the construction of a handle fails. *)
Lemma NewIstio_Err env kubeconfig err :
  NewIstio env kubeconfig = Err err →
  (∃ e, buildConfig env kubeconfig = Err e ∧ err = wrap "failed to build config: " e)
  ∨ (∃ cfg e, buildConfig env kubeconfig = Ok cfg
        ∧ kubernetes_NewForConfig env cfg.1 = Err e
        ∧ err = wrap "failed to create kubernetes client: " e)
  ∨ (∃ cfg e, buildConfig env kubeconfig = Ok cfg
        ∧ versioned_NewForConfig env cfg.1 = Err e
        ∧ err = wrap "failed to create istio client: " e).
Proof.
  unfold NewIstio. destruct (buildConfig env kubeconfig) as [[cfg cc]|e] eqn:Hb.
  - destruct (kubernetes_NewForConfig env cfg) as [kc|e] eqn:Hk.
    + destruct (versioned_NewForConfig env cfg) as [ic|e] eqn:Hv; [done|].
      intros [= <-]. right; right. exists (cfg, cc), e. done.
    + intros [= <-]. right; left. exists (cfg, cc), e. done.
  - intros [= <-]. left. eauto.
Qed.

(** C3. When the construction of the new handle fails, the reload callback
    returns that error and leaves the server (its handle pointer and its
    registered tools) and every object of the world as they were; the watcher
    goroutine that ran the callback only adds a log line. *)
Theorem reloadIstioClient_failure_keeps_backend env (s : Server) (w : World) err :
  NewIstio env (Kubeconfig (configuration s)) = Err err →
  reloadIstioClient env s w = (s, w, Some err)
  ∧ ∀ id, ∃ w', step (FileChanged id env) (s, w) = Some (s, w')
                ∧ istios w' = istios w ∧ watchers w' = watchers w.
Proof.
  intros Hnew.
  assert (Hreload : reloadIstioClient env s w = (s, w, Some err)).
  { unfold reloadIstioClient. by rewrite Hnew. }
  split; [done|]. intros id. cbn.
  destruct (watchers w !! id) as [wt|]; [|by eexists].
  destruct (live wt); [|by eexists].
  destruct (w_onKubeConfigChange wt). rewrite Hreload. by eexists.
Qed.

Lemma reloadIstioClient_failure_witness :
  reloadIstioClient Fixtures.badEnv Fixtures.readyServer
    (Fixtures.worldOn Fixtures.emptyIstioClient)
  = (Fixtures.readyServer, Fixtures.worldOn Fixtures.emptyIstioClient,
     Some (errorString "failed to build config: invalid configuration")).
Proof.
  apply (reloadIstioClient_failure_keeps_backend Fixtures.badEnv Fixtures.readyServer).
  reflexivity.
Defined.

(** *** The kubeconfig watch across reloads *)

Lemma NewServer_returns env configuration :
  ∃ r w, NewServer env configuration = Some (r, w).
Proof.
  unfold NewServer, reloadIstioClient. cbn.
  destruct (NewIstio env (Kubeconfig configuration)) as [h|e]; cbn; [|by eauto].
  unfold WatchKubeConfig; cbn.
  destruct (clientCmdConfig h) as [cc|]; [|by eauto].
  destruct (cc_ConfigAccess cc) as [ca|]; [|by eauto].
  destruct (GetLoadingPrecedence ca); [by eauto|].
  destruct (fsnotify_NewWatcher env); [by eauto|].
  destruct (CloseWatchKubeConfig h); by eauto.
Qed.

Lemma NewIstio_no_watch env kubeconfig h :
  NewIstio env kubeconfig = Ok h → CloseWatchKubeConfig h = None.
Proof.
  unfold NewIstio. destruct (buildConfig env kubeconfig) as [[cfg cc]|]; [|done].
  destruct (kubernetes_NewForConfig env cfg); [|done].
  destruct (versioned_NewForConfig env cfg); [|done].
  by intros [= <-].
Qed.

Lemma lookup_singleton_handle (h h' : Istio) ptr :
  [h] !! ptr = Some h' → ptr = 0 ∧ h' = h.
Proof. destruct ptr as [|[|ptr]]; cbn; [|done..]. by intros [= <-]. Qed.

Lemma lookup_snoc_handle (l : list Istio) h h' ptr :
  (l ++ [h]) !! ptr = Some h' →
  (ptr < length l ∧ l !! ptr = Some h') ∨ (ptr = length l ∧ h' = h).
Proof.
  intros Hl. destruct (decide (ptr < length l)) as [Hin|Hout].
  - left. by rewrite lookup_app_l in Hl.
  - right. rewrite lookup_app_r in Hl by lia.
    apply lookup_singleton_handle in Hl as [? ->]. split; [lia|done].
Qed.

(** The watch is installed by [NewServer] after the first handle was built,
    and on that handle. *)
Lemma NewServer_serverInv env configuration s0 w0 :
  NewServer env configuration = Some (Ok s0, w0) → serverInv (s0, w0).
Proof.
  unfold NewServer, reloadIstioClient. cbn.
  destruct (NewIstio env (Kubeconfig configuration)) as [h|e] eqn:Hnew; cbn; [|done].
  apply NewIstio_no_watch in Hnew.
  unfold WatchKubeConfig; cbn. rewrite Hnew.
  assert (Hquiet : ∀ line,
    serverInv ({| configuration := configuration; server := SetTools {| tools := [] |}
                    (GetTools (Profile_ configuration)); i := Some 0 |},
               logLine line {| istios := [h]; watchers := []; klog := [] |})).
  { intros line. unfold serverInv; cbn. split_and!.
    - exists 0. split; [done|lia].
    - lia.
    - intros ptr h' id [-> ->]%lookup_singleton_handle. congruence.
    - intros id Hid. lia. }
  destruct (clientCmdConfig h) as [cc|]; [|intros [= <- <-]; apply Hquiet].
  destruct (cc_ConfigAccess cc) as [ca|]; [|intros [= <- <-]; apply Hquiet].
  destruct (GetLoadingPrecedence ca) as [|file files]; [intros [= <- <-]; apply Hquiet|].
  destruct (fsnotify_NewWatcher env); [intros [= <- <-]; apply Hquiet|].
  intros [= <- <-]. unfold serverInv; cbn. split_and!.
  - exists 0. split; [done|lia].
  - lia.
  - intros ptr h' id [-> ->]%lookup_singleton_handle. cbn. intros [= <-]. lia.
  - intros id Hid. f_equal. lia.
Qed.

Lemma serverInv_logLine s w line :
  serverInv (s, w) → serverInv (s, logLine line w).
Proof. done. Qed.

(** A reload allocates at most one handle, without a watch, and touches no
    watcher. *)
Lemma reloadIstioClient_serverInv env s w s' w' err :
  serverInv (s, w) → reloadIstioClient env s w = (s', w', err) →
  serverInv (s', w') ∧ watchers w' = watchers w
  ∧ (i s' ≠ i s → watchOf (s', w') = None).
Proof.
  intros ([ptr [Hptr Hlt]] & Hone & Hbound & Hwatch). cbn in *.
  unfold reloadIstioClient.
  destruct (NewIstio env (Kubeconfig (configuration s))) as [h|e] eqn:Hnew.
  - apply NewIstio_no_watch in Hnew. cbn. intros [= <- <- <-]. cbn.
    split_and!; [|done|].
    + unfold serverInv; cbn. split_and!.
      * exists (length (istios w)). split; [done|]. rewrite length_app. cbn. lia.
      * done.
      * intros p h' id [[Hin Hl]|[-> ->]]%lookup_snoc_handle Hc.
        -- by apply (Hbound p h' id).
        -- congruence.
      * intros id Hid. rewrite lookup_app_l by lia. by apply Hwatch.
    + intros _. unfold watchOf. cbn.
      rewrite lookup_app_r by lia. rewrite Nat.sub_diag. cbn. done.
  - intros [= <- <- <-]. split_and!; [|done|done].
    unfold serverInv; cbn. split_and!; eauto.
Qed.

Lemma serverInv_closeWatcher env id failure s w :
  serverInv (s, w) → serverInv (s, closeWatcher env id failure w).
Proof.
  intros (Hptr & Hone & Hbound & Hwatch). unfold closeWatcher, serverInv in *.
  destruct (watcher_Close env); cbn in *; rewrite length_alter; by split_and!.
Qed.

(** No action makes the server panic, and every action keeps the invariant. *)
Lemma step_serverInv a st :
  serverInv st → ∃ st', step a st = Some st' ∧ serverInv st'.
Proof.
  destruct st as [s w]. intros Hinv. destruct a as [id env|id err|env]; cbn.
  - destruct (watchers w !! id) as [wt|]; [|by eauto].
    destruct (live wt); [|by eauto]. destruct (w_onKubeConfigChange wt).
    destruct (reloadIstioClient env s w) as [[s' w'] [e|]] eqn:Hreload;
      apply reloadIstioClient_serverInv in Hreload as (Hinv' & _ & _); try done;
      eexists; split; try done.
  - destruct (watchers w !! id) as [wt|]; [|by eauto].
    destruct (live wt); by eauto.
  - unfold mcp.Close. pose proof Hinv as ([ptr [Hptr Hlt]] & _). cbn in Hptr, Hlt.
    rewrite Hptr. unfold istio.Close.
    destruct (lookup_lt_is_Some_2 (istios w) ptr Hlt) as [h Hh]. rewrite Hh. cbn.
    eexists; split; [done|]. apply serverInv_logLine.
    destruct (CloseWatchKubeConfig h); [by apply serverInv_closeWatcher|done].
Qed.

Lemma run_serverInv actions st :
  serverInv st → ∃ st', run actions st = Some st' ∧ serverInv st'.
Proof.
  revert st. induction actions as [|a rest IH]; intros st Hinv; cbn; [by eauto|].
  destruct (step_serverInv a st Hinv) as (st1 & -> & Hinv1). cbn. by apply IH.
Qed.

(** The part of the watch discipline that holds. From a started server on,
    whatever happens, the run does not panic and there is never more than one
    watcher, so never two live ones on the same files. *)
Lemma started_server_has_at_most_one_watcher env configuration s0 w0 actions :
  NewServer env configuration = Some (Ok s0, w0) →
  ∃ s w, run actions (s0, w0) = Some (s, w)
    ∧ length (filter (λ wt, live wt = true) (watchers w)) ≤ 1
    ∧ length (watchers w) ≤ 1.
Proof.
  intros Hstart%NewServer_serverInv.
  destruct (run_serverInv actions _ Hstart) as ([s w] & Hrun & Hinv).
  exists s, w. split_and!; [done| |apply Hinv].
  etrans; [apply length_filter|apply Hinv].
Qed.

(** C1. The code breaks the claim at the first reload. On a machine with a
    good kubeconfig the server starts with one open watch, bound to its first
    handle. A change of the file rebuilds the handle, and the watch is not
    handed over: the watch of the previous handle has not been closed (its
    cleanup has run zero times, not once), no watch is installed for the new
    handle, and the only closer of the running watcher stays on the handle
    that the server no longer holds. Closing the server afterwards therefore
    closes nothing: the watcher is still open, and the next change of the
    file still reloads. *)
Theorem reload_orphans_startup_watch :
  ∃ s0 w0 s1 w1 w2 s3 w3,
    NewServer (Fixtures.goodEnv Fixtures.emptyIstioClient) Fixtures.fullConfiguration
      = Some (Ok s0, w0)
    ∧ i s0 = Some 0 ∧ watchOf (s0, w0) = Some 0 ∧ closeCallsOf 0 w0 = Some 0
    ∧ step (FileChanged 0 (Fixtures.goodEnv Fixtures.emptyIstioClient)) (s0, w0)
      = Some (s1, w1)
    ∧ i s1 = Some 1
    ∧ closeCallsOf 0 w1 = Some 0
    ∧ length (watchers w1) = 1
    ∧ watchOf (s1, w1) = None
    ∧ (istios w1 !! 0 ≫= CloseWatchKubeConfig) = Some 0
    ∧ ¬ watchHandedOver (s0, w0) (s1, w1)
    ∧ step (Shutdown (Fixtures.goodEnv Fixtures.emptyIstioClient)) (s1, w1)
      = Some (s1, w2)
    ∧ closeCallsOf 0 w2 = Some 0
    ∧ step (FileChanged 0 (Fixtures.goodEnv Fixtures.emptyIstioClient)) (s1, w2)
      = Some (s3, w3)
    ∧ i s3 = Some 2.
Proof.
  eexists _, _, _, _, _, _, _. split_and!; try reflexivity.
  intros (previous & next & Hprev & Hclosed & _).
  vm_compute in Hprev. injection Hprev as <-. vm_compute in Hclosed. discriminate.
Qed.

(** *** Reading arguments *)

Lemma bind_Returned {A B} (a : A) (f : A → M B) :
  mbind f ((Returned a, []) : M A) = f a.
Proof. unfold mbind, M_bind, bind. by destruct (f a). Qed.

Lemma stringArgument_nil args key initial :
  index args key = AnyNil →
  stringArgument (requestWith args) key initial = (Returned initial, []).
Proof. unfold stringArgument. cbn. by intros ->. Qed.

Lemma stringArgument_string args key initial text :
  index args key = AnyString text →
  stringArgument (requestWith args) key initial = (Returned text, []).
Proof. unfold stringArgument. cbn. by intros ->. Qed.

Lemma stringArgument_stringly args key initial :
  stringly args →
  stringArgument (requestWith args) key initial
  = (Returned (stringOf args key initial), []).
Proof.
  intros Hargs. unfold stringOf.
  destruct (index args key) as [|text|n|b] eqn:Hv.
  - by apply stringArgument_nil.
  - by apply stringArgument_string.
  - unfold index in Hv. destruct (args !! key) as [v|] eqn:Hk; [|done].
    cbn in Hv. subst v. destruct (Hargs _ _ Hk) as [|[? ?]]; done.
  - unfold index in Hv. destruct (args !! key) as [v|] eqn:Hk; [|done].
    cbn in Hv. subst v. destruct (Hargs _ _ Hk) as [|[? ?]]; done.
Qed.

Lemma missing_true args param :
  missing args param = true → nonEmpty (stringOf args param EmptyString) = false.
Proof. unfold missing. by destruct (nonEmpty _). Qed.

Lemma missing_false args param :
  missing args param = false → nonEmpty (stringOf args param EmptyString) = true.
Proof. unfold missing. by destruct (nonEmpty _). Qed.

(** *** Required parameters *)

(** C2, as the claim has it, fails: [pod] is declared required for
    get-proxy-clusters, and a call without arguments is answered with the
    message "pod name is required", which is not "pod is required". *)
Lemma missing_pod_message_differs :
  ∃ tool,
    tool ∈ GetTools FullProfile
    ∧ Name (Tool_ tool) = "get-proxy-clusters"
    ∧ Required_ (InputSchema (Tool_ tool)) = ["pod"]
    ∧ call Fixtures.forwardRuntime Fixtures.quietHost
        (Fixtures.worldOn Fixtures.emptyIstioClient) Fixtures.readyServer
        (Handler tool) (requestWith ∅)
      = (Returned (errorEnvelope "pod name is required", None), [])
    ∧ errorEnvelope "pod name is required" ≠ errorEnvelope (claimedMessage "pod").
Proof.
  eexists {| Tool_ := _; Handler := s_getProxyClusters |}. split_and!.
  - unfold GetTools. rewrite !elem_of_app. do 3 right. apply list_elem_of_here.
  - reflexivity.
  - reflexivity.
  - reflexivity.
  - discriminate.
Qed.

(** The handler and the declared-required parameters of every descriptor. *)
Lemma catalog_required :
  (λ tool, (Handler tool, Required_ (InputSchema (Tool_ tool)))) <$> GetTools FullProfile
  = [ (s_getVirtualServices, []); (s_getDestinationRules, []); (s_getGateways, []);
      (s_getServiceEntries, []); (s_getAuthorizationPolicies, []);
      (s_getPeerAuthentications, []); (s_discoverIstioNamespaces, []);
      (s_getEnvoyFilters, []); (s_getTelemetries, []); (s_getIstioConfigSummary, []);
      (s_checkExternalDependencyAvailability, ["service-name"; "external-host"]);
      (s_getServices, []); (s_getPodsByService, ["service"]);
      (s_getProxyClusters, ["pod"]); (s_getProxyListeners, ["pod"]);
      (s_getProxyRoutes, ["pod"]); (s_getProxyEndpoints, ["pod"]);
      (s_getProxyBootstrap, ["pod"]); (s_getProxyConfigDump, ["pod"]);
      (s_getProxyStatus, []); (s_getIstioAnalyze, []) ].
Proof. vm_compute. reflexivity. Qed.

Lemma proxyHandler_missing_pod host w s method args :
  stringly args → missing args "pod" = true →
  proxyHandler host w s method (requestWith args)
  = (Returned (errorEnvelope "pod name is required", None), []).
Proof.
  intros Hargs Hpod%missing_true. unfold proxyHandler.
  rewrite !stringArgument_stringly, !bind_Returned by done.
  by rewrite Hpod.
Qed.

(** C2, as the code has it. When a declared-required parameter of an
    operation is absent, null or empty, and the arguments supplied are strings,
    the call returns an error envelope with the fixed message of the first
    such parameter and records no event: no request to the cluster, no
    subprocess. The message is "<parameter> is required" for service-name and
    external-host, "pod name is required" for pod, and "service name is
    required - use 'get-services' first to discover available services" for
    service. *)
Theorem missing_required_parameter rt host w s tool args param :
  tool ∈ GetTools FullProfile →
  stringly args →
  firstMissing (Required_ (InputSchema (Tool_ tool))) args = Some param →
  call rt host w s (Handler tool) (requestWith args)
  = (Returned (errorEnvelope (requiredMessage param), None), []).
Proof.
  intros Hin Hargs.
  apply (list_elem_of_fmap_2 (λ tool, (Handler tool, Required_ (InputSchema (Tool_ tool)))))
    in Hin.
  rewrite catalog_required in Hin. apply list_elem_of_In in Hin. cbn [In] in Hin.
  repeat destruct Hin as [Hin|Hin]; try done;
    injection Hin as <- <-; unfold firstMissing; cbn [find]; try done.
  - (* check-external-dependency-availability *)
    cbn [call]. unfold checkExternalDependencyAvailability.
    rewrite (stringArgument_stringly args "service-name"), bind_Returned by done.
    destruct (missing args "service-name") eqn:Hs.
    + intros [= <-]. apply missing_true in Hs. by rewrite Hs.
    + destruct (missing args "external-host") eqn:Hh; [|done].
      intros [= <-]. apply missing_false in Hs. apply missing_true in Hh.
      rewrite Hs. cbn [negb].
      rewrite (stringArgument_stringly args "external-host"), bind_Returned by done.
      by rewrite Hh.
  - (* get-pods-by-service *)
    destruct (missing args "service") eqn:Hs; [|done].
    intros [= <-]. apply missing_true in Hs. cbn [call]. unfold getPodsByService.
    rewrite !stringArgument_stringly, !bind_Returned by done. by rewrite Hs.
  - destruct (missing args "pod") eqn:Hp; [|done]. intros [= <-].
    by apply proxyHandler_missing_pod.
  - destruct (missing args "pod") eqn:Hp; [|done]. intros [= <-].
    by apply proxyHandler_missing_pod.
  - destruct (missing args "pod") eqn:Hp; [|done]. intros [= <-].
    by apply proxyHandler_missing_pod.
  - destruct (missing args "pod") eqn:Hp; [|done]. intros [= <-].
    by apply proxyHandler_missing_pod.
  - destruct (missing args "pod") eqn:Hp; [|done]. intros [= <-].
    by apply proxyHandler_missing_pod.
  - destruct (missing args "pod") eqn:Hp; [|done]. intros [= <-].
    by apply proxyHandler_missing_pod.
Qed.

Lemma stringly_empty : stringly ∅.
Proof. intros k v. by rewrite lookup_empty. Qed.

Lemma stringly_insert_string args key text :
  stringly args → stringly (<[key := AnyString text]> args).
Proof.
  intros Hargs k v [[_ <-]|[_ Hk]]%lookup_insert_Some; [right; eauto|by eapply Hargs].
Qed.

Lemma stringly_insert_nil args key :
  stringly args → stringly (<[key := AnyNil]> args).
Proof.
  intros Hargs k v [[_ <-]|[_ Hk]]%lookup_insert_Some; [by left|by eapply Hargs].
Qed.

Lemma missing_required_parameter_witness :
  call Fixtures.forwardRuntime Fixtures.quietHost
    (Fixtures.worldOn Fixtures.emptyIstioClient) Fixtures.readyServer
    s_getProxyClusters (requestWith (<["namespace" := AnyString "ns1"]> ∅))
  = (Returned (errorEnvelope "pod name is required", None), []).
Proof.
  eapply (missing_required_parameter Fixtures.forwardRuntime Fixtures.quietHost
            (Fixtures.worldOn Fixtures.emptyIstioClient) Fixtures.readyServer
            {| Tool_ := _; Handler := s_getProxyClusters |}
            (<["namespace" := AnyString "ns1"]> ∅) "pod").
  - unfold GetTools. rewrite !elem_of_app. do 3 right. apply list_elem_of_here.
  - apply stringly_insert_string, stringly_empty.
  - vm_compute. reflexivity.
Defined.

(** *** Events of the building blocks *)

Lemma handle_valid s w h :
  handleOf s w = Some h → handle w s = (Returned h, []).
Proof. unfold handleOf, handle. by intros ->. Qed.

Lemma textResult_events (m : M (string * option error)) :
  events (textResult m) = events m.
Proof.
  unfold textResult, events. destruct m as [[[content err]|why] t]; cbn; [|done].
  apply app_nil_r.
Qed.

Lemma execIstioctl_events host p args :
  events (execIstioctl host p args) = [Exec "istioctl" (kubeconfigFlag p ++ args)].
Proof.
  unfold execIstioctl, events, kubeconfigFlag.
  destruct (CombinedOutput host (timeout p) _) as [output [err|]]; reflexivity.
Qed.

(** *** Proxy status *)

(** C5, as the claim has it, fails: with the pod given and no namespace the
    handler starts the cluster-wide invocation, not the per-pod one. *)
Lemma proxy_status_with_pod_goes_cluster_wide :
  (<["pod" := AnyString "app-1"]> ∅ : gmap string any) !! "pod" = Some (AnyString "app-1")
  ∧ events (getProxyStatus Fixtures.quietHost (Fixtures.worldOn Fixtures.emptyIstioClient)
              Fixtures.readyServer (requestWith (<["pod" := AnyString "app-1"]> ∅)))
    = [clusterWideInvocation (NewProxyConfigClient EmptyString)]
  ∧ ∀ namespace,
      events (getProxyStatus Fixtures.quietHost (Fixtures.worldOn Fixtures.emptyIstioClient)
                Fixtures.readyServer (requestWith (<["pod" := AnyString "app-1"]> ∅)))
      ≠ [perPodInvocation (NewProxyConfigClient EmptyString) namespace "app-1"].
Proof.
  split_and!; [reflexivity|reflexivity|].
  intros namespace. vm_compute. discriminate.
Qed.

(** C5, as the code has it. With string arguments and a handle in place, the
    proxy-status handler starts exactly one subprocess: the per-pod invocation
    for "<pod>.<namespace>" when both the pod and the namespace are given and
    not empty, the cluster-wide invocation in every other case. *)
Theorem getProxyStatus_invocation host w s h args :
  stringly args →
  handleOf s w = Some h →
  events (getProxyStatus host w s (requestWith args))
  = [ if nonEmpty (stringOf args "pod" EmptyString)
         && nonEmpty (stringOf args "namespace" EmptyString)
      then perPodInvocation (ProxyConfig h) (stringOf args "namespace" EmptyString)
                            (stringOf args "pod" EmptyString)
      else clusterWideInvocation (ProxyConfig h) ].
Proof.
  intros Hargs Hh%handle_valid. unfold getProxyStatus.
  rewrite (stringArgument_stringly args "namespace"), bind_Returned by done.
  rewrite (stringArgument_stringly args "pod"), bind_Returned by done.
  destruct (nonEmpty (stringOf args "pod" EmptyString)
            && nonEmpty (stringOf args "namespace" EmptyString));
    rewrite textResult_events, Hh, bind_Returned; apply execIstioctl_events.
Qed.

Lemma getProxyStatus_invocation_witness :
  events (getProxyStatus Fixtures.quietHost (Fixtures.worldOn Fixtures.emptyIstioClient)
            Fixtures.readyServer
            (requestWith (<["pod" := AnyString "app-1"]>
                            (<["namespace" := AnyString "ns1"]> ∅))))
  = [Exec "istioctl" ["proxy-status"; "app-1.ns1"]].
Proof.
  etrans.
  - apply (getProxyStatus_invocation Fixtures.quietHost
             (Fixtures.worldOn Fixtures.emptyIstioClient) Fixtures.readyServer
             (Fixtures.handleOn Fixtures.emptyIstioClient)
             (<["pod" := AnyString "app-1"]> (<["namespace" := AnyString "ns1"]> ∅))).
    + do 2 apply stringly_insert_string. apply stringly_empty.
    + reflexivity.
  - vm_compute. reflexivity.
Defined.

(** *** External dependency check *)

(** C6, as the claim has it, fails: the check of a host that has no service
    entry in the namespace also lists the service entries of istio-system;
    on a cluster that refuses this listing the check still returns a
    report and no error. *)
Lemma dependency_check_survives_failed_listing :
  failed (ServiceEntries_List Fixtures.guardedIstioClient "istio-system")
  ∧ ApiList "serviceentries" "istio-system" EmptyString EmptyString
    ∈ events (CheckExternalDependencyAvailability
                (Fixtures.handleOn Fixtures.guardedIstioClient)
                "orders" "rds.amazonaws.com" "default")
  ∧ ∃ content,
      returned (CheckExternalDependencyAvailability
                  (Fixtures.handleOn Fixtures.guardedIstioClient)
                  "orders" "rds.amazonaws.com" "default")
      = Some (content, None).
Proof.
  split_and!.
  - exact I.
  - vm_compute. apply list_elem_of_further, list_elem_of_here.
  - eexists. vm_compute. reflexivity.
Qed.

(** C6, as the code has it. The four listings made in the namespace asked
    for (service entries, virtual services, destination rules, authorization
    policies) are mandatory: when one of them fails the check returns an error
    and an empty content, never a report. The further listing of service
    entries in istio-system is not among them. *)
Theorem CheckExternalDependencyAvailability_mandatory
    (h : Istio) (serviceName externalHost namespace : string) :
  mandatoryListingFails h namespace →
  ∃ err, returned (CheckExternalDependencyAvailability h serviceName externalHost namespace)
         = Some (EmptyString, Some err).
Proof.
  unfold mandatoryListingFails, failed, returned, CheckExternalDependencyAvailability, request.
  intros Hfail.
  destruct (ServiceEntries_List (istioClient h) namespace) as [seList|e1]; cbn;
    [|by eauto].
  assert (Hothers :
    failed (VirtualServices_List (istioClient h) namespace)
    ∨ failed (DestinationRules_List (istioClient h) namespace)
    ∨ failed (AuthorizationPolicies_List (istioClient h) namespace)).
  { by destruct Hfail as [[]|?]. }
  clear Hfail. unfold failed in Hothers.
  destruct (findServiceEntry externalHost seList); cbn;
    [|destruct (ServiceEntries_List (istioClient h) "istio-system"); cbn];
    (destruct (VirtualServices_List (istioClient h) namespace); cbn; [|by eauto]);
    (destruct (DestinationRules_List (istioClient h) namespace); cbn; [|by eauto]);
    (destruct (AuthorizationPolicies_List (istioClient h) namespace); cbn; [|by eauto]);
    by destruct Hothers as [[]|[[]|[]]].
Qed.

Lemma CheckExternalDependencyAvailability_mandatory_witness :
  ∃ err, returned (CheckExternalDependencyAvailability
                     (Fixtures.handleOn Fixtures.brokenIstioClient)
                     "orders" "rds.amazonaws.com" "default")
         = Some (EmptyString, Some err).
Proof.
  apply (CheckExternalDependencyAvailability_mandatory
           (Fixtures.handleOn Fixtures.brokenIstioClient)
           "orders" "rds.amazonaws.com" "default").
  right; left. exact I.
Defined.

(** Conversely, when the four listings succeed the check returns a report,
    whatever the listing in istio-system answers. *)
Lemma CheckExternalDependencyAvailability_reports
    (h : Istio) (serviceName externalHost namespace : string) :
  ¬ mandatoryListingFails h namespace →
  ∃ content,
    returned (CheckExternalDependencyAvailability h serviceName externalHost namespace)
    = Some (content, None).
Proof.
  unfold mandatoryListingFails, failed, returned, CheckExternalDependencyAvailability, request.
  intros Hfine.
  destruct (ServiceEntries_List (istioClient h) namespace) as [seList|e1]; cbn;
    [|by destruct Hfine; auto].
  destruct (findServiceEntry externalHost seList); cbn;
    [|destruct (ServiceEntries_List (istioClient h) "istio-system"); cbn];
    (destruct (VirtualServices_List (istioClient h) namespace); cbn;
       [|by destruct Hfine; auto]);
    (destruct (DestinationRules_List (istioClient h) namespace); cbn;
       [|by destruct Hfine; auto]);
    (destruct (AuthorizationPolicies_List (istioClient h) namespace); cbn;
       [|by destruct Hfine; auto]);
    by eauto.
Qed.

(** *** Repeated calls *)

Lemma forwardRuntime_ok : Runtime_ok Fixtures.forwardRuntime.
Proof. intros V m. reflexivity. Qed.

Lemma backwardRuntime_ok : Runtime_ok Fixtures.backwardRuntime.
Proof. intros V m. cbn. apply reverse_Permutation. Qed.

(** C7 at the pods-by-service operation. The service [web] selects its pods
    by two labels; the cluster, the server and the arguments are the same in
    both calls, and both runtimes visit maps soundly. The two calls succeed
    with different contents: the selector line reads "app=web,tier=front" in
    one and "tier=front,app=web" in the other. *)
Theorem getPodsByService_content_follows_map_order :
  Runtime_ok Fixtures.forwardRuntime
  ∧ Runtime_ok Fixtures.backwardRuntime
  ∧ ∃ content1 content2,
      returned (getPodsByService Fixtures.forwardRuntime
                  (Fixtures.worldOn Fixtures.emptyIstioClient) Fixtures.readyServer
                  (requestWith (<["service" := AnyString "web"]> ∅)))
      = Some (successEnvelope content1, None)
      ∧ returned (getPodsByService Fixtures.backwardRuntime
                    (Fixtures.worldOn Fixtures.emptyIstioClient) Fixtures.readyServer
                    (requestWith (<["service" := AnyString "web"]> ∅)))
        = Some (successEnvelope content2, None)
      ∧ content1 ≠ content2.
Proof.
  split_and!; [apply forwardRuntime_ok|apply backwardRuntime_ok|].
  eexists _, _. split_and!.
  - vm_compute. reflexivity.
  - vm_compute. reflexivity.
  - discriminate.
Qed.

(** *** Listings *)

Lemma stringArgument_resolves args key initial value :
  resolvesTo args key initial value →
  stringArgument (requestWith args) key initial = (Returned value, []).
Proof.
  intros [[Hnil ->]|Hstr]; [by apply stringArgument_nil|by apply stringArgument_string].
Qed.

(** C8. A resource-listing operation called on a cluster that lists no item
    of its kind in the namespace asked for returns a success envelope whose
    content is the header "Found 0 <Kind> in namespace '<ns>':" and a newline,
    nothing more, after one listing request. *)
Theorem listing_empty_collection rt host w s h f kind resource args namespace :
  (f, kind, resource) ∈ listingOperations →
  handleOf s w = Some h →
  resolvesTo args "namespace" "default" namespace →
  listed f h namespace = Some 0 →
  call rt host w s f (requestWith args)
  = (Returned (successEnvelope ("Found 0 " +:+ kind +:+ " in namespace '"
                                +:+ namespace +:+ "':" +:+ nl), None),
     [ApiList resource namespace EmptyString EmptyString]).
Proof.
  intros Hin Hh%handle_valid Hns%stringArgument_resolves.
  apply list_elem_of_In in Hin. cbn [In listingOperations] in Hin.
  repeat destruct Hin as [Hin|Hin]; try done; injection Hin as <- <- <-;
    cbn [call listed]; unfold count;
    [ unfold getVirtualServices | unfold getDestinationRules | unfold getGateways
    | unfold getServiceEntries | unfold getAuthorizationPolicies
    | unfold getPeerAuthentications | unfold getEnvoyFilters | unfold getTelemetries ];
    rewrite Hns, bind_Returned, Hh, bind_Returned;
    [ unfold GetVirtualServices | unfold GetDestinationRules | unfold GetGateways
    | unfold GetServiceEntries | unfold GetAuthorizationPolicies
    | unfold GetPeerAuthentications | unfold GetEnvoyFilters | unfold GetTelemetries ];
    match goal with
    | |- context [request _ ?answer] => destruct answer as [[|x items]|e]
    end; try discriminate; intros _; reflexivity.
Qed.

Lemma listing_empty_collection_witness :
  call Fixtures.forwardRuntime Fixtures.quietHost
    (Fixtures.worldOn Fixtures.emptyIstioClient) Fixtures.readyServer
    s_getTelemetries (requestWith (<["namespace" := AnyString "production"]> ∅))
  = (Returned (successEnvelope ("Found 0 Telemetry configurations in namespace 'production':"
                                +:+ nl), None),
     [ApiList "telemetries" "production" EmptyString EmptyString]).
Proof.
  apply (listing_empty_collection Fixtures.forwardRuntime Fixtures.quietHost
           (Fixtures.worldOn Fixtures.emptyIstioClient) Fixtures.readyServer
           (Fixtures.handleOn Fixtures.emptyIstioClient)
           s_getTelemetries "Telemetry configurations" "telemetries"
           (<["namespace" := AnyString "production"]> ∅) "production").
  - do 7 apply list_elem_of_further. apply list_elem_of_here.
  - reflexivity.
  - right. reflexivity.
  - reflexivity.
Defined.

(** *** The namespace argument *)

Lemma events_bind_request {A B} (e : Event) (answer : result A) (k : result A → M B) :
  events (request e answer ≫= k) = e :: events (k answer).
Proof. unfold events, request. cbn. by destruct (k answer). Qed.

Lemma append_String c (a b : string) : String c a +:+ b = String c (a +:+ b).
Proof. reflexivity. Qed.

Lemma append_assoc (a b c : string) : (a +:+ b) +:+ c = a +:+ (b +:+ c).
Proof.
  induction a as [|x a IH]; [done|]. rewrite !append_String. by rewrite IH.
Qed.

(** The lines of the items follow the header. *)
Lemma appendEach_prefix {A} (body : A → string) (items : list A) (result : string) :
  appendEach body items result = result +:+ appendEach body items EmptyString.
Proof.
  unfold appendEach. revert result.
  induction items as [|x items IH]; intros result; cbn [fold_left].
  - induction result as [|c result IHr]; [done|]. rewrite append_String. by rewrite <- IHr.
  - rewrite IH. rewrite (IH (EmptyString +:+ body x)). by rewrite append_assoc.
Qed.

(** C10, as the claim has it, fails: with the namespace key in the map but
    bound to null, the listing is made in "default". *)
Lemma null_namespace_takes_default :
  (<["namespace" := AnyNil]> ∅ : gmap string any) !! "namespace" ≠ None
  ∧ call Fixtures.forwardRuntime Fixtures.quietHost
      (Fixtures.worldOn Fixtures.emptyIstioClient) Fixtures.readyServer
      s_getVirtualServices (requestWith (<["namespace" := AnyNil]> ∅))
    = (Returned (successEnvelope ("Found 0 Virtual Services in namespace 'default':" +:+ nl),
                 None),
       [ApiList "virtualservices" "default" EmptyString EmptyString]).
Proof. split; [discriminate|reflexivity]. Qed.

Lemma firstMissing_None_pod args :
  stringly args → firstMissing ["pod"] args = None →
  nonEmpty (stringOf args "pod" EmptyString) = true.
Proof.
  unfold firstMissing. cbn [find]. intros _.
  destruct (missing args "pod") eqn:Hp; [done|]. intros _. by apply missing_false.
Qed.

Lemma proxyHandler_first_request host w s h method section args namespace :
  (∀ ns pod, method host (ProxyConfig h) ns pod
             = execIstioctl host (ProxyConfig h)
                 ["proxy-config"; section; podIdentity ns pod; "-o"; "json"]) →
  handleOf s w = Some h → stringly args →
  firstMissing ["pod"] args = None →
  resolvesTo args "namespace" "default" namespace →
  head (events (proxyHandler host w s method (requestWith args)))
  = Some (proxyInvocation (ProxyConfig h) section namespace (stringOf args "pod" EmptyString)).
Proof.
  intros Hmethod Hh%handle_valid Hargs Hpod%firstMissing_None_pod Hns%stringArgument_resolves;
    [|done].
  unfold proxyHandler.
  rewrite Hns, bind_Returned.
  rewrite (stringArgument_stringly args "pod"), bind_Returned by done.
  rewrite Hpod. cbn [negb].
  rewrite textResult_events, Hh, bind_Returned, Hmethod, execIstioctl_events.
  reflexivity.
Qed.

(** C10, as the code has it. For an operation whose namespace starts out as
    "default", called with string arguments and its required parameters
    given: when the argument map yields nothing for [namespace] (the key is
    absent or bound to null) the operation works in "default"; when it yields
    a string, the empty one included, it works in exactly that string. The
    first request sent to the cluster carries this namespace, and for a
    listing operation the header of the content names it. *)
Theorem namespace_argument_resolution rt host w s h tool args namespace :
  tool ∈ GetTools FullProfile →
  defaultsNamespace (Handler tool) = true →
  handleOf s w = Some h →
  stringly args →
  firstMissing (Required_ (InputSchema (Tool_ tool))) args = None →
  resolvesTo args "namespace" "default" namespace →
  head (events (call rt host w s (Handler tool) (requestWith args)))
  = firstRequest (ProxyConfig h) (Handler tool) namespace args
  ∧ ∀ kind resource n,
      (Handler tool, kind, resource) ∈ listingOperations →
      listed (Handler tool) h namespace = Some n →
      ∃ rest, returned (call rt host w s (Handler tool) (requestWith args))
              = Some (successEnvelope (found n kind namespace +:+ rest), None).
Proof.
  intros Hin Hdef Hh Hargs Hreq Hns.
  apply (list_elem_of_fmap_2 (λ tool, (Handler tool, Required_ (InputSchema (Tool_ tool)))))
    in Hin.
  rewrite catalog_required in Hin. apply list_elem_of_In in Hin. cbn [In] in Hin.
  pose proof (handle_valid _ _ _ Hh) as Hh'.
  pose proof (stringArgument_resolves _ _ _ _ Hns) as Hns'.
  repeat destruct Hin as [Hin|Hin]; try done;
    injection Hin as Hf Hr; rewrite <- Hf in *; rewrite <- Hr in *; clear Hf Hr;
    try discriminate Hdef; cbn [call firstRequest].
  all: try (
    (* the eight listings *)
    progress unfold getVirtualServices, getDestinationRules, getGateways, getServiceEntries,
      getAuthorizationPolicies, getPeerAuthentications, getEnvoyFilters, getTelemetries;
    rewrite Hns', bind_Returned; split;
    [ rewrite textResult_events, Hh', bind_Returned;
      unfold GetVirtualServices, GetDestinationRules, GetGateways, GetServiceEntries,
        GetAuthorizationPolicies, GetPeerAuthentications, GetEnvoyFilters, GetTelemetries;
      rewrite events_bind_request; reflexivity
    | intros kind resource n Hk Hn;
      apply list_elem_of_In in Hk; cbn [In listingOperations] in Hk;
      repeat destruct Hk as [Hk|Hk]; try done; injection Hk as <- <-;
      cbn [listed] in Hn; unfold count in Hn;
      rewrite Hh', bind_Returned;
      unfold GetVirtualServices, GetDestinationRules, GetGateways, GetServiceEntries,
        GetAuthorizationPolicies, GetPeerAuthentications, GetEnvoyFilters, GetTelemetries;
      match type of Hn with
      | context [match ?answer with _ => _ end] => destruct answer as [items|e]
      end; [|discriminate]; injection Hn as <-;
      unfold returned, request, successEnvelope; cbn -[appendEach found];
      rewrite appendEach_prefix; eexists; reflexivity ]).
  all: split;
    [|intros kind resource n Hk; apply list_elem_of_In in Hk;
      cbn [In listingOperations] in Hk; repeat destruct Hk as [Hk|Hk]; done].
  - unfold getIstioConfigSummary. rewrite Hns', bind_Returned.
    rewrite textResult_events, Hh', bind_Returned. unfold GetIstioConfigSummary.
    rewrite events_bind_request. reflexivity.
  - unfold firstMissing in Hreq. cbn [find] in Hreq.
    destruct (missing args "service-name") eqn:Hs; [done|].
    destruct (missing args "external-host") eqn:Hx; [done|].
    apply missing_false in Hs, Hx.
    unfold checkExternalDependencyAvailability.
    rewrite (stringArgument_stringly args "service-name"), bind_Returned by done.
    rewrite Hs. cbn [negb].
    rewrite (stringArgument_stringly args "external-host"), bind_Returned by done.
    rewrite Hx. cbn [negb].
    rewrite Hns', bind_Returned.
    rewrite textResult_events, Hh', bind_Returned.
    unfold CheckExternalDependencyAvailability. rewrite events_bind_request. reflexivity.
  - unfold getServices. rewrite Hns', bind_Returned.
    rewrite textResult_events, Hh', bind_Returned. unfold GetServices.
    rewrite events_bind_request. reflexivity.
  - unfold firstMissing in Hreq. cbn [find] in Hreq.
    destruct (missing args "service") eqn:Hs; [done|]. apply missing_false in Hs.
    unfold getPodsByService. rewrite Hns', bind_Returned.
    rewrite (stringArgument_stringly args "service"), bind_Returned by done.
    rewrite Hs. cbn [negb].
    rewrite textResult_events, Hh', bind_Returned. unfold GetPodsByService.
    rewrite events_bind_request. reflexivity.
  - by apply proxyHandler_first_request.
  - by apply proxyHandler_first_request.
  - by apply proxyHandler_first_request.
  - by apply proxyHandler_first_request.
  - by apply proxyHandler_first_request.
  - by apply proxyHandler_first_request.
Qed.

Lemma namespace_argument_resolution_witness :
  head (events (call Fixtures.forwardRuntime Fixtures.quietHost
                  (Fixtures.worldOn Fixtures.emptyIstioClient) Fixtures.readyServer
                  s_getVirtualServices
                  (requestWith (<["namespace" := AnyString EmptyString]> ∅))))
  = Some (ApiList "virtualservices" EmptyString EmptyString EmptyString)
  ∧ ∃ rest,
      returned (call Fixtures.forwardRuntime Fixtures.quietHost
                  (Fixtures.worldOn Fixtures.emptyIstioClient) Fixtures.readyServer
                  s_getVirtualServices
                  (requestWith (<["namespace" := AnyString EmptyString]> ∅)))
      = Some (successEnvelope (("Found 0 Virtual Services in namespace '':" +:+ nl) +:+ rest),
              None).
Proof.
  destruct (namespace_argument_resolution Fixtures.forwardRuntime Fixtures.quietHost
              (Fixtures.worldOn Fixtures.emptyIstioClient) Fixtures.readyServer
              (Fixtures.handleOn Fixtures.emptyIstioClient)
              {| Tool_ := NewTool "get-virtual-services"
                   [ WithDescription "Get Istio Virtual Services configuration from any namespace. Virtual Services define routing rules for services in the Istio service mesh, including traffic splitting, fault injection, and retry policies. Use this to inspect traffic routing configuration across namespaces.";
                     WithString "namespace" [Description "Namespace to query (defaults to 'default'). Istio services can span multiple namespaces."];
                     WithTitleAnnotation "Istio: Virtual Services";
                     WithReadOnlyHintAnnotation true;
                     WithDestructiveHintAnnotation false ];
                 Handler := s_getVirtualServices |}
              (<["namespace" := AnyString EmptyString]> ∅) EmptyString)
    as [Hfirst Hheader].
  - apply list_elem_of_here.
  - reflexivity.
  - reflexivity.
  - apply stringly_insert_string, stringly_empty.
  - reflexivity.
  - right. reflexivity.
  - split; [exact Hfirst|].
    apply (Hheader "Virtual Services" "virtualservices" 0);
      [apply list_elem_of_here|reflexivity].
Defined.

(** *** The ranking of namespaces does not depend on the map visit *)

Lemma ltb_false_le (a b : string) : String.ltb b a = false ↔ String.le a b.
Proof.
  unfold String.le, String.ltb, String.leb. rewrite (String.compare_antisym a b).
  destruct (b ?= a)%string; cbn; split; try done.
Qed.

Lemma rankedBefore_spec a b :
  rankedBefore a b ↔
  nc_count b < nc_count a
  ∨ (nc_count a = nc_count b ∧ String.le (nc_namespace a) (nc_namespace b)).
Proof.
  unfold rankedBefore, less. rewrite negb_True.
  case_bool_decide as Hne.
  - rewrite bool_decide_spec. split; [lia|]. intros [?|[? _]]; [lia|congruence].
  - assert (nc_count b = nc_count a) as Heq by lia.
    rewrite Is_true_false, ltb_false_le. split; [by right|]. intros [?|[_ ?]]; [lia|done].
Qed.

Global Instance rankedBefore_trans : Transitive rankedBefore.
Proof.
  intros a b c. rewrite !rankedBefore_spec.
  intros [?|[? Hab]] [?|[? Hbc]]; try (left; lia).
  right. split; [lia|]. by etrans.
Qed.

Global Instance rankedBefore_antisym : AntiSymm eq rankedBefore.
Proof.
  intros [na ca] [nb cb]. rewrite !rankedBefore_spec. cbn.
  intros [?|[? Hab]] [?|[? Hba]]; try lia.
  subst. f_equal. by apply (anti_symm String.le).
Qed.

Global Instance rankedBefore_total : Total rankedBefore.
Proof.
  intros a b. rewrite !rankedBefore_spec.
  destruct (lt_eq_lt_dec (nc_count a) (nc_count b)) as [[?|?]|?];
    [right; by left| |left; by left].
  destruct (total String.le (nc_namespace a) (nc_namespace b)); [left|right]; right; done.
Qed.

Lemma sortSlice_Permutation (l1 l2 : list namespaceCount) :
  l1 ≡ₚ l2 → sortSlice l1 = sortSlice l2.
Proof.
  intros Hperm. unfold sortSlice.
  apply (Sorted_unique rankedBefore); [apply Sorted_merge_sort, _..|].
  by rewrite !merge_sort_Permutation.
Qed.

(** X2. The namespace discovery visits a map too, but sorts what it collected by
    count and then by name: its result is the same under every sound runtime. *)
Lemma DiscoverNamespacesWithSidecars_any_order rt1 rt2 (h : Istio) :
  Runtime_ok rt1 → Runtime_ok rt2 →
  DiscoverNamespacesWithSidecars rt1 h = DiscoverNamespacesWithSidecars rt2 h.
Proof.
  intros Hrt1 Hrt2. unfold DiscoverNamespacesWithSidecars, request.
  destruct (Pods_List (kubeClient h) _ _ _) as [pods|e]; [|done].
  cbn -[sortSlice countSidecars padLeft padRight fmt_d recommendation].
  case_bool_decide; [done|].
  rewrite (sortSlice_Permutation
             ((λ kv : string * nat, {| nc_namespace := kv.1; nc_count := kv.2 |})
                <$> mapRange rt1 (countSidecars pods))
             ((λ kv : string * nat, {| nc_namespace := kv.1; nc_count := kv.2 |})
                <$> mapRange rt2 (countSidecars pods))); [done|].
  apply fmap_Permutation. by rewrite (Hrt1 nat _), (Hrt2 nat _).
Qed.

(** ** Further properties of the handlers *)

Lemma returns_Returned {A} (a : A) (t : list Event) : returns ((Returned a, t) : M A).
Proof. by eexists. Qed.

Lemma returns_inv {A} (m : M A) : returns m → ∃ a t, m = (Returned a, t).
Proof. destruct m as [[a|why] t]; intros [x Hx]; [by eauto|done]. Qed.

Lemma returns_bind {A B} (m : M A) (k : A → M B) :
  returns m → (∀ a, returns (k a)) → returns (m ≫= k).
Proof.
  intros (a & t & ->)%returns_inv Hk. destruct (returns_inv _ (Hk a)) as (b & t' & Hb).
  unfold mbind, M_bind, bind. rewrite Hb. by eexists.
Qed.

Lemma returns_request {A} (e : Event) (answer : result A) : returns (request e answer).
Proof. by eexists. Qed.

Lemma returns_textResult (m : M (string * option error)) :
  returns m → returns (textResult m).
Proof.
  intros Hm. unfold textResult. apply returns_bind; [done|]. intros [content err]. by eexists.
Qed.

Lemma returns_execIstioctl host p args : returns (execIstioctl host p args).
Proof.
  unfold execIstioctl.
  destruct (CombinedOutput host (timeout p) _) as [output [err|]]; by eexists.
Qed.

(** Solves [returns m] for straight-line code over requests and matches. *)
Ltac returns_step :=
  first
    [ apply returns_Returned
    | apply returns_request
    | apply returns_execIstioctl
    | apply returns_textResult
    | apply returns_bind; [|intros ?]
    | match goal with
      | |- returns (match ?x with _ => _ end) => destruct x
      | |- returns (if ?b then _ else _) => destruct b
      end
    | by eexists ].

Lemma returns_summaryLine {A} (r : result (list A)) what title result :
  returns (summaryLine r what title result).
Proof. destruct r; by eexists. Qed.

Lemma returns_GetIstioConfigSummary h namespace :
  returns (GetIstioConfigSummary h namespace).
Proof.
  unfold GetIstioConfigSummary.
  repeat (apply returns_bind; [first [apply returns_request|apply returns_summaryLine]|intros ?]).
  by eexists.
Qed.

Lemma returns_CheckExternalDependencyAvailability h serviceName externalHost namespace :
  returns (CheckExternalDependencyAvailability h serviceName externalHost namespace).
Proof.
  unfold returns, returned, CheckExternalDependencyAvailability, request.
  destruct (ServiceEntries_List (istioClient h) namespace) as [seList|e1]; cbn; [|by eexists].
  destruct (findServiceEntry externalHost seList); cbn;
    [|destruct (ServiceEntries_List (istioClient h) "istio-system"); cbn];
    (destruct (VirtualServices_List (istioClient h) namespace); cbn; [|by eexists]);
    (destruct (DestinationRules_List (istioClient h) namespace); cbn; [|by eexists]);
    (destruct (AuthorizationPolicies_List (istioClient h) namespace); cbn; [|by eexists]);
    by eexists.
Qed.

Lemma returns_listings h namespace :
  returns (GetVirtualServices h namespace) ∧ returns (GetDestinationRules h namespace)
  ∧ returns (GetGateways h namespace) ∧ returns (GetServiceEntries h namespace)
  ∧ returns (GetAuthorizationPolicies h namespace)
  ∧ returns (GetPeerAuthentications h namespace)
  ∧ returns (GetEnvoyFilters h namespace) ∧ returns (GetTelemetries h namespace).
Proof.
  unfold GetVirtualServices, GetDestinationRules, GetGateways, GetServiceEntries,
    GetAuthorizationPolicies, GetPeerAuthentications, GetEnvoyFilters, GetTelemetries.
  split_and!; (apply returns_bind; [apply returns_request|intros [items|e]; by eexists]).
Qed.

Lemma returns_GetServices h namespace : returns (GetServices h namespace).
Proof.
  unfold GetServices. apply returns_bind; [apply returns_request|].
  intros [[|service items]|e]; by eexists.
Qed.

Lemma returns_GetPodsByService rt h namespace serviceName :
  returns (GetPodsByService rt h namespace serviceName).
Proof.
  unfold GetPodsByService. apply returns_bind; [apply returns_request|].
  intros [service|e]; [|by eexists].
  destruct (svc_Selector service) as [selector|].
  - apply returns_bind; [apply returns_request|].
    intros [pods|e]; [|by eexists].
    destruct (filter _ pods); by eexists.
  - apply returns_bind; [apply returns_request|].
    intros [[[|subset subsets]]|e]; by eexists.
Qed.

Lemma returns_DiscoverNamespacesWithSidecars rt h :
  returns (DiscoverNamespacesWithSidecars rt h).
Proof.
  unfold DiscoverNamespacesWithSidecars. apply returns_bind; [apply returns_request|].
  intros [pods|e]; [|by eexists]. case_bool_decide; by eexists.
Qed.

Lemma textResult_returns (m : M (string * option error)) :
  returns m →
  ∃ content err t, textResult m = (Returned (NewTextResult content err, None), t).
Proof.
  intros ([content err] & t & ->)%returns_inv. unfold textResult. cbn. by eexists _, _, _.
Qed.

Lemma proxyHandler_returns host w s h method args :
  (∀ namespace podName, returns (method host (ProxyConfig h) namespace podName)) →
  stringly args → handleOf s w = Some h →
  ∃ content err t,
    proxyHandler host w s method (requestWith args)
    = (Returned (NewTextResult content err, None), t).
Proof.
  intros Hmethod Hargs Hh%handle_valid. unfold proxyHandler.
  rewrite (stringArgument_stringly args "namespace"), bind_Returned by done.
  rewrite (stringArgument_stringly args "pod"), bind_Returned by done.
  destruct (negb _); [by eexists _, _, _|].
  apply textResult_returns. rewrite Hh, bind_Returned. apply Hmethod.
Qed.

(** X3. With arguments that are strings or null and a handle in place, no handler
    panics: every call returns a nil Go error and an envelope built by
    [NewTextResult], hence with exactly one text item. *)
Theorem call_returns_envelope rt host w s h f args :
  stringly args →
  handleOf s w = Some h →
  ∃ content err t,
    call rt host w s f (requestWith args)
    = (Returned (NewTextResult content err, None), t).
Proof.
  intros Hargs Hh. pose proof (handle_valid _ _ _ Hh) as Hh'.
  pose proof (returns_listings h) as Hlist.
  destruct f; cbn [call];
    unfold getProxyClusters, getProxyListeners, getProxyRoutes, getProxyEndpoints,
      getProxyBootstrap, getProxyConfigDump;
    try (apply (proxyHandler_returns host w s h);
         [intros; apply returns_execIstioctl|done..]);
    unfold getVirtualServices, getDestinationRules, getGateways, getServiceEntries,
      getAuthorizationPolicies, getPeerAuthentications, getEnvoyFilters, getTelemetries,
      getIstioConfigSummary, getServices, discoverIstioNamespaces, getIstioAnalyze;
    try (rewrite (stringArgument_stringly args "namespace"), bind_Returned by done);
    try (apply textResult_returns; rewrite Hh', bind_Returned;
         first [ apply Hlist | apply returns_GetIstioConfigSummary | apply returns_GetServices
               | apply returns_DiscoverNamespacesWithSidecars
               | unfold GetAnalyze; destruct (nonEmpty _); apply returns_execIstioctl ]).
  - unfold checkExternalDependencyAvailability.
    rewrite (stringArgument_stringly args "service-name"), bind_Returned by done.
    destruct (negb _); [by eexists _, _, _|].
    rewrite (stringArgument_stringly args "external-host"), bind_Returned by done.
    destruct (negb _); [by eexists _, _, _|].
    rewrite (stringArgument_stringly args "namespace"), bind_Returned by done.
    apply textResult_returns. rewrite Hh', bind_Returned.
    apply returns_CheckExternalDependencyAvailability.
  - unfold getPodsByService.
    rewrite (stringArgument_stringly args "namespace"), bind_Returned by done.
    rewrite (stringArgument_stringly args "service"), bind_Returned by done.
    destruct (negb _); [by eexists _, _, _|].
    apply textResult_returns. rewrite Hh', bind_Returned. apply returns_GetPodsByService.
  - unfold getProxyStatus.
    rewrite (stringArgument_stringly args "namespace"), bind_Returned by done.
    rewrite (stringArgument_stringly args "pod"), bind_Returned by done.
    destruct (_ && _); apply textResult_returns; rewrite Hh', bind_Returned;
      apply returns_execIstioctl.
Qed.

Lemma call_returns_envelope_witness :
  ∃ content err t,
    call Fixtures.forwardRuntime Fixtures.quietHost
      (Fixtures.worldOn Fixtures.emptyIstioClient) Fixtures.readyServer
      s_getIstioConfigSummary (requestWith (<["namespace" := AnyNil]> ∅))
    = (Returned (NewTextResult content err, None), t).
Proof.
  apply (call_returns_envelope Fixtures.forwardRuntime Fixtures.quietHost
           (Fixtures.worldOn Fixtures.emptyIstioClient) Fixtures.readyServer
           (Fixtures.handleOn Fixtures.emptyIstioClient)).
  - apply stringly_insert_nil, stringly_empty.
  - reflexivity.
Defined.

Lemma stringArgument_panics args key :
  notAString (index args key) →
  ∃ reason, ∀ initial,
    stringArgument (requestWith args) key initial = (Panicked reason, []).
Proof.
  unfold stringArgument. cbn. destruct (index args key); [done|done|..]; intros _;
    by eexists.
Qed.

Lemma bind_Panicked {A B} (reason : string) (t : list Event) (k : A → M B) :
  ((Panicked reason, t) : M A) ≫= k = (Panicked reason, t).
Proof. reflexivity. Qed.

(** X4. A namespace argument that is a number or a boolean makes the handler
    panic in its type assertion, before any request is sent to the cluster and
    before any subprocess is started. This holds for every operation except
    the namespace discovery, which reads no argument, and the dependency
    check, which reads its required parameters first. *)
Theorem non_string_namespace_panics rt host w s f args :
  readsNamespaceFirst f = true →
  notAString (index args "namespace") →
  ∃ reason, call rt host w s f (requestWith args) = (Panicked reason, []).
Proof.
  intros Hf [reason Hpanic]%stringArgument_panics. exists reason.
  destruct f; try discriminate Hf; cbn [call];
    unfold getVirtualServices, getDestinationRules, getGateways, getServiceEntries,
      getAuthorizationPolicies, getPeerAuthentications, getEnvoyFilters, getTelemetries,
      getIstioConfigSummary, getServices, getPodsByService, getProxyClusters,
      getProxyListeners, getProxyRoutes, getProxyEndpoints, getProxyBootstrap,
      getProxyConfigDump, proxyHandler, getProxyStatus, getIstioAnalyze;
    by rewrite Hpanic.
Qed.

Lemma non_string_namespace_panics_witness :
  ∃ reason,
    call Fixtures.forwardRuntime Fixtures.quietHost
      (Fixtures.worldOn Fixtures.emptyIstioClient) Fixtures.readyServer
      s_getGateways (requestWith (<["namespace" := AnyNumber 7]> ∅))
    = (Panicked reason, []).
Proof.
  apply (non_string_namespace_panics Fixtures.forwardRuntime Fixtures.quietHost
           (Fixtures.worldOn Fixtures.emptyIstioClient) Fixtures.readyServer
           s_getGateways (<["namespace" := AnyNumber 7]> ∅)).
  - reflexivity.
  - exact I.
Defined.

(** X5. When the cluster refuses the listing of a resource-listing operation, the
    call returns an error envelope whose message is "failed to list <kind>: "
    followed by the message of the cluster's error, after that one request. *)
Theorem listing_failure_message rt host w s h f kind resource args namespace e :
  (f, kind, resource) ∈ listingOperations →
  handleOf s w = Some h →
  resolvesTo args "namespace" "default" namespace →
  listingError f h namespace = Some e →
  call rt host w s f (requestWith args)
  = (Returned (errorEnvelope ("failed to list " +:+ listingWords f +:+ ": " +:+ Error e),
               None),
     [ApiList resource namespace EmptyString EmptyString]).
Proof.
  intros Hin Hh%handle_valid Hns%stringArgument_resolves.
  apply list_elem_of_In in Hin. cbn [In listingOperations] in Hin.
  repeat destruct Hin as [Hin|Hin]; try done; injection Hin as <- <- <-;
    cbn [call listingError listingWords];
    unfold getVirtualServices, getDestinationRules, getGateways, getServiceEntries,
      getAuthorizationPolicies, getPeerAuthentications, getEnvoyFilters, getTelemetries;
    rewrite Hns, bind_Returned, Hh, bind_Returned;
    unfold GetVirtualServices, GetDestinationRules, GetGateways, GetServiceEntries,
      GetAuthorizationPolicies, GetPeerAuthentications, GetEnvoyFilters, GetTelemetries;
    match goal with
    | |- context [request _ ?answer] => destruct answer as [items|e']
    end; try discriminate; intros [= ->]; reflexivity.
Qed.

Lemma listing_failure_message_witness :
  call Fixtures.forwardRuntime Fixtures.quietHost
    (Fixtures.worldOn Fixtures.brokenIstioClient) Fixtures.readyServer
    s_getVirtualServices (requestWith ∅)
  = (Returned (errorEnvelope "failed to list virtual services: connection refused", None),
     [ApiList "virtualservices" "default" EmptyString EmptyString]).
Proof.
  apply (listing_failure_message Fixtures.forwardRuntime Fixtures.quietHost
           (Fixtures.worldOn Fixtures.brokenIstioClient) Fixtures.readyServer
           (Fixtures.handleOn Fixtures.brokenIstioClient)
           s_getVirtualServices "Virtual Services" "virtualservices" ∅ "default"
           (errorString "connection refused")).
  - apply list_elem_of_here.
  - reflexivity.
  - left. split; reflexivity.
  - reflexivity.
Defined.

(** *** Configuration summary *)

Lemma append_nil_r (a : string) : a +:+ EmptyString = a.
Proof. induction a as [|c a IH]; [done|]. rewrite append_String. by rewrite IH. Qed.

Lemma summary_step {A B} (answer : result (list A)) resource what title namespace result
    (k : string → M B) :
  (r ← request (ApiList resource namespace EmptyString EmptyString) answer;
   result ← summaryLine r what title result;
   k result)
  = ((k (result +:+ summaryText {| entry_resource := resource; entry_words := what;
                                   entry_title := title;
                                   entry_answer := answerSize answer |})).1,
     summaryEvents namespace {| entry_resource := resource; entry_words := what;
                                entry_title := title;
                                entry_answer := answerSize answer |}
     ++ (k (result +:+ summaryText {| entry_resource := resource; entry_words := what;
                                      entry_title := title;
                                      entry_answer := answerSize answer |})).2).
Proof.
  unfold request, summaryLine, summaryText, summaryEvents.
  destruct answer as [items|e]; cbn.
  - by destruct (k _).
  - rewrite append_nil_r. by destruct (k _).
Qed.

Lemma append_nil_l (a : string) : EmptyString +:+ a = a.
Proof. reflexivity. Qed.

(** X6. The configuration summary is best effort. It always sends its eight
    listings, in a fixed order, and always returns a content and no error: the
    content is the title followed by one line "<Title>: <count>" for each
    listing that succeeded, and each listing that failed leaves no line and
    one warning in the log. *)
Theorem GetIstioConfigSummary_best_effort (h : Istio) (namespace : string) :
  GetIstioConfigSummary h namespace
  = (Returned (("Istio Configuration Summary for namespace '" +:+ namespace +:+ "':"
                +:+ nl +:+ nl)
               +:+ unlines (summaryText <$> summaryEntries h namespace), None),
     concat (summaryEvents namespace <$> summaryEntries h namespace)).
Proof.
  unfold GetIstioConfigSummary. rewrite !summary_step. cbn [fst snd].
  unfold summaryEntries, unlines. cbn [fmap list_fmap fold_right concat mret M_ret ret].
  by rewrite !append_assoc, append_nil_r, !app_nil_r.
Qed.

(** *** Proxy introspection *)

Lemma execIstioctl_run host p args output err :
  CombinedOutput host (timeout p) (kubeconfigFlag p ++ args) = (output, err) →
  textResult (execIstioctl host p args)
  = (Returned (subprocessEnvelope output err, None),
     [Exec "istioctl" (kubeconfigFlag p ++ args)]).
Proof.
  unfold execIstioctl, kubeconfigFlag, textResult. intros ->. by destruct err.
Qed.

(** X7. A per-pod introspection operation called with a pod starts one
    subprocess, [istioctl proxy-config <section> <pod>.<namespace> -o json],
    preceded by the kubeconfig flag when the client has a path, under the
    client's deadline. When the subprocess fails (non-zero exit or expired
    deadline) the call returns an error envelope that carries the failure and
    the combined output; otherwise the content is the output, unchanged. *)
Theorem proxy_introspection_result rt host w s h f section args namespace output err :
  proxySection f = Some section →
  handleOf s w = Some h →
  stringly args →
  nonEmpty (stringOf args "pod" EmptyString) = true →
  resolvesTo args "namespace" "default" namespace →
  CombinedOutput host (timeout (ProxyConfig h))
    (kubeconfigFlag (ProxyConfig h)
     ++ ["proxy-config"; section; stringOf args "pod" EmptyString +:+ "." +:+ namespace;
         "-o"; "json"])
  = (output, err) →
  call rt host w s f (requestWith args)
  = (Returned (subprocessEnvelope output err, None),
     [proxyInvocation (ProxyConfig h) section namespace (stringOf args "pod" EmptyString)]).
Proof.
  intros Hf Hh%handle_valid Hargs Hpod Hns%stringArgument_resolves Hout.
  destruct f; try discriminate Hf; injection Hf as <-; cbn [call];
    unfold getProxyClusters, getProxyListeners, getProxyRoutes, getProxyEndpoints,
      getProxyBootstrap, getProxyConfigDump, proxyHandler;
    rewrite Hns, bind_Returned;
    rewrite (stringArgument_stringly args "pod"), bind_Returned by done;
    rewrite Hpod; cbn [negb]; rewrite Hh, bind_Returned;
    by apply execIstioctl_run.
Qed.

Lemma proxy_introspection_result_witness :
  call Fixtures.forwardRuntime Fixtures.quietHost
    (Fixtures.worldOn Fixtures.emptyIstioClient) Fixtures.readyServer
    s_getProxyRoutes
    (requestWith (<["pod" := AnyString "app-1"]> (<["namespace" := AnyString "ns1"]> ∅)))
  = (Returned (successEnvelope "{}", None),
     [Exec "istioctl" ["proxy-config"; "route"; "app-1.ns1"; "-o"; "json"]]).
Proof.
  etrans.
  - apply (proxy_introspection_result Fixtures.forwardRuntime Fixtures.quietHost
             (Fixtures.worldOn Fixtures.emptyIstioClient) Fixtures.readyServer
             (Fixtures.handleOn Fixtures.emptyIstioClient) s_getProxyRoutes "route"
             (<["pod" := AnyString "app-1"]> (<["namespace" := AnyString "ns1"]> ∅))
             "ns1" "{}" None).
    + reflexivity.
    + reflexivity.
    + do 2 apply stringly_insert_string. apply stringly_empty.
    + reflexivity.
    + right. reflexivity.
    + reflexivity.
  - vm_compute. reflexivity.
Defined.

(** X8. The configuration analysis starts [istioctl analyze -n <namespace>] when
    a non-empty namespace is given and [istioctl analyze], for the whole
    cluster, when the namespace is absent, null or empty. *)
Theorem getIstioAnalyze_invocation host w s h args :
  stringly args →
  handleOf s w = Some h →
  events (getIstioAnalyze host w s (requestWith args))
  = [Exec "istioctl"
       (kubeconfigFlag (ProxyConfig h)
        ++ (if nonEmpty (stringOf args "namespace" EmptyString)
            then ["analyze"; "-n"; stringOf args "namespace" EmptyString]
            else ["analyze"]))].
Proof.
  intros Hargs Hh%handle_valid. unfold getIstioAnalyze.
  rewrite (stringArgument_stringly args "namespace"), bind_Returned by done.
  rewrite textResult_events, Hh, bind_Returned. unfold GetAnalyze.
  destruct (nonEmpty _); apply execIstioctl_events.
Qed.

Lemma getIstioAnalyze_invocation_witness :
  events (getIstioAnalyze Fixtures.quietHost (Fixtures.worldOn Fixtures.emptyIstioClient)
            Fixtures.readyServer (requestWith (<["namespace" := AnyString "shop"]> ∅)))
  = [Exec "istioctl" ["analyze"; "-n"; "shop"]].
Proof.
  etrans.
  - apply (getIstioAnalyze_invocation Fixtures.quietHost
             (Fixtures.worldOn Fixtures.emptyIstioClient) Fixtures.readyServer
             (Fixtures.handleOn Fixtures.emptyIstioClient)
             (<["namespace" := AnyString "shop"]> ∅)).
    + apply stringly_insert_string, stringly_empty.
    + reflexivity.
  - vm_compute. reflexivity.
Defined.

(** ** Further properties of construction, watch and shutdown *)

Lemma NewIstio_Err_witness :
  (∃ e, buildConfig Fixtures.badEnv EmptyString = Err e
        ∧ errorString "failed to build config: invalid configuration"
          = wrap "failed to build config: " e)
  ∨ (∃ cfg e, buildConfig Fixtures.badEnv EmptyString = Ok cfg
        ∧ kubernetes_NewForConfig Fixtures.badEnv cfg.1 = Err e
        ∧ errorString "failed to build config: invalid configuration"
          = wrap "failed to create kubernetes client: " e)
  ∨ (∃ cfg e, buildConfig Fixtures.badEnv EmptyString = Ok cfg
        ∧ versioned_NewForConfig Fixtures.badEnv cfg.1 = Err e
        ∧ errorString "failed to build config: invalid configuration"
          = wrap "failed to create istio client: " e).
Proof.
  apply (NewIstio_Err Fixtures.badEnv EmptyString). reflexivity.
Defined.

(** X9. A handle that [NewIstio] returns is complete: its configuration and both
    clients are the ones the three construction steps produced, its proxy
    client carries the kubeconfig path given and a deadline of 30 seconds,
    and it has no watch yet. *)
Theorem NewIstio_Ok env kubeconfig h :
  NewIstio env kubeconfig = Ok h →
  (∃ cc, buildConfig env kubeconfig = Ok (config h, cc) ∧ clientCmdConfig h = Some cc)
  ∧ kubernetes_NewForConfig env (config h) = Ok (kubeClient h)
  ∧ versioned_NewForConfig env (config h) = Ok (istioClient h)
  ∧ ProxyConfig h = {| kubeconfig := kubeconfig; timeout := 30 |}
  ∧ CloseWatchKubeConfig h = None.
Proof.
  unfold NewIstio. destruct (buildConfig env kubeconfig) as [[cfg cc]|] eqn:Hb; [|done].
  destruct (kubernetes_NewForConfig env cfg) eqn:Hk; [|done].
  destruct (versioned_NewForConfig env cfg) eqn:Hv; [|done].
  intros [= <-]. cbn. split_and!; eauto.
Qed.

Lemma NewIstio_Ok_witness :
  ProxyConfig (Fixtures.handleOn Fixtures.emptyIstioClient)
  = {| kubeconfig := EmptyString; timeout := 30 |}.
Proof.
  apply (NewIstio_Ok (Fixtures.goodEnv Fixtures.emptyIstioClient) EmptyString
           (Fixtures.handleOn Fixtures.emptyIstioClient)).
  reflexivity.
Defined.

Lemma NewServer_start env configuration s0 w0 :
  NewServer env configuration = Some (Ok s0, w0) →
  ∃ h, NewIstio env (Kubeconfig configuration) = Ok h
       ∧ s0 = {| mcp.configuration := configuration;
                 server := {| tools := GetTools (Profile_ configuration) |};
                 i := Some 0 |}
       ∧ (w0 = {| istios := [h]; watchers := []; klog := klog w0 |}
          ∨ ∃ files, watchable env h = Some files
              ∧ w0 = {| istios := [{| kubeClient := kubeClient h;
                                      istioClient := istioClient h;
                                      config := config h;
                                      clientCmdConfig := clientCmdConfig h;
                                      CloseWatchKubeConfig := Some 0;
                                      ProxyConfig := ProxyConfig h |}];
                        watchers := [{| w_files := files;
                                        w_onKubeConfigChange := s_reloadIstioClient;
                                        w_closeCalls := 0 |}];
                        klog := klog w0 |}).
Proof.
  unfold NewServer, reloadIstioClient. cbn.
  destruct (NewIstio env (Kubeconfig configuration)) as [h|e] eqn:Hnew; cbn; [|done].
  pose proof (NewIstio_no_watch _ _ _ Hnew) as Hnone.
  unfold WatchKubeConfig; cbn. rewrite Hnone.
  destruct (clientCmdConfig h) as [cc|] eqn:Hcc; cbn;
    [|intros [= <- <-]; exists h; split_and!; [done..|left; reflexivity]].
  destruct (cc_ConfigAccess cc) as [ca|] eqn:Hca; cbn;
    [|intros [= <- <-]; exists h; split_and!; [done..|left; reflexivity]].
  destruct (GetLoadingPrecedence ca) as [|file files] eqn:Hfiles; cbn;
    [intros [= <- <-]; exists h; split_and!; [done..|left; reflexivity]|].
  destruct (fsnotify_NewWatcher env) eqn:Hwatcher; cbn;
    [intros [= <- <-]; exists h; split_and!; [done..|left; reflexivity]|].
  intros [= <- <-]. exists h. split_and!; [done..|]. right.
  eexists. split; [|reflexivity].
  unfold watchable. rewrite Hcc. cbn. rewrite Hca. cbn. by rewrite Hfiles, Hwatcher.
Qed.

(** X10. The start fails exactly when the first handle cannot be built. It then
    returns the error of [NewIstio] and leaves nothing behind, neither a
    handle nor a watcher nor a log line; a watch that cannot be installed
    never fails the start. *)
Theorem NewServer_fails_exactly env configuration e w :
  NewServer env configuration = Some (Err e, w)
  ↔ NewIstio env (Kubeconfig configuration) = Err e ∧ w = emptyWorld.
Proof.
  unfold NewServer, reloadIstioClient. cbn.
  destruct (NewIstio env (Kubeconfig configuration)) as [h|e'] eqn:Hnew;
    cbn -[WatchKubeConfig].
  - split; [|by intros [? _]].
    by destruct (WatchKubeConfig env 0 s_reloadIstioClient _).
  - split; [by intros [= -> <-]|]. by intros [[= ->] ->].
Qed.

Lemma step_keeps_catalog a s w s' w' :
  step a (s, w) = Some (s', w') →
  configuration s' = configuration s
  ∧ (tools (server s') = tools (server s)
     ∨ tools (server s') = GetTools (Profile_ (configuration s))).
Proof.
  destruct a as [id env|id err|env]; cbn.
  - destruct (watchers w !! id) as [wt|]; [|intros [= <- <-]; by auto].
    destruct (live wt); [|intros [= <- <-]; by auto].
    destruct (w_onKubeConfigChange wt). unfold reloadIstioClient.
    destruct (NewIstio env (Kubeconfig (configuration s))); cbn;
      intros [= <- <-]; by auto.
  - destruct (watchers w !! id) as [wt|]; [|intros [= <- <-]; by auto].
    destruct (live wt); intros [= <- <-]; by auto.
  - destruct (mcp.Close env s w); cbn; [|done]. intros [= <- <-]. by auto.
Qed.

(** X11. From the start on and whatever happens, the tools registered with the
    server are the catalog of the configured profile, and the configuration is
    the one the server was started with: a reload replaces the registered
    tools by the same catalog. *)
Theorem registered_tools_are_the_catalog env configuration s0 w0 actions s w :
  NewServer env configuration = Some (Ok s0, w0) →
  run actions (s0, w0) = Some (s, w) →
  mcp.configuration s = configuration
  ∧ tools (server s) = GetTools (Profile_ configuration).
Proof.
  intros (h & _ & -> & _)%NewServer_start.
  assert (Hgen : ∀ st, run actions st = Some (s, w) →
            mcp.configuration st.1 = configuration →
            tools (server st.1) = GetTools (Profile_ configuration) →
            mcp.configuration s = configuration
            ∧ tools (server s) = GetTools (Profile_ configuration)).
  { induction actions as [|a rest IH]; intros [s1 w1]; cbn [run].
    - by intros [= <- <-].
    - destruct (step a (s1, w1)) as [[s2 w2]|] eqn:Hstep; cbn [mbind option_bind];
        [|done].
      intros Hrun Hc Ht. cbn [fst] in Hc, Ht.
      apply step_keeps_catalog in Hstep as [Hc2 Ht2].
      apply (IH (s2, w2)); cbn [fst]; [done|congruence|].
      destruct Ht2 as [->| ->]; [done|by rewrite Hc]. }
  intros Hrun. by apply (Hgen _ Hrun).
Qed.

Lemma registered_tools_are_the_catalog_witness :
  mcp.configuration Fixtures.readyServer = Fixtures.fullConfiguration
  ∧ tools (server Fixtures.readyServer) = GetTools (Profile_ Fixtures.fullConfiguration).
Proof.
  eapply (registered_tools_are_the_catalog
            (Fixtures.goodEnv Fixtures.emptyIstioClient) Fixtures.fullConfiguration
            _ _ [] Fixtures.readyServer).
  - reflexivity.
  - reflexivity.
Defined.

(** X12. [WatchKubeConfig] degrades silently: when the handle has no client
    configuration, or that gives no access to its files, or there is no file,
    or the watcher cannot be created, the call changes no handle and no
    watcher and only writes one log line. *)
Theorem WatchKubeConfig_degraded env ptr onKubeConfigChange (w : World) h :
  istios w !! ptr = Some h →
  watchable env h = None →
  ∃ line, WatchKubeConfig env ptr onKubeConfigChange w = Some (logLine line w).
Proof.
  intros Hh. unfold watchable, WatchKubeConfig. rewrite Hh. cbn.
  destruct (clientCmdConfig h) as [cc|]; cbn; [|by eexists].
  destruct (cc_ConfigAccess cc) as [ca|]; cbn; [|by eexists].
  destruct (GetLoadingPrecedence ca) as [|file files]; [by eexists|].
  destruct (fsnotify_NewWatcher env); [by eexists|done].
Qed.

Lemma WatchKubeConfig_degraded_witness :
  ∃ line,
    WatchKubeConfig
      {| BuildConfigFromFlags := λ _, Ok Fixtures.okRest;
         NewClientConfigFromBytes := Ok Fixtures.defaultKubeconfig;
         NewNonInteractiveDeferredLoadingClientConfig := λ _, Fixtures.defaultKubeconfig;
         kubernetes_NewForConfig := λ _, Ok Fixtures.webKubeClient;
         versioned_NewForConfig := λ _, Ok Fixtures.emptyIstioClient;
         fsnotify_NewWatcher := Some (errorString "too many open files");
         watcher_Add := λ _, None;
         watcher_Close := None |}
      0 s_reloadIstioClient (Fixtures.worldOn Fixtures.emptyIstioClient)
    = Some (logLine line (Fixtures.worldOn Fixtures.emptyIstioClient)).
Proof.
  apply (WatchKubeConfig_degraded _ 0 s_reloadIstioClient
           (Fixtures.worldOn Fixtures.emptyIstioClient)
           (Fixtures.handleOn Fixtures.emptyIstioClient)); reflexivity.
Defined.

Lemma closeWatcher_istios env previous failure w :
  istios (closeWatcher env previous failure w) = istios w.
Proof. unfold closeWatcher. by destruct (watcher_Close env). Qed.

Lemma closeWatcher_watchers env previous failure w :
  watchers (closeWatcher env previous failure w)
  = alter (λ wt, {| w_files := w_files wt;
                    w_onKubeConfigChange := w_onKubeConfigChange wt;
                    w_closeCalls := S (w_closeCalls wt) |}) previous (watchers w).
Proof. unfold closeWatcher. by destruct (watcher_Close env). Qed.

(** X13. When a watch can be installed, [WatchKubeConfig] creates one new watcher
    for the files it could add, open and bound to the handle, and closes the
    watcher the handle was bound to before exactly once; every other watcher
    is left as it was. *)
Theorem WatchKubeConfig_replaces_watch env ptr onKubeConfigChange (w : World) h files :
  istios w !! ptr = Some h →
  (∀ previous, CloseWatchKubeConfig h = Some previous → previous < length (watchers w)) →
  watchable env h = Some files →
  ∃ w',
    WatchKubeConfig env ptr onKubeConfigChange w = Some w'
    ∧ watchers w' !! length (watchers w)
      = Some {| w_files := files; w_onKubeConfigChange := onKubeConfigChange;
                w_closeCalls := 0 |}
    ∧ length (watchers w') = S (length (watchers w))
    ∧ (istios w' !! ptr ≫= CloseWatchKubeConfig) = Some (length (watchers w))
    ∧ ∀ other, other < length (watchers w) →
        closeCallsOf other w'
        = (if decide (CloseWatchKubeConfig h = Some other) then S else λ n, n)
          <$> closeCallsOf other w.
Proof.
  intros Hh Hbound. unfold watchable, WatchKubeConfig. rewrite Hh. cbn.
  destruct (clientCmdConfig h) as [cc|]; cbn; [|done].
  destruct (cc_ConfigAccess cc) as [ca|]; cbn; [|done].
  destruct (GetLoadingPrecedence ca) as [|file rest] eqn:Hfiles; [done|].
  destruct (fsnotify_NewWatcher env); [done|]. intros [= <-].
  eexists. split; [reflexivity|].
  unfold bindClose, closeCallsOf. cbn [istios watchers].
  destruct (CloseWatchKubeConfig h) as [previous|] eqn:Hprev.
  - specialize (Hbound _ eq_refl).
    rewrite closeWatcher_istios, closeWatcher_watchers. cbn [istios watchers].
    split_and!.
    + rewrite list_lookup_alter_ne by lia.
      by rewrite lookup_app_r, Nat.sub_diag by lia.
    + rewrite length_alter, length_app. cbn. lia.
    + by rewrite list_lookup_alter_eq, Hh.
    + intros other Hother. case_decide as Hd.
      * injection Hd as ->. rewrite list_lookup_alter_eq, lookup_app_l by done.
        by destruct (watchers w !! other).
      * rewrite list_lookup_alter_ne by congruence. rewrite lookup_app_l by done.
        by destruct (watchers w !! other).
  - cbn [istios watchers]. split_and!.
    + by rewrite lookup_app_r, Nat.sub_diag by lia.
    + rewrite length_app. cbn. lia.
    + by rewrite list_lookup_alter_eq, Hh.
    + intros other Hother. case_decide; [done|]. rewrite lookup_app_l by done.
      by destruct (watchers w !! other).
Qed.

Lemma WatchKubeConfig_replaces_watch_witness :
  ∃ w',
    WatchKubeConfig (Fixtures.goodEnv Fixtures.emptyIstioClient) 0 s_reloadIstioClient
      (watchedWorld Fixtures.emptyIstioClient)
    = Some w'
    ∧ watchers w' !! 1 = Some startupWatcher
    ∧ length (watchers w') = 2
    ∧ (istios w' !! 0 ≫= CloseWatchKubeConfig) = Some 1
    ∧ ∀ other, other < 1 →
        closeCallsOf other w'
        = (if decide (Some 0 = Some other) then S else λ n, n)
          <$> closeCallsOf other (watchedWorld Fixtures.emptyIstioClient).
Proof.
  apply (WatchKubeConfig_replaces_watch (Fixtures.goodEnv Fixtures.emptyIstioClient) 0
           s_reloadIstioClient (watchedWorld Fixtures.emptyIstioClient)
           (watchedHandle Fixtures.emptyIstioClient) ["/root/.kube/config"]).
  - reflexivity.
  - intros previous [= <-]. cbn. lia.
  - reflexivity.
Defined.

(** X14. A reload that succeeds switches the server to the handle just built, at
    a fresh address, and keeps every earlier handle and every watcher as it
    was. The new handle has no watch, so closing the server afterwards only
    writes its log line: the watcher installed at the start is not closed. *)
Theorem reload_success_switches_handle env env' (s : Server) (w : World) h :
  NewIstio env (Kubeconfig (configuration s)) = Ok h →
  ∃ s' w',
    reloadIstioClient env s w = (s', w', None)
    ∧ handleOf s' w' = Some h
    ∧ (∀ ptr, ptr < length (istios w) → istios w' !! ptr = istios w !! ptr)
    ∧ watchers w' = watchers w
    ∧ mcp.Close env' s' w' = Some (logLine "Closing Istio client connections" w').
Proof.
  intros Hnew. pose proof (NewIstio_no_watch _ _ _ Hnew) as Hnone.
  unfold reloadIstioClient. rewrite Hnew. cbn. eexists _, _. split; [reflexivity|].
  unfold handleOf, mcp.Close, istio.Close. cbn.
  rewrite lookup_app_r, Nat.sub_diag by lia. cbn. rewrite Hnone.
  split_and!; [done| |done|done].
  intros ptr Hptr. by rewrite lookup_app_l.
Qed.

Lemma reload_success_switches_handle_witness :
  ∃ s' w',
    reloadIstioClient (Fixtures.goodEnv Fixtures.brokenIstioClient) Fixtures.readyServer
      (watchedWorld Fixtures.emptyIstioClient)
    = (s', w', None)
    ∧ handleOf s' w' = Some (Fixtures.handleOn Fixtures.brokenIstioClient)
    ∧ (∀ ptr, ptr < 1 →
         istios w' !! ptr = istios (watchedWorld Fixtures.emptyIstioClient) !! ptr)
    ∧ watchers w' = [startupWatcher]
    ∧ mcp.Close (Fixtures.goodEnv Fixtures.brokenIstioClient) s' w'
      = Some (logLine "Closing Istio client connections" w').
Proof.
  apply (reload_success_switches_handle (Fixtures.goodEnv Fixtures.brokenIstioClient)
           (Fixtures.goodEnv Fixtures.brokenIstioClient) Fixtures.readyServer
           (watchedWorld Fixtures.emptyIstioClient)
           (Fixtures.handleOn Fixtures.brokenIstioClient)).
  reflexivity.
Defined.

(** X15. Closing a server right after its start closes the watcher of the start,
    if there is one, exactly once; from then on no file change is handled. *)
Theorem shutdown_after_start_stops_reloads env env' configuration s0 w0 :
  NewServer env configuration = Some (Ok s0, w0) →
  ∃ w1,
    step (Shutdown env') (s0, w0) = Some (s0, w1)
    ∧ length (watchers w1) = length (watchers w0)
    ∧ (∀ id, id < length (watchers w0) → closeCallsOf id w1 = Some 1)
    ∧ ∀ id env'', step (FileChanged id env'') (s0, w1) = Some (s0, w1).
Proof.
  intros (h & Hnew%NewIstio_no_watch & -> & [Hw|(files & _ & Hw)])%NewServer_start;
    rewrite Hw; clear Hw; unfold mcp.Close, istio.Close; cbn.
  - rewrite Hnew. eexists. split_and!; [reflexivity|done|cbn; lia|].
    by intros [|id] env''.
  - unfold closeWatcher.
    destruct (watcher_Close env'); cbn;
      (eexists; split_and!; [reflexivity|done| |]);
      try (intros [|id] Hid; cbn in *; [done|lia]);
      by intros [|[|id]] env''.
Qed.

Lemma shutdown_after_start_stops_reloads_witness :
  ∃ w1,
    step (Shutdown (Fixtures.goodEnv Fixtures.emptyIstioClient))
      (Fixtures.readyServer, watchedWorld Fixtures.emptyIstioClient)
    = Some (Fixtures.readyServer, w1)
    ∧ length (watchers w1) = length (watchers (watchedWorld Fixtures.emptyIstioClient))
    ∧ (∀ id, id < length (watchers (watchedWorld Fixtures.emptyIstioClient)) →
         closeCallsOf id w1 = Some 1)
    ∧ ∀ id env'', step (FileChanged id env'') (Fixtures.readyServer, w1)
                  = Some (Fixtures.readyServer, w1).
Proof.
  apply (shutdown_after_start_stops_reloads (Fixtures.goodEnv Fixtures.emptyIstioClient)
           (Fixtures.goodEnv Fixtures.emptyIstioClient) Fixtures.fullConfiguration).
  reflexivity.
Defined.

(** ** Further properties of the catalog and of the profiles *)

Lemma find_by_name (l : list ServerTool) (tool : ServerTool) :
  NoDup ((λ t, Name (Tool_ t)) <$> l) → tool ∈ l →
  find (λ t, String.eqb (Name (Tool_ t)) (Name (Tool_ tool))) l = Some tool.
Proof.
  induction l as [|t l IH]; cbn; [by intros _ ?%elem_of_nil|].
  intros [Hfresh Hl]%NoDup_cons [->|Hin]%elem_of_cons.
  - by rewrite String.eqb_refl.
  - destruct (String.eqb_spec (Name (Tool_ t)) (Name (Tool_ tool))) as [Heq|_]; [|by apply IH].
    destruct Hfresh. rewrite Heq. apply list_elem_of_fmap. by exists tool.
Qed.

Lemma find_by_name_None (l : list ServerTool) (name : string) :
  name ∉ (λ t, Name (Tool_ t)) <$> l →
  find (λ t, String.eqb (Name (Tool_ t)) name) l = None.
Proof.
  induction l as [|t l IH]; cbn; [done|]. intros [Hne Hl]%not_elem_of_cons.
  destruct (String.eqb_spec (Name (Tool_ t)) name); [done|by apply IH].
Qed.

Lemma toolNames_NoDup (p : Profile) : NoDup (toolNames p).
Proof. destruct p. apply (bool_decide_unpack _). vm_compute. exact I. Qed.

(** X16. The names of the catalog are pairwise distinct, so a call by name reaches
    every tool of the catalog and runs the handler of that very tool, with
    the name and the arguments given; a name outside the catalog reaches no
    handler. *)
Theorem callTool_dispatches_by_name rt host w (s : Server) tool toolName args :
  tool ∈ GetTools (Profile_ (configuration s)) →
  Name (Tool_ tool) = toolName →
  callTool rt host w s toolName args
  = Some (call rt host w s (Handler tool)
            {| Params_Name := toolName; Params_Arguments := args |})
  ∧ ∀ other, other ∉ toolNames (Profile_ (configuration s)) →
      callTool rt host w s other args = None.
Proof.
  intros Hin <-. split.
  - unfold callTool. by rewrite (find_by_name _ tool (toolNames_NoDup _) Hin).
  - intros other Hout. unfold callTool. by rewrite find_by_name_None.
Qed.

Lemma callTool_dispatches_by_name_witness :
  callTool Fixtures.forwardRuntime Fixtures.quietHost
    (Fixtures.worldOn Fixtures.emptyIstioClient) Fixtures.readyServer
    "get-proxy-clusters" ∅
  = Some (call Fixtures.forwardRuntime Fixtures.quietHost
            (Fixtures.worldOn Fixtures.emptyIstioClient) Fixtures.readyServer
            s_getProxyClusters
            {| Params_Name := "get-proxy-clusters"; Params_Arguments := ∅ |}).
Proof.
  eapply (callTool_dispatches_by_name Fixtures.forwardRuntime Fixtures.quietHost
            (Fixtures.worldOn Fixtures.emptyIstioClient) Fixtures.readyServer
            {| Tool_ := _; Handler := s_getProxyClusters |} "get-proxy-clusters" ∅).
  - apply (elem_of_app (initNetworkingTools ++ initSecurityTools ++ initConfigurationTools)
             initProxyConfigTools).
    right. apply list_elem_of_here.
  - reflexivity.
Defined.

(** X17. A profile name is accepted exactly when it is one of [ProfileNames], and
    the profile returned is the one that carries the name. *)
Theorem ProfileFromString_accepts_ProfileNames (name : string) :
  (∀ p, ProfileFromString name = Some p ↔ GetName p = name)
  ∧ (ProfileFromString name = None ↔ name ∉ ProfileNames).
Proof.
  unfold ProfileFromString, ProfileNames, Profiles. cbn -[String.eqb].
  destruct (String.eqb_spec "full" name) as [<-|Hne]; split.
  - by intros [].
  - split; [by intros [=]|]. intros Hout. destruct Hout. apply list_elem_of_here.
  - intros []. split; [by intros [=]|]. intros <-. by destruct Hne.
  - split; [|done]. intros _ Hin. apply list_elem_of_In in Hin as [<-|[]]. by destruct Hne.
Qed.

(** ** Further properties of the namespace discovery *)

Lemma countSidecars_fold (pods : list Pod) (m0 : gmap string nat) (namespace : string) :
  fold_left (λ (m : gmap string nat) pod,
      if negb (String.eqb (pod_Phase pod) "Running")
         || bool_decide (length (pod_Containers pod) = 0)
      then m
      else if hasIstioProxy pod
           then <[pod_Namespace pod := S (default 0 (m !! pod_Namespace pod))]> m
           else m) pods m0 !! namespace
  = if bool_decide (meshedPods namespace pods = 0) then m0 !! namespace
    else Some (default 0 (m0 !! namespace) + meshedPods namespace pods).
Proof.
  revert m0. induction pods as [|pod pods IH]; intros m0; [done|].
  cbn [fold_left]. rewrite IH. clear IH. unfold meshedPods. rewrite filter_cons.
  unfold meshed, hasIstioProxy.
  destruct (String.eqb (pod_Phase pod) "Running"); cbn [negb orb andb].
  2: { rewrite decide_False by (by intros [? _]). done. }
  destruct (pod_Containers pod) as [|c cs] eqn:Hcs; cbn [length existsb].
  { rewrite (bool_decide_true (0 = 0)) by done.
    rewrite decide_False by (by intros [? _]). done. }
  rewrite (bool_decide_false (S (length cs) = 0)) by done.
  destruct (String.eqb (c_Name c) "istio-proxy" || existsb _ cs); cbn [orb].
  2: { rewrite decide_False by (by intros [? _]). done. }
  destruct (decide (pod_Namespace pod = namespace)) as [->|Hne].
  - rewrite decide_True by done. cbn [length]. rewrite lookup_insert_eq. cbn.
    rewrite (bool_decide_false (S _ = 0)) by done.
    case_bool_decide as Hzero; [rewrite Hzero; f_equal; lia|f_equal; lia].
  - rewrite decide_False by (by intros [_ ?]). by rewrite lookup_insert_ne.
Qed.

(** X18. The discovery counts, for each namespace, the pods of the listing that
    run and have a container named istio-proxy; a namespace without such a pod
    does not appear at all. *)
Theorem countSidecars_counts (pods : list Pod) (namespace : string) :
  countSidecars pods !! namespace
  = if bool_decide (meshedPods namespace pods = 0) then None
    else Some (meshedPods namespace pods).
Proof.
  unfold countSidecars.
  rewrite (countSidecars_fold pods ∅ namespace).
  by rewrite lookup_empty.
Qed.

(** X19. When no pod of the listing runs with an istio-proxy container, the
    discovery answers, after its one request, that no namespace has sidecars. *)
Theorem DiscoverNamespacesWithSidecars_none rt (h : Istio) pods :
  Pods_List (kubeClient h) EmptyString EmptyString "status.phase=Running" = Ok pods →
  (∀ pod, pod ∈ pods → meshed pod = false) →
  DiscoverNamespacesWithSidecars rt h
  = (Returned ("No namespaces with Istio sidecars found", None),
     [ApiList "pods" EmptyString EmptyString "status.phase=Running"]).
Proof.
  intros Hpods Hnone. unfold DiscoverNamespacesWithSidecars, request. rewrite Hpods.
  assert (Hempty : countSidecars pods = ∅).
  { apply map_eq. intros namespace. unfold countSidecars.
    rewrite countSidecars_fold, lookup_empty. rewrite bool_decide_true; [done|].
    unfold meshedPods. destruct (filter _ pods) as [|pod rest] eqn:Hfilter; [done|].
    assert (Hin : pod ∈ filter (λ pod, meshed pod = true ∧ pod_Namespace pod = namespace)
                    pods) by (rewrite Hfilter; apply list_elem_of_here).
    apply list_elem_of_filter in Hin as [[Hm _] Hin]. by rewrite (Hnone pod Hin) in Hm. }
  cbn -[countSidecars sortSlice padLeft padRight fmt_d recommendation].
  rewrite Hempty. reflexivity.
Qed.

Lemma DiscoverNamespacesWithSidecars_none_witness :
  DiscoverNamespacesWithSidecars Fixtures.forwardRuntime plainHandle
  = (Returned ("No namespaces with Istio sidecars found", None),
     [ApiList "pods" EmptyString EmptyString "status.phase=Running"]).
Proof.
  apply (DiscoverNamespacesWithSidecars_none Fixtures.forwardRuntime plainHandle [plainPod]).
  - reflexivity.
  - intros pod Hin. apply list_elem_of_In in Hin as [<-|[]]. reflexivity.
Defined.

Lemma DiscoverNamespacesWithSidecars_any_order_witness :
  DiscoverNamespacesWithSidecars Fixtures.forwardRuntime
    (Fixtures.handleOn Fixtures.emptyIstioClient)
  = DiscoverNamespacesWithSidecars Fixtures.backwardRuntime
      (Fixtures.handleOn Fixtures.emptyIstioClient).
Proof.
  apply (DiscoverNamespacesWithSidecars_any_order Fixtures.forwardRuntime
           Fixtures.backwardRuntime (Fixtures.handleOn Fixtures.emptyIstioClient)).
  - intros V m. reflexivity.
  - intros V m. apply reverse_Permutation.
Defined.

(** ** Further properties of the pods-by-service operation *)

(** X20. When the service asked for cannot be fetched, the call returns an error
    envelope "failed to get service <name>: <cause>" after that one request:
    neither pods nor endpoints are asked for. *)
Theorem getPodsByService_service_not_found rt host w s h args namespace e :
  handleOf s w = Some h →
  stringly args →
  nonEmpty (stringOf args "service" EmptyString) = true →
  resolvesTo args "namespace" "default" namespace →
  Services_Get (kubeClient h) namespace (stringOf args "service" EmptyString) = Err e →
  call rt host w s s_getPodsByService (requestWith args)
  = (Returned (errorEnvelope ("failed to get service " +:+ stringOf args "service" EmptyString
                              +:+ ": " +:+ Error e), None),
     [ApiGet "services" namespace (stringOf args "service" EmptyString)]).
Proof.
  intros Hh%handle_valid Hargs Hservice Hns%stringArgument_resolves Hget.
  cbn [call]. unfold getPodsByService.
  rewrite Hns, bind_Returned.
  rewrite (stringArgument_stringly args "service"), bind_Returned by done.
  rewrite Hservice. cbn [negb]. rewrite Hh, bind_Returned.
  unfold GetPodsByService. rewrite Hget. reflexivity.
Qed.

Lemma getPodsByService_service_not_found_witness :
  call Fixtures.forwardRuntime Fixtures.quietHost
    {| istios := [plainHandle]; watchers := []; klog := [] |} Fixtures.readyServer
    s_getPodsByService (requestWith (<["service" := AnyString "web"]> ∅))
  = (Returned (errorEnvelope "failed to get service web: services not found", None),
     [ApiGet "services" "default" "web"]).
Proof.
  etrans.
  - apply (getPodsByService_service_not_found Fixtures.forwardRuntime Fixtures.quietHost
             {| istios := [plainHandle]; watchers := []; klog := [] |} Fixtures.readyServer
             plainHandle (<["service" := AnyString "web"]> ∅) "default"
             (errorString "services not found")).
    + reflexivity.
    + apply stringly_insert_string, stringly_empty.
    + reflexivity.
    + left. split; reflexivity.
    + reflexivity.
  - vm_compute. reflexivity.
Defined.

(** X21. For a service without a selector no pod is listed: the operation fetches
    the service and its endpoints and returns a content and no error,
    whatever the endpoints request answers. *)
Theorem GetPodsByService_without_selector rt (h : Istio) namespace serviceName service :
  Services_Get (kubeClient h) namespace serviceName = Ok service →
  svc_Selector service = None →
  ∃ content,
    GetPodsByService rt h namespace serviceName
    = (Returned (content, None),
       [ApiGet "services" namespace serviceName; ApiGet "endpoints" namespace serviceName]).
Proof.
  intros Hget Hsel. unfold GetPodsByService, request. rewrite Hget. cbn. rewrite Hsel.
  destruct (Endpoints_Get (kubeClient h) namespace serviceName) as [[[|subset subsets]]|e];
    by eexists.
Qed.

Lemma GetPodsByService_without_selector_witness :
  ∃ content,
    GetPodsByService Fixtures.forwardRuntime
      {| kubeClient := {| Services_List := λ _, Ok [];
                          Services_Get := λ _ _,
                            Ok {| svc_Name := "db"; svc_Type := "ExternalName";
                                  svc_ClusterIP := EmptyString; svc_Selector := None;
                                  svc_Ingress := [] |};
                          Endpoints_Get := λ _ _, Err (errorString "endpoints not found");
                          Pods_List := λ _ _ _, Ok [plainPod] |};
         istioClient := Fixtures.emptyIstioClient; config := Fixtures.okRest;
         clientCmdConfig := None; CloseWatchKubeConfig := None;
         ProxyConfig := NewProxyConfigClient EmptyString |}
      "shop" "db"
    = (Returned (content, None),
       [ApiGet "services" "shop" "db"; ApiGet "endpoints" "shop" "db"]).
Proof.
  eapply (GetPodsByService_without_selector Fixtures.forwardRuntime _ "shop" "db").
  - reflexivity.
  - reflexivity.
Defined.

Lemma Permutation_short {A} (l1 l2 : list A) :
  l1 ≡ₚ l2 → length l2 ≤ 1 → l1 = l2.
Proof.
  intros Hperm Hlen. destruct l2 as [|x [|y l2]]; cbn in Hlen; [| |lia].
  - by apply Permutation_nil_r.
  - by apply Permutation_singleton_r.
Qed.

(** X22. The selector line and the label selector of the pod listing follow the
    map visit only for a selector of two labels or more: when every selector
    the cluster answers with has at most one label, the operation gives the
    same result under every sound runtime. *)
Theorem GetPodsByService_short_selector_any_order rt1 rt2 (h : Istio) namespace serviceName :
  Runtime_ok rt1 → Runtime_ok rt2 →
  (∀ service selector,
     Services_Get (kubeClient h) namespace serviceName = Ok service →
     svc_Selector service = Some selector → size selector ≤ 1) →
  GetPodsByService rt1 h namespace serviceName = GetPodsByService rt2 h namespace serviceName.
Proof.
  intros Hrt1 Hrt2 Hshort. unfold GetPodsByService, request.
  destruct (Services_Get (kubeClient h) namespace serviceName) as [service|e] eqn:Hget;
    [|done].
  cbn. destruct (svc_Selector service) as [selector|] eqn:Hsel; [|done].
  specialize (Hshort service selector eq_refl Hsel).
  assert (Hsame : mapRange rt1 selector = mapRange rt2 selector).
  { apply Permutation_short.
    - by rewrite (Hrt1 _ selector), (Hrt2 _ selector).
    - rewrite (Hrt2 _ selector). by rewrite length_map_to_list. }
  by rewrite Hsame.
Qed.

Lemma GetPodsByService_short_selector_any_order_witness :
  GetPodsByService Fixtures.forwardRuntime singleLabelHandle "shop" "web"
  = GetPodsByService Fixtures.backwardRuntime singleLabelHandle "shop" "web".
Proof.
  apply (GetPodsByService_short_selector_any_order Fixtures.forwardRuntime
           Fixtures.backwardRuntime singleLabelHandle "shop" "web").
  - intros V m. reflexivity.
  - intros V m. apply reverse_Permutation.
  - intros service selector [= <-] [= <-]. vm_compute. lia.
Defined.

(** ** Further properties of the dependency check *)

(** X23. When its four listings in the namespace succeed, the dependency check
    returns a report and no error. It looks for the service entry in
    istio-system only when the namespace has no entry for the host, and then
    whatever that listing answers; the other three listings follow in a fixed
    order. *)
Theorem CheckExternalDependencyAvailability_requests
    (h : Istio) (serviceName externalHost namespace : string) seList :
  ServiceEntries_List (istioClient h) namespace = Ok seList →
  ¬ failed (VirtualServices_List (istioClient h) namespace) →
  ¬ failed (DestinationRules_List (istioClient h) namespace) →
  ¬ failed (AuthorizationPolicies_List (istioClient h) namespace) →
  ∃ content,
    CheckExternalDependencyAvailability h serviceName externalHost namespace
    = (Returned (content, None),
       ApiList "serviceentries" namespace EmptyString EmptyString
       :: match findServiceEntry externalHost seList with
          | Some _ => []
          | None => [ApiList "serviceentries" "istio-system" EmptyString EmptyString]
          end
       ++ [ ApiList "virtualservices" namespace EmptyString EmptyString;
            ApiList "destinationrules" namespace EmptyString EmptyString;
            ApiList "authorizationpolicies" namespace EmptyString EmptyString ]).
Proof.
  unfold failed, CheckExternalDependencyAvailability, request.
  intros -> Hvs Hdr Hap. cbn.
  destruct (findServiceEntry externalHost seList); cbn;
    [|destruct (ServiceEntries_List (istioClient h) "istio-system"); cbn];
    (destruct (VirtualServices_List (istioClient h) namespace); cbn; [|done]);
    (destruct (DestinationRules_List (istioClient h) namespace); cbn; [|done]);
    (destruct (AuthorizationPolicies_List (istioClient h) namespace); cbn; [|done]);
    by eexists.
Qed.

Lemma CheckExternalDependencyAvailability_requests_witness :
  ∃ content,
    CheckExternalDependencyAvailability (Fixtures.handleOn Fixtures.guardedIstioClient)
      "orders" "rds.amazonaws.com" "shop"
    = (Returned (content, None),
       [ ApiList "serviceentries" "shop" EmptyString EmptyString;
         ApiList "serviceentries" "istio-system" EmptyString EmptyString;
         ApiList "virtualservices" "shop" EmptyString EmptyString;
         ApiList "destinationrules" "shop" EmptyString EmptyString;
         ApiList "authorizationpolicies" "shop" EmptyString EmptyString ]).
Proof.
  apply (CheckExternalDependencyAvailability_requests
           (Fixtures.handleOn Fixtures.guardedIstioClient)
           "orders" "rds.amazonaws.com" "shop" []).
  - reflexivity.
  - intros [].
  - intros [].
  - intros [].
Defined.

(** ** Further properties of the service listing *)


